(** * Sofia research agent: the figure localisation pipeline and the chat

    A shallow embedding of [src/services/geminiService.ts]: the target
    extractor, the page locator, the rasteriser, the cropper, the region
    detector with its validation gates, the enhancer and the orchestrator
    ([visualizeFigure]); the library functions ([extractPaperMetadata],
    [generateKnowledgeGraph], [analyzeAuthor], [explainCitation],
    [findResearchGap]) and the chat ([sendMessage]); and of their callers:
    the handlers of [src/App.tsx] ([handleSendMessage], [handleAskSofia],
    [handleUpload], [handleUpdatePaper], [handleDeletePaper],
    [extractPdfText]), the reading of the images of a message in
    [src/components/ChatInterface.tsx] and the zoom of the image viewer.

    Conventions of the embedding.
    - A JavaScript string is a [string] of code units below 256.
    - A JavaScript number is an IEEE 754 binary64 value, a primitive
      [float]: the arithmetic and the comparisons are the rounded ones of
      the language.  The zoom factor of the image viewer alone is an exact
      rational.
    - A value that comes out of [JSON.parse] is a [json] and is converted
      where the code converts it: [ToString] and [ToNumber] throw a
      TypeError on an object that has a member [toString] of its own (no
      parsed value can be called).
    - Everything the service obtains from outside (pdf.js, the inference
      client, image decoding, the canvas) is a field of [World] or of
      [Assistant]; a world fixes the answer to each request, so two calls
      with the same arguments get the same answer.
    - An [await]ed call that rejects and a [throw] are both [Throw];
      [try]/[catch] is [try_catch].  Every call to the outside, every
      [console] line and every call of [cropImage] is recorded in a trace.
    - Every message and every paper that is created takes an identifier
      from [crypto.randomUUID()] and a date from [new Date()]:
      [randomUUID w n] and [now w n] are the ones of the [n]-th object that
      the function under study creates.
    - A handler of the application is a function of the state it reads;
      no other update of the state happens while it runs, except the one
      that [handleSendMessage] tests for ([activeRequestRef]). *)

From Stdlib Require Import ZArith QArith Ascii String List Lia Permutation.
From Stdlib Require Import Floats.PrimFloat Floats.SpecFloat Floats.FloatOps Floats.FloatAxioms.
From Stdlib Require Uint63.
From stdpp Require Import base list strings.

Set Warnings "-register-all".
Open Scope string_scope.
Open Scope list_scope.

(** ** Strings *)

Module Str.

Definition code (c : ascii) : nat := nat_of_ascii c.

Definition in_range (lo hi : nat) (c : ascii) : bool :=
  (lo <=? code c)%nat && (code c <=? hi)%nat.

(** [String.prototype.toLowerCase] on code units below 256: A-Z and the
    Latin-1 capitals (192-222 except the multiplication sign 215). *)
Definition lower_char (c : ascii) : ascii :=
  if in_range 65 90 c then ascii_of_nat (code c + 32)
  else if in_range 192 222 c && negb (code c =? 215)%nat
       then ascii_of_nat (code c + 32)
       else c.

Fixpoint toLowerCase (s : string) : string :=
  match s with
  | EmptyString => EmptyString
  | String c s' => String (lower_char c) (toLowerCase s')
  end.

(** [s.startsWith(p)] *)
Definition startsWith (p s : string) : bool := String.prefix p s.

(** [xs.join(sep)] *)
Fixpoint join (sep : string) (xs : list string) : string :=
  match xs with
  | [] => ""
  | [x] => x
  | x :: rest => x +:+ sep +:+ join sep rest
  end.

(** [s.split(c)] for a one-character separator. *)
Fixpoint split_on (c : ascii) (s : string) : list string :=
  match s with
  | EmptyString => [""]
  | String a s' =>
      if Ascii.eqb a c then "" :: split_on c s'
      else match split_on c s' with
           | [] => [String a ""]
           | x :: rest => String a x :: rest
           end
  end.

(** Removal of every occurrence of one of the literal alternatives [pats]
    (tried in order at each position, scanning left to right): what
    [s.replace(/a|b/g, '')] does when [a] and [b] are literals. *)
Fixpoint drop_prefix (p s : string) : option string :=
  match p, s with
  | EmptyString, _ => Some s
  | String a p', String b s' => if Ascii.eqb a b then drop_prefix p' s' else None
  | String _ _, EmptyString => None
  end.

Fixpoint first_drop (pats : list string) (s : string) : option string :=
  match pats with
  | [] => None
  | p :: ps => match drop_prefix p s with
               | Some r => Some r
               | None => first_drop ps s
               end
  end.

Fixpoint remove_all_fuel (fuel : nat) (pats : list string) (s : string) : string :=
  match fuel with
  | O => s
  | S fuel' =>
      match first_drop pats s with
      | Some r => remove_all_fuel fuel' pats r
      | None => match s with
                | EmptyString => EmptyString
                | String a s' => String a (remove_all_fuel fuel' pats s')
                end
      end
  end.

(** The patterns are non-empty, so each step consumes a character and
    [String.length s] steps (plus one for the end) are enough. *)
Definition remove_all (pats : list string) (s : string) : string :=
  remove_all_fuel (S (String.length s)) pats s.

End Str.

(** ** Regular expressions

    The fragment of JavaScript regular expressions that the three patterns
    of [findPageForQuery] use: character classes, sequence, ordered
    alternative, greedy [?], greedy [*] and [+] over a character class, and
    capture groups.  The matcher is the backtracking one of the language:
    alternatives in order, greedy repetition first, leftmost start first. *)

Module Regex.

Inductive regex : Type :=
| Chr (p : ascii -> bool)
| Eps
| Seq (r1 r2 : regex)
| Alt (r1 r2 : regex)
| Opt (r : regex)
| Star (p : ascii -> bool)
| Plus (p : ascii -> bool)
| Group (n : nat) (r : regex).

(** Captures: the most recent text of each numbered group. *)
Definition captures := list (nat * list ascii).

Fixpoint capture (n : nat) (c : captures) : option (list ascii) :=
  match c with
  | [] => None
  | (m, v) :: c' => if (m =? n)%nat then Some v else capture n c'
  end.

Section Matcher.
Context {R : Type}.

(** Greedy repetition of a class: take one more character first, fall
    back to the continuation. *)
Fixpoint star (p : ascii -> bool) (s : list ascii)
         (k : list ascii -> option R) : option R :=
  match s with
  | a :: s' =>
      if p a then
        match star p s' k with
        | Some x => Some x
        | None => k s
        end
      else k s
  | [] => k s
  end.

Fixpoint run (r : regex) (s : list ascii) (c : captures)
         (k : list ascii -> captures -> option R) : option R :=
  match r with
  | Chr p => match s with
             | a :: s' => if p a then k s' c else None
             | [] => None
             end
  | Eps => k s c
  | Seq r1 r2 => run r1 s c (fun s' c' => run r2 s' c' k)
  | Alt r1 r2 => match run r1 s c k with
                 | Some x => Some x
                 | None => run r2 s c k
                 end
  | Opt r1 => match run r1 s c k with
              | Some x => Some x
              | None => k s c
              end
  | Star p => star p s (fun s' => k s' c)
  | Plus p => match s with
              | a :: s' => if p a then star p s' (fun s'' => k s'' c) else None
              | [] => None
              end
  | Group n r1 =>
      run r1 s c (fun s' c' =>
        k s' ((n, take (length s - length s') s) :: c'))
  end.
End Matcher.

(** [re.exec(s)]: the first start position, from the left, at which the
    pattern matches; the captures of that match. *)
Fixpoint exec_from (r : regex) (s : list ascii) : option captures :=
  match run r s [] (fun _ c => Some c) with
  | Some c => Some c
  | None => match s with
            | [] => None
            | _ :: s' => exec_from r s'
            end
  end.

Definition exec (r : regex) (s : string) : option captures :=
  exec_from r (list_ascii_of_string s).

(** [re.test(s)] for a pattern without the [g] flag. *)
Definition test (r : regex) (s : string) : bool :=
  match exec r s with Some _ => true | None => false end.

(** Classes.  Under the [i] flag a pattern letter matches both cases; a
    code unit of 128 or more never folds onto one below 128. *)
Definition upper_ascii (c : ascii) : ascii :=
  if Str.in_range 97 122 c then ascii_of_nat (Str.code c - 32) else c.

Definition ci (c : ascii) : ascii -> bool :=
  fun a => Ascii.eqb (upper_ascii a) (upper_ascii c).

Definition is_digit (c : ascii) : bool := Str.in_range 48 57 c.

(** [\s] on code units below 256: TAB, LF, VT, FF, CR, space, NBSP. *)
Definition is_space (c : ascii) : bool :=
  Str.in_range 9 13 c || (Str.code c =? 32)%nat || (Str.code c =? 160)%nat.

Definition one_of (cs : list ascii) : ascii -> bool :=
  fun a => existsb (Ascii.eqb a) cs.

(** A literal under the [i] flag. *)
Fixpoint lit_ci (s : string) : regex :=
  match s with
  | EmptyString => Eps
  | String c s' => Seq (Chr (ci c)) (lit_ci s')
  end.

(** A run of digits, not empty. *)
Definition is_number (s : string) : bool :=
  match list_ascii_of_string s with
  | [] => false
  | l => forallb is_digit l
  end.

(** [text] is [pat] up to the case of the letters. *)
Fixpoint ci_match (pat text : string) : bool :=
  match pat, text with
  | EmptyString, EmptyString => true
  | String p pat', String a text' => ci p a && ci_match pat' text'
  | _, _ => false
  end.

End Regex.

(** ** JavaScript values *)

(** Numbers: IEEE 754 binary64, with its [NaN], its infinities and its
    two zeros. *)
Definition jsnum : Type := float.

Definition NaN : jsnum := PrimFloat.nan.

Module Num.

(** [a - b], [a * b], [a / b]: the correctly rounded operations. *)
Definition sub (a b : jsnum) : jsnum := PrimFloat.sub a b.
Definition mul (a b : jsnum) : jsnum := PrimFloat.mul a b.
Definition div (a b : jsnum) : jsnum := PrimFloat.div a b.

(** [a <= b], [a < b], [a > b]: every comparison with [NaN] is false. *)
Definition le (a b : jsnum) : bool := PrimFloat.leb a b.
Definition lt (a b : jsnum) : bool := PrimFloat.ltb a b.
Definition gt (a b : jsnum) : bool := lt b a.

(** The length of an array as a number (lengths are below 2^32, where the
    conversion is exact). *)
Definition of_nat (n : nat) : jsnum :=
  PrimFloat.of_uint63 (Uint63.of_Z (Z.of_nat n)).

End Num.

(** What [JSON.parse] returns.  The members of an object are kept in the
    order of the text; on a repeated key the later member wins. *)
Inductive json : Type :=
| JNull
| JBool (b : bool)
| JNum (x : jsnum)
| JStr (s : string)
| JArr (elems : list json)
| JObj (members : list (string * json)).

(** [v.key] on a value that is not [null]: [None] is [undefined]. *)
Fixpoint lookup_member (key : string) (members : list (string * json)) : option json :=
  match members with
  | [] => None
  | (k, v) :: rest =>
      match lookup_member key rest with
      | Some v' => Some v'
      | None => if String.eqb k key then Some v else None
      end
  end.

Definition get_prop (key : string) (v : json) : option json :=
  match v with
  | JObj members => lookup_member key members
  | _ => None
  end.

(** The double quote character, for the prompts. *)
Definition dq : string := String (ascii_of_nat 34) EmptyString.

(** Built-ins of the language and of the DOM that the service relies on
    and that are not re-implemented here. *)
Record Runtime : Type := {
  JSON_parse : string -> option json;      (* [None]: throws SyntaxError *)
  NumberToString : jsnum -> string;
  StringToNumber : string -> jsnum;
  canvas_dim : jsnum -> Z                  (* a number assigned to canvas.width, read back *)
}.

Section Conversions.
Variable rt : Runtime.

(** [String(v)], as a template literal applies it; [None]: a TypeError.
    An array is joined with commas, [null] elements giving the empty
    string.  An object is printed by the [toString] of [Object.prototype],
    unless it has a member [toString] of its own: that member is a parsed
    value, which cannot be called, [valueOf] returns the object itself,
    and the conversion throws. *)
Fixpoint ToString (v : json) : option string :=
  match v with
  | JNull => Some "null"
  | JBool true => Some "true"
  | JBool false => Some "false"
  | JNum x => Some (NumberToString rt x)
  | JStr s => Some s
  | JArr elems =>
      option_map (Str.join ",")
        ((fix each (l : list json) : option (list string) :=
            match l with
            | [] => Some []
            | JNull :: l' => option_map (cons "") (each l')
            | x :: l' => match ToString x with
                         | Some s => option_map (cons s) (each l')
                         | None => None
                         end
            end) elems)
  | JObj members =>
      match lookup_member "toString" members with
      | Some _ => None
      | None => Some "[object Object]"
      end
  end.

(** [Number(v)], as the arithmetic operators apply it; [None]: a
    TypeError.  An array or an object is converted through its string. *)
Definition ToNumber (v : json) : option jsnum :=
  match v with
  | JNull => Some 0%float
  | JBool true => Some 1%float
  | JBool false => Some 0%float
  | JNum x => Some x
  | JStr s => Some (StringToNumber rt s)
  | JArr _ | JObj _ => option_map (StringToNumber rt) (ToString v)
  end.

(** An element of [xs.join(sep)]. *)
Definition join_element (v : json) : option string :=
  match v with
  | JNull => Some ""
  | _ => ToString v
  end.

(** [xs.join(sep)] on an array of parsed values. *)
Fixpoint join_elements (xs : list json) : option (list string) :=
  match xs with
  | [] => Some []
  | x :: rest => match join_element x with
                 | Some s => option_map (cons s) (join_elements rest)
                 | None => None
                 end
  end.

Definition join_values (sep : string) (xs : list json) : option string :=
  option_map (Str.join sep) (join_elements xs).

(** A value that a template literal can print. *)
Definition printable (v : json) : bool :=
  match ToString v with
  | Some _ => true
  | None => false
  end.
End Conversions.

(** ** Errors, traces and the monad of the service *)

Inductive JsError : Type :=
| TypeError
| SyntaxError
| Error (msg : string)
| Rejected (what : string).

Inductive Res (A : Type) : Type :=
| Ok (a : A)
| Throw (e : JsError).
Arguments Ok {A} a.
Arguments Throw {A} e.

(** Requests to and responses of the inference client. *)
Inductive ReqPart : Type :=
| InlineData (mime data : string)
| Text (s : string).

Inductive Contents : Type :=
| Prompt (s : string)
| Parts (ps : list ReqPart).

Record Request : Type := {
  model : string;
  contents : Contents;
  responseMimeType : option string
}.

Record Blob : Type := { mimeType : option string; data : option string }.
Record Part : Type := { inlineData : option Blob; part_text : option string }.
Record Content : Type := { parts : option (list Part) }.
Record Candidate : Type := { content : option Content }.
Record Response : Type := {
  text : option string;
  candidates : option (list Candidate)
}.

Inductive Event : Type :=
| console_warn (msg : string)
| console_error (msg : string)
| call_getDocument (url : string)
| call_getPage (i : nat)
| call_getTextContent (i : nat)
| call_render (i : nat)
| call_generateContent (req : Request)
| call_cropImage (img : string) (box : list jsnum)
| call_drawImage (img : string) (sx sy sw sh : jsnum) (dw dh : Z).

Definition M (A : Type) : Type := (Res A * list Event)%type.

Definition ret {A} (a : A) : M A := (Ok a, []).
Definition throw {A} (e : JsError) : M A := (Throw e, []).
Definition emit (ev : Event) : M unit := (Ok tt, [ev]).

Definition bind {A B} (m : M A) (f : A -> M B) : M B :=
  match m with
  | (Ok a, t) => let (r, t') := f a in (r, t ++ t')
  | (Throw e, t) => (Throw e, t)
  end.

(** [try { m } catch (e) { h e }] *)
Definition try_catch {A} (m : M A) (h : JsError -> M A) : M A :=
  match m with
  | (Throw e, t) => let (r, t') := h e in (r, t ++ t')
  | ok => ok
  end.

(** An awaited call to the outside: record it, then resolve or reject. *)
Definition await {A} (ev : Event) (what : string) (o : option A) : M A :=
  match o with
  | Some a => (Ok a, [ev])
  | None => (Throw (Rejected what), [ev])
  end.

Notation "'let*' x ':=' m 'in' k" := (bind m (fun x => k))
  (at level 10, x name, m at level 100, k at level 200).
Notation "'perform' m 'in' k" := (bind m (fun _ => k))
  (at level 10, m at level 100, k at level 200).

(** ** The outside world *)

Record PdfPage : Type := {
  page_items : option (list string);    (* getTextContent(): the [str] of each item *)
  page_viewport : jsnum * jsnum;        (* getViewport({scale: 2.0}): width, height *)
  page_render : option (string * string)
    (* render(...).promise, then canvas.toDataURL('image/jpeg', 0.8):
       media type and payload of the data URL; [None]: render rejects *)
}.

Record PdfDoc : Type := {
  numPages : nat;
  getPage : nat -> option PdfPage
}.

Record World : Type := {
  pdfjsLib : bool;                                 (* window.pdfjsLib is there *)
  getDocument : string -> option PdfDoc;           (* getDocument(url).promise *)
  getContext2d : Z -> Z -> bool;                   (* canvas.getContext('2d') is not null *)
  generateContent : Request -> option Response;    (* ai.models.generateContent *)
  image_decode : string -> option (jsnum * jsnum); (* Image onload (width, height) or onerror *)
  canvas_jpeg : string -> jsnum -> jsnum -> jsnum -> jsnum -> Z -> Z -> string * string;
    (* canvas.toDataURL('image/jpeg') after drawImage: media type, payload *)
  randomUUID : nat -> string;     (* crypto.randomUUID() for the n-th object created *)
  now : nat -> Z                  (* new Date() for the n-th object created *)
}.

(** The world as a function finds it that is called after [n] objects
    were created. *)
Definition advance (n : nat) (w : World) : World :=
  {| pdfjsLib := pdfjsLib w;
     getDocument := getDocument w;
     getContext2d := getContext2d w;
     generateContent := generateContent w;
     image_decode := image_decode w;
     canvas_jpeg := canvas_jpeg w;
     randomUUID := fun i => randomUUID w (n + i);
     now := fun i => now w (n + i) |}.

(** A data URL as [toDataURL] returns it. *)
Definition data_url (mp : string * string) : string :=
  "data:" +:+ fst mp +:+ "," +:+ snd mp.

(** [url.split(',')[1]]; a data URL always has a comma. *)
Definition split_comma_1 (url : string) : string :=
  nth 1 (Str.split_on ","%char url) "".

(** ** The service *)

Definition nl : string := String (ascii_of_nat 10) EmptyString.
Definition indent : string := "            ".
Definition quoted (s : string) : string := dq +:+ s +:+ dq.

(** [o || d] for a string that may be [undefined]. *)
Definition or_default (o : option string) (d : string) : string :=
  match o with
  | Some EmptyString => d
  | Some s => s
  | None => d
  end.

(** Truthiness of a string. *)
Definition truthy (s : string) : bool :=
  match s with EmptyString => false | _ => true end.

Record FigureResult : Type := {
  imageUrl : string;
  label : json;
  error : option string
}.

(** A paper of the corpus, with the fields that [visualizeFigure] and
    [generateKnowledgeGraph] read.  The title is the one that
    [extractPaperMetadata] took out of [JSON.parse], unchecked. *)
Record Paper : Type := { paper_id : string; title : json; url : string }.

Record Message : Type := {
  id : string;
  role : string;
  msg_content : string;
  timestamp : Z;
  citations : option (list string);
  type : option string
}.

Section Service.
Variable rt : Runtime.
Variable w : World.

Definition parse (s : string) : M json :=
  match JSON_parse rt s with
  | Some v => ret v
  | None => throw SyntaxError
  end.

Definition generate (req : Request) : M Response :=
  await (call_generateContent req) "generateContent" (generateContent w req).

(** [${v}] in a template literal, and [v] as an operand of [-]. *)
Definition to_string (v : json) : M string :=
  match ToString rt v with
  | Some s => ret s
  | None => throw TypeError
  end.

Definition to_number (v : json) : M jsnum :=
  match ToNumber rt v with
  | Some x => ret x
  | None => throw TypeError
  end.

(** *** extractFigureTargets (lines 117-136) *)

Definition extract_prompt (query : string) : string :=
  "Extract all specific figure, table, or chart identifiers from this user query: "
    +:+ quoted query +:+ ". " +:+ nl +:+ indent
  +:+ "Return ONLY a JSON array of strings. " +:+ nl +:+ indent
  +:+ "Example Output: [" +:+ quoted "Figure 1" +:+ ", " +:+ quoted "Figure 2" +:+ "]. "
    +:+ nl +:+ indent
  +:+ "If no specific numbers are mentioned, but " +:+ quoted "figures"
    +:+ " is asked, try to infer or return [" +:+ quoted "Figure 1" +:+ "]." +:+ nl +:+ indent
  +:+ "If the query implies " +:+ quoted "Figure 1 and 2" +:+ ", return ["
    +:+ quoted "Figure 1" +:+ ", " +:+ quoted "Figure 2" +:+ "]." +:+ nl +:+ indent
  +:+ "If " +:+ quoted "Figure 1, 2, and 3" +:+ " -> [" +:+ quoted "Figure 1" +:+ ", "
    +:+ quoted "Figure 2" +:+ ", " +:+ quoted "Figure 3" +:+ "].".

Definition extract_request (query : string) : Request :=
  {| model := "gemini-2.5-flash";
     contents := Prompt (extract_prompt query);
     responseMimeType := Some "application/json" |}.

Definition extractFigureTargets (query : string) : M (list json) :=
  try_catch
    (let* response := generate (extract_request query) in
     let text := or_default (text response) "[]" in
     let* targets := parse text in
     match targets with
     | JArr (t :: ts) => ret (t :: ts)
     | _ => ret [JStr query]
     end)
    (fun e =>
       perform emit (console_warn "Target extraction failed, using raw query") in
       ret [JStr query]).

(** *** findPageForQuery (lines 139-185) *)

Definition dot_opt : Regex.regex := Regex.Opt (Regex.Chr (Regex.one_of ["."%char])).

(** [/(Figure|Fig\.?|Table)\s*(\d+)/i] *)
Definition identifier_pattern : Regex.regex :=
  Regex.Seq
    (Regex.Group 1
       (Regex.Alt (Regex.lit_ci "Figure")
          (Regex.Alt (Regex.Seq (Regex.lit_ci "Fig") dot_opt)
             (Regex.lit_ci "Table"))))
    (Regex.Seq (Regex.Star Regex.is_space)
       (Regex.Group 2 (Regex.Plus Regex.is_digit))).

(** [new RegExp(`(${labelType}|fig\\.?)\\s*${number}`, 'i')]; [labelType]
    is a word and [number] a run of digits, so both are literals. *)
Definition loosePattern (labelType number : string) : Regex.regex :=
  Regex.Seq
    (Regex.Group 1
       (Regex.Alt (Regex.lit_ci labelType) (Regex.Seq (Regex.lit_ci "fig") dot_opt)))
    (Regex.Seq (Regex.Star Regex.is_space) (Regex.lit_ci number)).

(** [new RegExp(`(${labelType}|fig\\.?)\\s*${number}[.:]`, 'i')] *)
Definition captionPattern (labelType number : string) : Regex.regex :=
  Regex.Seq
    (Regex.Group 1
       (Regex.Alt (Regex.lit_ci labelType) (Regex.Seq (Regex.lit_ci "fig") dot_opt)))
    (Regex.Seq (Regex.Star Regex.is_space)
       (Regex.Seq (Regex.lit_ci number)
          (Regex.Chr (Regex.one_of ["."%char; ":"%char])))).

Definition group_text (n : nat) (c : Regex.captures) : string :=
  match Regex.capture n c with
  | Some v => string_of_list_ascii v
  | None => ""
  end.

(** The text of page [i]: [textContent.items.map(item => item.str).join(' ')] *)
Definition page_text (pdf : PdfDoc) (i : nat) : M string :=
  let* page := await (call_getPage i) "getPage" (getPage pdf i) in
  let* items := await (call_getTextContent i) "getTextContent" (page_items page) in
  ret (Str.join " " items).

(** The loop [for (let i = 1; i <= maxScan; i++)]: [todo] is the number of
    iterations left, [maxScan + 1 - i]. *)
Fixpoint scan (pdf : PdfDoc) (caption loose : Regex.regex)
         (todo i bestPage : nat) (foundStrict : bool) : M nat :=
  match todo with
  | O => ret bestPage
  | S todo' =>
      let* text := page_text pdf i in
      if Regex.test caption text then ret i
      else
        let bestPage' :=
          if negb foundStrict && Regex.test loose text then i else bestPage in
        scan pdf caption loose todo' (S i) bestPage' foundStrict
  end.

Definition findPageForQuery (pdfUrl : string) (query : json) : M nat :=
  if negb (pdfjsLib w) then ret 1%nat
  else
    match query with
    | JStr q =>
        match Regex.exec identifier_pattern q with
        | None => ret 1%nat
        | Some m =>
            let labelType :=
              if Str.startsWith "t" (Str.toLowerCase (group_text 1 m))
              then "table" else "figure" in
            let number := group_text 2 m in
            let captionPattern := captionPattern labelType number in
            let loosePattern := loosePattern labelType number in
            let* found :=
              try_catch
                (let* pdf := await (call_getDocument pdfUrl) "getDocument"
                               (getDocument w pdfUrl) in
                 let maxScan := Nat.min (numPages pdf) 30 in
                 let* bestPage :=
                   scan pdf captionPattern loosePattern maxScan 1 1 false in
                 ret (Some bestPage))
                (fun e =>
                   perform emit (console_error "Error searching PDF") in
                   ret None) in
            match found with
            | Some page => ret page
            | None => ret 1%nat
            end
        end
    | _ => throw TypeError      (* query.match is not a function *)
    end.

(** *** renderPageAsImage (lines 187-205) *)

Definition renderPageAsImage (pdfUrl : string) (pageNum : nat) : M string :=
  if negb (pdfjsLib w) then throw TypeError
  else
    let* pdf := await (call_getDocument pdfUrl) "getDocument" (getDocument w pdfUrl) in
    let* page := await (call_getPage pageNum) "getPage" (getPage pdf pageNum) in
    let viewport := page_viewport page in
    let canvas_width := canvas_dim rt (fst viewport) in
    let canvas_height := canvas_dim rt (snd viewport) in
    if negb (getContext2d w canvas_width canvas_height)
    then throw (Error "Canvas context not available")
    else
      let* rendered := await (call_render pageNum) "render" (page_render page) in
      let dataUrl := data_url rendered in
      ret (split_comma_1 dataUrl).

(** *** cropImage (lines 208-247) *)

(** The box is a [number[]], and the one call of the function (line 445)
    passes an array whose four elements the subtractions of lines 430 and
    431 have converted to numbers already: the box is given here by these
    numbers, the values that [/] and [-] see.  An element of a destructured
    array that is missing is [undefined], which converts to [NaN]. *)
Definition element (box : list jsnum) (i : nat) : jsnum :=
  match box !! i with
  | Some x => x
  | None => NaN
  end.

Definition cropImage (base64Image : string) (box : list jsnum) : M string :=
  perform emit (call_cropImage base64Image box) in
  match image_decode w ("data:image/jpeg;base64," +:+ base64Image) with
  | None => ret base64Image                                   (* img.onerror *)
  | Some (width, height) =>                                  (* img.onload *)
      let ymin := element box 0 in
      let xmin := element box 1 in
      let ymax := element box 2 in
      let xmax := element box 3 in
      let rY := Num.div ymin 1000%float in
      let rX := Num.div xmin 1000%float in
      let rH := Num.div (Num.sub ymax ymin) 1000%float in
      let rW := Num.div (Num.sub xmax xmin) 1000%float in
      if Num.le rW 0%float || Num.le rH 0%float then ret base64Image
      else
        let canvas_width := canvas_dim rt (Num.mul width rW) in
        let canvas_height := canvas_dim rt (Num.mul height rH) in
        if getContext2d w canvas_width canvas_height then
          let sx := Num.mul width rX in
          let sy := Num.mul height rY in
          let sw := Num.mul width rW in
          let sh := Num.mul height rH in
          perform emit (call_drawImage base64Image sx sy sw sh
                          canvas_width canvas_height) in
          ret (split_comma_1
                 (data_url (canvas_jpeg w base64Image sx sy sw sh
                              canvas_width canvas_height)))
        else ret base64Image
  end.

(** *** processSingleFigure (lines 400-487) *)

Definition boxPrompt (target : string) : string :=
  "Detect the bounding box of the VISUAL CONTENT (chart, graph, plot, diagram, or image) labeled "
    +:+ quoted target +:+ "." +:+ nl +:+ indent
  +:+ "CRITICAL: Do NOT box the text label " +:+ quoted target
    +:+ " itself. Box only the graphic." +:+ nl +:+ indent
  +:+ "If the figure consists of multiple sub-plots, box the entire area containing them."
    +:+ nl +:+ indent
  +:+ "If you cannot definitively find the figure, return " +:+ quoted "box_2d"
    +:+ ": [0,0,0,0]." +:+ nl +:+ indent
  +:+ "Return ONLY JSON: { " +:+ quoted "box_2d"
    +:+ ": [ymin, xmin, ymax, xmax] } (0-1000 scale).".

(** The request of line 416; [target] is the target as the template of
    line 410 has printed it. *)
Definition detection_request (target : string) (pageImageBase64 : string) : Request :=
  {| model := "gemini-2.5-flash";
     contents := Parts [InlineData "image/jpeg" pageImageBase64;
                        Text (boxPrompt target)];
     responseMimeType := Some "application/json" |}.

(** [json.box_2d]: reading a property of [null] throws. *)
Definition box_2d (v : json) : M (option json) :=
  match v with
  | JNull => throw TypeError
  | _ => ret (get_prop "box_2d" v)
  end.

(** [s.replace(/```json\n|\n```/g, '').replace(/```/g, '')] *)
Definition strip_fences (s : string) : string :=
  Str.remove_all ["```"] (Str.remove_all ["```json" +:+ nl; nl +:+ "```"] s).

(** Lines 405-450: the detection call, the three gates and the crop.
    The result is [croppedImageBase64]. *)
Definition detectAndCrop (target : json) (pageImageBase64 : string) : M string :=
  try_catch
    (let* name := to_string target in
     let* detectionResponse := generate (detection_request name pageImageBase64) in
     let cleanText := strip_fences (or_default (text detectionResponse) "{}") in
     let* json := parse cleanText in
     let* box := box_2d json in
     match box with
     | Some (JArr [y1; x1; y2; x2]) =>
         let* n_y2 := to_number y2 in
         let* n_y1 := to_number y1 in
         let h := Num.sub n_y2 n_y1 in
         let* n_x2 := to_number x2 in
         let* n_x1 := to_number x1 in
         let w' := Num.sub n_x2 n_x1 in
         if Num.le h 0%float || Num.le w' 0%float then
           let* name := to_string target in
           perform emit (console_warn ("No valid box returned for " +:+ name +:+ ".")) in
           ret pageImageBase64
         else if Num.lt h 20%float then
           let* name := to_string target in
           perform emit (console_warn
             ("Detected box too small for figure " +:+ name +:+ ", likely text label.")) in
           ret pageImageBase64
         else if Num.gt h 950%float && Num.gt w' 950%float then
           let* name := to_string target in
           perform emit (console_warn
             ("Detected box is full page, likely failure to localize " +:+ name +:+ ".")) in
           ret pageImageBase64
         else cropImage pageImageBase64 [n_y1; n_x1; n_y2; n_x2]
     | _ => ret pageImageBase64
     end)
    (fun e =>
       let* name := to_string target in
       perform emit (console_warn
         ("Detection failed for " +:+ name +:+ ", using full page.")) in
       ret pageImageBase64).

Definition vizPrompt : string :=
  "Enhance this scientific figure for clarity." +:+ nl +:+ indent
  +:+ "Preserve all data points, axes, and legends exactly." +:+ nl +:+ indent
  +:+ "Make lines sharper and text more readable." +:+ nl +:+ indent
  +:+ "Do not add new information.".

Definition enhancement_request (croppedImageBase64 : string) : Request :=
  {| model := "gemini-2.5-flash-image";
     contents := Parts [InlineData "image/jpeg" croppedImageBase64; Text vizPrompt];
     responseMimeType := None |}.

(** [vizResponse.candidates?.[0]?.content?.parts] *)
Definition first_candidate_parts (r : Response) : option (list Part) :=
  match candidates r with
  | Some (c :: _) => match content c with
                     | Some ct => parts ct
                     | None => None
                     end
  | _ => None
  end.

(** One turn of the loop over the parts (lines 470-475). *)
Definition use_part (finalImageUrl : string) (part : Part) : string :=
  match inlineData part with
  | Some blob =>
      match data blob with
      | Some d =>
          if truthy d then
            let mimeType := or_default (mimeType blob) "image/png" in
            "data:" +:+ mimeType +:+ ";base64," +:+ d
          else finalImageUrl
      | None => finalImageUrl
      end
  | None => finalImageUrl
  end.

(** Lines 452-479.  The result is [finalImageUrl]. *)
Definition enhance (target : json) (croppedImageBase64 : string) : M string :=
  let finalImageUrl := "data:image/jpeg;base64," +:+ croppedImageBase64 in
  try_catch
    (let* vizResponse := generate (enhancement_request croppedImageBase64) in
     match first_candidate_parts vizResponse with
     | Some ps => ret (fold_left use_part ps finalImageUrl)
     | None => ret finalImageUrl
     end)
    (fun e =>
       let* name := to_string target in
       perform emit (console_warn
         ("Enhancement failed for " +:+ name +:+ ", using cropped.")) in
       ret finalImageUrl).

Definition failure_record (target : json) : FigureResult :=
  {| imageUrl := ""; label := target; error := Some "Failed to process" |}.

Definition processSingleFigure (target : json) (paperUrl : string) : M FigureResult :=
  try_catch
    (let* pageNum := findPageForQuery paperUrl target in
     let* pageImageBase64 := renderPageAsImage paperUrl pageNum in
     let* croppedImageBase64 := detectAndCrop target pageImageBase64 in
     let* finalImageUrl := enhance target croppedImageBase64 in
     ret {| imageUrl := finalImageUrl; label := target; error := None |})
    (fun e =>
       let* name := to_string target in
       perform emit (console_error ("Error processing " +:+ name)) in
       ret (failure_record target)).
End Service.

(** ** Promise.all

    The branches settle one after the other in some order; [order] lists
    the indices of the branches as they settle.  A fulfilled branch stores
    its value at its own index; the first rejected branch rejects the
    aggregate; the aggregate is fulfilled once every index is filled, and is
    pending ([None]) as long as one is not. *)

Module Promise.

Fixpoint settle {A} (outcomes : list (Res A)) (order : list nat)
         (values : list (option A)) : Res (list (option A)) :=
  match order with
  | [] => Ok values
  | i :: rest =>
      match outcomes !! i with
      | Some (Ok v) => settle outcomes rest (<[i := Some v]> values)
      | Some (Throw e) => Throw e
      | None => settle outcomes rest values
      end
  end.

Fixpoint filled {A} (values : list (option A)) : option (list A) :=
  match values with
  | [] => Some []
  | Some v :: rest => match filled rest with
                      | Some vs => Some (v :: vs)
                      | None => None
                      end
  | None :: _ => None
  end.

(** Every branch fulfilled: the join only stores values. *)
Fixpoint store {A} (vs : list A) (order : list nat) (values : list (option A))
  : list (option A) :=
  match order with
  | [] => values
  | i :: rest =>
      match vs !! i with
      | Some v => store vs rest (<[i := Some v]> values)
      | None => store vs rest values
      end
  end.

Definition all {A} (outcomes : list (Res A)) (order : list nat) : option (Res (list A)) :=
  match settle outcomes order (replicate (length outcomes) None) with
  | Ok values => match filled values with
                 | Some vs => Some (Ok vs)
                 | None => None
                 end
  | Throw e => Some (Throw e)
  end.

End Promise.

(** ** visualizeFigure (lines 489-540) *)

Section Orchestrator.
Variable rt : Runtime.
Variable w : World.

Definition new_message (content : string) (visualization : bool) : Message :=
  {| id := randomUUID w 0;
     role := "model";
     msg_content := content;
     timestamp := now w 0;
     citations := if visualization then Some [] else None;
     type := if visualization then Some "visualization" else None |}.

(** One turn of the loop over the results (lines 506-514); the state is
    [(content, hasSuccess)]; [None]: the template throws. *)
Definition add_result (st : string * bool) (res : FigureResult) : option (string * bool) :=
  let (content, hasSuccess) := st in
  match ToString rt (label res) with
  | Some name =>
      if truthy (imageUrl res) then
        Some (content +:+ "**" +:+ name +:+ "**" +:+ nl +:+ nl
                +:+ "![" +:+ name +:+ "](" +:+ imageUrl res +:+ ")" +:+ nl +:+ nl, true)
      else
        Some (content +:+ "*Could not visualize " +:+ name +:+ "*" +:+ nl +:+ nl, hasSuccess)
  | None => None
  end.

Fixpoint add_results (results : list FigureResult) (st : string * bool)
  : option (string * bool) :=
  match results with
  | [] => Some st
  | res :: rest => match add_result st res with
                   | Some st' => add_results rest st'
                   | None => None
                   end
  end.

Definition none_processed : string :=
  "I could not locate or process the requested figures in this paper.".

Definition critical_error : string :=
  "I encountered a critical error while processing the request.".

(** Lines 503-520; [None]: a template of the loop throws. *)
Definition render_content (results : list FigureResult) : option string :=
  match add_results results ("Here is your visualization." +:+ nl +:+ nl, false) with
  | Some (content, hasSuccess) =>
      Some (if negb hasSuccess then none_processed
            else content +:+
                 "Do you want me to **give an analysis** of these figures or **describe** them?")
  | None => None
  end.

(** The branches of line 501, one per target, in the order of the targets. *)
Definition branches (targets : list json) (paperUrl : string) : list (M FigureResult) :=
  map (fun t => processSingleFigure rt w t paperUrl) targets.

(** [await Promise.all(targets.map(...))] when the branches settle in
    the order [order]. *)
Definition run_targets (targets : list json) (paperUrl : string) (order : list nat)
  : option (Res (list FigureResult)) :=
  Promise.all (map fst (branches targets paperUrl)) order.

(** The message and the trace of [visualizeFigure]'s own calls; the traces
    of the branches interleave and stay with the branches.  [None]: the
    join is still pending. *)
Definition visualizeFigure (query : string) (paper : option Paper) (order : list nat)
  : option (Message * list Event) :=
  match paper with
  | None => Some (new_message "Please select a paper first." false, [])
  | Some paper =>
      let (targets, t) := extractFigureTargets rt w query in
      let critical :=
        (new_message critical_error false,
         t ++ [console_error "Critical visualization error:"]) in
      match targets with
      | Ok targets =>
          match run_targets targets (url paper) order with
          | Some (Ok results) =>
              match render_content results with
              | Some content => Some (new_message content true, t)
              | None => Some critical
              end
          | Some (Throw e) => Some critical
          | None => None
          end
      | Throw e => Some critical
      end
  end.
End Orchestrator.

(** ** Sample runtimes and worlds

    Concrete instances on which the definitions are evaluated. *)

Module Sample.

(** The integer part of a finite number; 0 for the others. *)
Definition trunc (n : jsnum) : Z :=
  match Prim2SF n with
  | S754_finite s m e =>
      let v := if (0 <=? e)%Z then Z.shiftl (Zpos m) e else Z.shiftr (Zpos m) (- e) in
      if s then (- v)%Z else v
  | _ => 0%Z
  end.

(** A runtime whose [JSON.parse] knows the texts of [table]. *)
Definition runtime (table : list (string * json)) : Runtime :=
  {| JSON_parse := fun s =>
       match find (fun kv => String.eqb (fst kv) s) table with
       | Some kv => Some (snd kv)
       | None => None
       end;
     NumberToString := fun x => "0";
     StringToNumber := fun s => NaN;
     canvas_dim := trunc |}.

Definition num (n : nat) : json := JNum (Num.of_nat n).

Definition box_text (y1 x1 y2 x2 : string) : string :=
  "{" +:+ quoted "box_2d" +:+ ": [" +:+ y1 +:+ "," +:+ x1 +:+ "," +:+ y2 +:+ "," +:+ x2 +:+ "]}".

Definition box_value (y1 x1 y2 x2 : nat) : json :=
  JObj [("box_2d", JArr [num y1; num x1; num y2; num x2])].

Definition rt0 : Runtime :=
  runtime [ ("[]", JArr []);
            ("{}", JObj []);
            ("null", JNull);
            ("[" +:+ quoted "Figure 1" +:+ "," +:+ quoted "Figure 2" +:+ "]",
               JArr [JStr "Figure 1"; JStr "Figure 2"]);
            ("[" +:+ quoted "Figure 1" +:+ "," +:+ quoted "Table 2" +:+ ","
                 +:+ quoted "Figure 3" +:+ "]",
               JArr [JStr "Figure 1"; JStr "Table 2"; JStr "Figure 3"]);
            (box_text "0" "0" "0" "0", box_value 0 0 0 0);
            (box_text "10" "10" "15" "900", box_value 10 10 15 900);
            (box_text "100" "100" "600" "900", box_value 100 100 600 900) ].

(** A page with the given text items, rendered to the payload [img]. *)
Definition page (items : list string) (img : string) : PdfPage :=
  {| page_items := Some items;
     page_viewport := (1224%float, 1584%float);
     page_render := Some ("image/jpeg;base64", img) |}.

(** A page whose text extraction rejects. *)
Definition unreadable (img : string) : PdfPage :=
  {| page_items := None;
     page_viewport := (1224%float, 1584%float);
     page_render := Some ("image/jpeg;base64", img) |}.

(** A document given by the list of its pages (page 1 first). *)
Definition doc (pages : list PdfPage) : PdfDoc :=
  {| numPages := length pages;
     getPage := fun i => match i with
                         | O => None
                         | S j => pages !! j
                         end |}.

Definition text_response (s : string) : Response :=
  {| text := Some s; candidates := None |}.

Definition image_part (mime d : string) : Part :=
  {| inlineData := Some {| mimeType := Some mime; data := Some d |};
     part_text := None |}.

Definition image_response (ps : list Part) : Response :=
  {| text := None;
     candidates := Some [ {| content := Some {| parts := Some ps |} |} ] |}.

(** A world over one document; [answer] is the inference client. *)
Definition world (d : option PdfDoc) (answer : Request -> option Response) : World :=
  {| pdfjsLib := true;
     getDocument := fun _ => d;
     getContext2d := fun _ _ => true;
     generateContent := answer;
     image_decode := fun _ => Some (1224%float, 1584%float);
     canvas_jpeg := fun img _ _ _ _ _ _ => ("image/jpeg;base64", "crop-of-" +:+ img);
     randomUUID := fun n => "00000000-0000-4000-8000-00000000000"
                              +:+ String (ascii_of_nat (48 + n mod 10)) EmptyString;
     now := fun n => Z.of_nat n |}.

(** An inference client that tells the three kinds of request apart by
    model and response type. *)
Definition client (extract detect enhance : option Response) : Request -> option Response :=
  fun req =>
    if String.eqb (model req) "gemini-2.5-flash-image" then enhance
    else match contents req with
         | Prompt _ => extract
         | Parts _ => detect
         end.

End Sample.

(** ** The vocabulary of the properties *)

(** What [JSON.parse] made of the answer to the extraction request;
    [None] when the call rejected or the text did not parse. *)
Definition extract_parsed (rt : Runtime) (w : World) (query : string) : option json :=
  match generateContent w (extract_request query) with
  | Some response => JSON_parse rt (or_default (text response) "[]")
  | None => None
  end.

(** The image a part carries, as a data URL: the part has [inlineData]
    with non-empty [data]. *)
Definition image_of (p : Part) : option string :=
  match inlineData p with
  | Some blob =>
      match data blob with
      | Some d =>
          if truthy d
          then Some ("data:" +:+ or_default (mimeType blob) "image/png" +:+ ";base64," +:+ d)
          else None
      | None => None
      end
  | None => None
  end.

(** The images of a response, in the order of its parts. *)
Definition images (ps : list Part) : list string := omap image_of ps.

(** The record of one target: the value of its branch when the branch is
    fulfilled. *)
Definition figure_result (rt : Runtime) (w : World) (paperUrl : string) (target : json)
  : FigureResult :=
  match fst (processSingleFigure rt w target paperUrl) with
  | Ok res => res
  | Throw _ => failure_record target
  end.

(** The branch of a target is fulfilled, and with the record [res]. *)
Definition fulfilled (rt : Runtime) (w : World) (paperUrl : string) (target : json)
           (res : FigureResult) : Prop :=
  fst (processSingleFigure rt w target paperUrl) = Ok res.

(** The label of a record as the templates print it (the empty string
    for a label that cannot be printed). *)
Definition label_text (rt : Runtime) (res : FigureResult) : string :=
  default EmptyString (ToString rt (label res)).

(** The loop over the results: what it appends, and the flag. *)
Definition notice (rt : Runtime) (res : FigureResult) : string :=
  let name := label_text rt res in
  if truthy (imageUrl res) then
    "**" +:+ name +:+ "**" +:+ nl +:+ nl
      +:+ "![" +:+ name +:+ "](" +:+ imageUrl res +:+ ")" +:+ nl +:+ nl
  else "*Could not visualize " +:+ name +:+ "*" +:+ nl +:+ nl.

Fixpoint notices (rt : Runtime) (results : list FigureResult) : string :=
  match results with
  | [] => ""
  | res :: rest => notice rt res +:+ notices rt rest
  end.

Definition succeeded (res : FigureResult) : bool := truthy (imageUrl res).

(** The content of the visualization message for the results. *)
Definition rendered (rt : Runtime) (results : list FigureResult) : string :=
  if existsb succeeded results
  then ("Here is your visualization." +:+ nl +:+ nl +:+ notices rt results)
         +:+ "Do you want me to **give an analysis** of these figures or **describe** them?"
  else none_processed.

(** Events of pdf.js and of the console: neither an inference call nor a
    call of [cropImage]. *)
Definition quiet (ev : Event) : Prop :=
  match ev with
  | call_generateContent _ | call_cropImage _ _ | call_drawImage _ _ _ _ _ _ _ => False
  | _ => True
  end.

Definition not_crop (ev : Event) : Prop :=
  match ev with
  | call_cropImage _ _ => False
  | _ => True
  end.

(** What the detector may leave in the trace when it does not crop: its
    own request and console lines. *)
Definition detector_event (ev : Event) : Prop :=
  match ev with
  | call_generateContent req => model req = "gemini-2.5-flash"
  | call_cropImage _ _ | call_drawImage _ _ _ _ _ _ _ => False
  | _ => True
  end.

Definition not_enhancement (ev : Event) : Prop :=
  forall img, ev <> call_generateContent (enhancement_request img).

(** What [JSON.parse] made of the detector's answer, fences stripped;
    [None] when the target could not be printed, the call rejected or the
    text did not parse. *)
Definition detection_parsed (rt : Runtime) (w : World) (target : json) (page : string)
  : option json :=
  match ToString rt target with
  | Some name =>
      match generateContent w (detection_request name page) with
      | Some r => JSON_parse rt (strip_fences (or_default (text r) "{}"))
      | None => None
      end
  | None => None
  end.

(** The 4-element box of the answer, if it has one. *)
Definition detected_box (rt : Runtime) (w : World) (target : json) (page : string)
  : option (list json) :=
  match detection_parsed rt w target page with
  | Some JNull => None
  | Some v => match get_prop "box_2d" v with
              | Some (JArr [y1; x1; y2; x2]) => Some [y1; x1; y2; x2]
              | _ => None
              end
  | None => None
  end.

(** The numbers of a box [[y1, x1, y2, x2]]; [None]: an element cannot be
    converted and the subtraction throws. *)
Definition numbers (rt : Runtime) (box : list json) : option (list jsnum) :=
  mapM (ToNumber rt) box.

(** The gates, in the words of the specification, on the numbers of a
    box; every quantity is the double that the code computes. *)
Definition box_height (box : list jsnum) : jsnum :=
  Num.sub (element box 2) (element box 0).

Definition box_width (box : list jsnum) : jsnum :=
  Num.sub (element box 3) (element box 1).

Definition degenerate (box : list jsnum) : bool :=
  Num.le (box_height box) 0%float || Num.le (box_width box) 0%float.

Definition too_small (box : list jsnum) : bool :=
  Num.lt (box_height box) 20%float.

Definition near_full_page (box : list jsnum) : bool :=
  Num.gt (box_height box) 950%float && Num.gt (box_width box) 950%float.

Definition fails_a_gate (box : list jsnum) : bool :=
  degenerate box || too_small box || near_full_page box.

(** A box that is not cropped: it is malformed (an element has no
    number) or it fails a gate. *)
Definition rejected (rt : Runtime) (box : list json) : bool :=
  match numbers rt box with
  | Some ns => fails_a_gate ns
  | None => true
  end.

(** The "not found" sentinel. *)
Definition sentinel : list json := [JNum 0%float; JNum 0%float; JNum 0%float; JNum 0%float].

(** The rectangle of the specification: the normalised box scaled by the
    pixel size of the image, [x = xMin/1000 * width] and so on, in the
    arithmetic of the language. *)
Record Rect : Type := { rect_x : jsnum; rect_y : jsnum; rect_w : jsnum; rect_h : jsnum }.

Definition normalized (n : jsnum) : jsnum := Num.div n 1000%float.

Definition scaled_rect (box : list jsnum) (width height : jsnum) : Rect :=
  {| rect_x := Num.mul (normalized (element box 1)) width;
     rect_y := Num.mul (normalized (element box 0)) height;
     rect_w := Num.mul (normalized (box_width box)) width;
     rect_h := Num.mul (normalized (box_height box)) height |}.

(** The image a canvas holds after [r] of [img] was drawn on it. *)
Definition extracted (rt : Runtime) (w : World) (img : string) (r : Rect) : string :=
  split_comma_1
    (data_url (canvas_jpeg w img (rect_x r) (rect_y r) (rect_w r) (rect_h r)
                 (canvas_dim rt (rect_w r)) (canvas_dim rt (rect_h r)))).

Definition src_of (base64Image : string) : string :=
  "data:image/jpeg;base64," +:+ base64Image.

(** What [cropImage] resolves with and what it draws. *)
Definition crop_outcome (rt : Runtime) (w : World) (img : string) (box : list jsnum)
  : string * list Event :=
  match image_decode w (src_of img) with
  | None => (img, [])
  | Some (width, height) =>
      let r := scaled_rect box width height in
      if Num.le (normalized (box_width box)) 0%float
         || Num.le (normalized (box_height box)) 0%float
      then (img, [])
      else if getContext2d w (canvas_dim rt (rect_w r)) (canvas_dim rt (rect_h r))
           then (extracted rt w img r,
                 [call_drawImage img (rect_x r) (rect_y r) (rect_w r) (rect_h r)
                    (canvas_dim rt (rect_w r)) (canvas_dim rt (rect_h r))])
           else (img, [])
  end.

(** The text of page [i], when it can be read. *)
Definition page_string (pdf : PdfDoc) (i : nat) : option string :=
  match getPage pdf i with
  | Some page => match page_items page with
                 | Some items => Some (Str.join " " items)
                 | None => None
                 end
  | None => None
  end.

(** Page [i] can be read and its text matches [r]. *)
Definition matches_on (pdf : PdfDoc) (r : Regex.regex) (i : nat) : bool :=
  match page_string pdf i with
  | Some t => Regex.test r t
  | None => false
  end.

(** The label type and the number that [findPageForQuery] takes from a
    match of the identifier pattern. *)
Definition label_of (m : Regex.captures) : string :=
  if Str.startsWith "t" (Str.toLowerCase (group_text 1 m)) then "table" else "figure".

Definition number_of (m : Regex.captures) : string := group_text 2 m.

(** The pages the locator scans. *)
Definition scanned (pdf : PdfDoc) : list nat := seq 1 (Nat.min (numPages pdf) 30).

Fixpoint first_where (f : nat -> bool) (l : list nat) : option nat :=
  match l with
  | [] => None
  | x :: rest => if f x then Some x else first_where f rest
  end.

Fixpoint last_where (f : nat -> bool) (l : list nat) : option nat :=
  match l with
  | [] => None
  | x :: rest => match last_where f rest with
                 | Some y => Some y
                 | None => if f x then Some x else None
                 end
  end.

(** What the code returns on a document whose scanned pages can all be
    read: the first strict page, else the last loose page, else 1. *)
Definition located (pdf : PdfDoc) (caption loose : Regex.regex) : nat :=
  match first_where (matches_on pdf caption) (scanned pdf) with
  | Some i => i
  | None => default 1%nat (last_where (matches_on pdf loose) (scanned pdf))
  end.

(** The locator in the words of the specification (section 4.2): return at
    the first strict page; remember the first loose page; on an extraction
    error return the best candidate so far; page 1 without a candidate. *)
Fixpoint spec_scan (pdf : PdfDoc) (caption loose : Regex.regex)
         (pages : list nat) (candidate : option nat) : nat :=
  match pages with
  | [] => default 1%nat candidate
  | i :: rest =>
      match page_string pdf i with
      | None => default 1%nat candidate
      | Some t =>
          if Regex.test caption t then i
          else spec_scan pdf caption loose rest
                 (match candidate with
                  | Some c => Some c
                  | None => if Regex.test loose t then Some i else None
                  end)
      end
  end.

Definition spec_locate (pdf : PdfDoc) (caption loose : Regex.regex) : nat :=
  spec_scan pdf caption loose (scanned pdf) None.

(** ** Sample requests *)

(** Sample requests for the orchestrator. *)
Module OrchestratorSample.
Import Sample.

Definition three_targets : list json := [JStr "Figure 1"; JStr "Table 2"; JStr "Figure 3"].

Definition three_targets_text : string :=
  "[" +:+ quoted "Figure 1" +:+ "," +:+ quoted "Table 2" +:+ "," +:+ quoted "Figure 3" +:+ "]".

Definition paper : Paper :=
  {| paper_id := "p1"; title := JStr "A paper"; url := "blob:paper" |}.

(** Ten readable pages; the detector answers the sentinel box and the
    enhancer returns no image. *)
Definition w_pages : World :=
  world (Some (doc [page ["Introduction"] "PAGE1";
                    page ["as Figure 1 shows"] "PAGE2";
                    page ["Fig. 1: overview"] "PAGE3";
                    page ["Table 2. Results"] "PAGE4";
                    page ["Figure 3: ablation"] "PAGE5"]))
        (client (Some (text_response three_targets_text))
                (Some (text_response (box_text "0" "0" "0" "0")))
                (Some (image_response []))).

(** The document cannot be opened: every target fails. *)
Definition w_no_document : World :=
  world None (client (Some (text_response three_targets_text)) None None).

End OrchestratorSample.

(** Sample documents for the locator. *)
Module LocatorSample.
Import Sample.

(** Pages 2 and 4 mention Figure 1 without caption punctuation. *)
Definition two_mentions : PdfDoc :=
  doc [page ["Introduction"] "P1";
       page ["as"; "Figure 1"; "shows"] "P2";
       page ["Methods"] "P3";
       page ["compare with Figure 1"] "P4"].

(** Page 2 mentions Figure 2, page 3 cannot be read, page 4 has the caption. *)
Definition broken_page : PdfDoc :=
  doc [page ["Introduction"] "P1";
       page ["see Figure 2 below"] "P2";
       unreadable "P3";
       page ["Figure 2: results"] "P4"].

(** Page 3 carries the caption of Figure 2, and no table. *)
Definition figure_caption : PdfDoc :=
  doc [page ["Introduction"] "P1";
       page ["Methods"] "P2";
       page ["Fig. 2: overview of the method"] "P3"].

Definition over (d : PdfDoc) : World := world (Some d) (client None None None).

End LocatorSample.

(** A world in which the detector and the enhancer both reject. *)
Definition w_inference_down : World :=
  Sample.world
    (Some (Sample.doc [Sample.page ["Introduction"] "PAGE1";
                       Sample.page ["as Figure 1 shows"] "PAGE2";
                       Sample.page ["Fig. 1: overview"] "PAGE3"]))
    (Sample.client None None None).

(** ** More vocabulary *)

(** The inference calls of a trace. *)
Definition is_inference (ev : Event) : bool :=
  match ev with
  | call_generateContent _ => true
  | _ => false
  end.

Fixpoint inference_calls (t : list Event) : nat :=
  match t with
  | [] => 0
  | ev :: t' => (if is_inference ev then 1 else 0) + inference_calls t'
  end.

Definition silent (ev : Event) : Prop := is_inference ev = false.

(** [s] has no occurrence of the character [c]. *)
Fixpoint lacks (c : ascii) (s : string) : bool :=
  match s with
  | EmptyString => true
  | String a s' => negb (Ascii.eqb a c) && lacks c s'
  end.

(** A text wrapped in a json code fence. *)
Definition fenced (s : string) : string := "```json" +:+ nl +:+ s +:+ nl +:+ "```".

(** ** More string built-ins *)

Module Text.

(** [s.substring(start, end)] for non-negative integers: both are clamped
    to the length and swapped when [start] is the larger one. *)
Definition substring (start end_ : nat) (s : string) : string :=
  let len := String.length s in
  let a := Nat.min start len in
  let b := Nat.min end_ len in
  String.substring (Nat.min a b) (Nat.max a b - Nat.min a b) s.

(** [s.indexOf(c)] for a one-character [c]: [None] is -1. *)
Fixpoint indexOf (c : ascii) (s : string) : option nat :=
  match s with
  | EmptyString => None
  | String a s' => if Ascii.eqb a c then Some 0%nat
                   else match indexOf c s' with
                        | Some i => Some (S i)
                        | None => None
                        end
  end.

(** [s.lastIndexOf(c)] *)
Fixpoint lastIndexOf (c : ascii) (s : string) : option nat :=
  match s with
  | EmptyString => None
  | String a s' => match lastIndexOf c s' with
                   | Some i => Some (S i)
                   | None => if Ascii.eqb a c then Some 0%nat else None
                   end
  end.

End Text.

(** Truthiness of a parsed value: a number is truthy unless it is a
    zero or [NaN]. *)
Definition truthy_value (v : json) : bool :=
  match v with
  | JNull => false
  | JBool b => b
  | JNum x => PrimFloat.ltb x 0%float || PrimFloat.ltb 0%float x
  | JStr s => truthy s
  | JArr _ | JObj _ => true
  end.

(** [v.key]: reading a property of [null] throws. *)
Definition member (key : string) (v : json) : M (option json) :=
  match v with
  | JNull => throw TypeError
  | _ => ret (get_prop key v)
  end.

(** ** The library functions of the service *)

(** What [extractPaperMetadata] resolves with.  The declared type is a
    string and an array of strings; the values come out of [JSON.parse]
    unchecked, so they are kept as parsed. *)
Record PaperMetadata : Type := {
  meta_title : json;
  meta_authors : list json
}.

Section Library.
Variable rt : Runtime.
Variable w : World.

(** *** extractPaperMetadata (lines 35-69) *)

Definition metadata_prompt (firstPageText originalFilename : string) : string :=
  Str.join nl
    [ EmptyString
    ; "        Analyze the following text from the first page of a research paper."
    ; "        Extract the **Title** and the list of **Authors**."
    ; "        "
    ; "        Text: " +:+ quoted (Text.substring 0 2000 firstPageText)
    ; "        "
    ; "        Return ONLY valid JSON:"
    ; "        {"
    ; "          " +:+ quoted "title" +:+ ": " +:+ quoted "Full Paper Title" +:+ ","
    ; "          " +:+ quoted "authors" +:+ ": [" +:+ quoted "Author 1" +:+ ", "
        +:+ quoted "Author 2" +:+ ", " +:+ quoted "Author 3" +:+ "]"
    ; "        }"
    ; "        "
    ; "        If you cannot find the title, use " +:+ quoted originalFilename +:+ "."
    ; "        If you cannot find authors, return an empty array."
    ; "      "
    ].

Definition metadata_request (firstPageText originalFilename : string) : Request :=
  {| model := "gemini-2.5-flash";
     contents := Prompt (metadata_prompt firstPageText originalFilename);
     responseMimeType := Some "application/json" |}.

Definition extractPaperMetadata (firstPageText originalFilename : string)
  : M PaperMetadata :=
  try_catch
    (let* response := generate w (metadata_request firstPageText originalFilename) in
     let text := or_default (text response) "{}" in
     let* data := parse rt text in
     let* data_title := member "title" data in
     let* data_authors := member "authors" data in
     ret {| meta_title := match data_title with
                          | Some t => if truthy_value t then t else JStr originalFilename
                          | None => JStr originalFilename
                          end;
            meta_authors := match data_authors with
                            | Some (JArr authors) => authors
                            | _ => []
                            end |})
    (fun e =>
       perform emit (console_warn "Metadata extraction failed") in
       ret {| meta_title := JStr originalFilename; meta_authors := [] |}).

(** *** generateKnowledgeGraph (lines 72-114) *)

(** One line of the list of line 76; [None]: the title cannot be
    printed and the template throws. *)
Definition paper_line (p : Paper) : option string :=
  match ToString rt (title p) with
  | Some t => Some ("ID: " +:+ paper_id p +:+ ", Title: " +:+ t)
  | None => None
  end.

Definition paperList (papers : list Paper) : option string :=
  option_map (Str.join nl) (mapM paper_line papers).

Definition graph_prompt (papers : list Paper) (paperList : string) : string :=
  Str.join nl
    [ EmptyString
    ; "      You are an expert research librarian. I have a list of "
        +:+ NumberToString rt (Num.of_nat (length papers))
        +:+ " research papers."
    ; "      "
    ; "      Task: Group these papers into distinct, high-level Semantic Research Topics based on their titles."
    ; "      "
    ; "      Rules:"
    ; "      1. Create between 3 to 6 topics maximum."
    ; "      2. Topics should be short (2-3 words, e.g., "
        +:+ quoted "Large Language Models" +:+ ", " +:+ quoted "Computer Vision" +:+ ", "
        +:+ quoted "Reinforcement Learning" +:+ ")."
    ; "      3. Assign EVERY paper ID to exactly one topic."
    ; "      4. Return ONLY a valid JSON array."
    ; "      "
    ; "      Input Papers:"
    ; "      " +:+ paperList
    ; "      "
    ; "      Expected Output Format:"
    ; "      ["
    ; "        { " +:+ quoted "topic" +:+ ": " +:+ quoted "Topic Name" +:+ ", "
        +:+ quoted "paperIds" +:+ ": [" +:+ quoted "id1" +:+ ", " +:+ quoted "id2"
        +:+ "] },"
    ; "        ..."
    ; "      ]"
    ; "    "
    ].

(** The request of line 100; [None]: the list of the papers cannot be
    written. *)
Definition graph_request (papers : list Paper) : option Request :=
  match paperList papers with
  | Some lines =>
      Some {| model := "gemini-2.5-flash";
              contents := Prompt (graph_prompt papers lines);
              responseMimeType := Some "application/json" |}
  | None => None
  end.

(** The clusters are returned as parsed (the cast to [GraphCluster[]]
    checks nothing); the fallback is one cluster with every paper.  The
    list of the papers and the prompt are built before the [try]. *)
Definition generateKnowledgeGraph (papers : list Paper) : M json :=
  if (length papers =? 0)%nat then ret (JArr [])
  else
    match graph_request papers with
    | None => throw TypeError
    | Some req =>
        try_catch
          (let* response := generate w req in
           let text := or_default (text response) "[]" in
           let* clusters := parse rt text in
           ret clusters)
          (fun e =>
             perform emit (console_error "Graph generation failed") in
             ret (JArr [JObj [("topic", JStr "General Collection");
                              ("paperIds", JArr (map (fun p => JStr (paper_id p)) papers))]]))
    end.

(** *** explainCitation (lines 392-398) *)

(** [paperTitle] is the title as the template of line 393 prints it; the
    caller of this model does the printing ([respond]). *)
Definition citation_request (citation paperTitle : string) : Request :=
  {| model := "gemini-2.5-flash";
     contents := Prompt ("In the context of the paper " +:+ quoted paperTitle
                         +:+ ", explain the significance of this citation: "
                         +:+ quoted citation +:+ ". Keep it brief.");
     responseMimeType := None |}.

Definition explainCitation (citation paperTitle : string) : M string :=
  let* response := generate w (citation_request citation paperTitle) in
  ret (or_default (text response) "Analysis unavailable.").

(** *** extractPdfText (App.tsx, lines 55-68) *)

Definition extractPdfText (blobUrl : string) : M string :=
  if negb (pdfjsLib w) then ret EmptyString
  else
    try_catch
      (let* pdf := await (call_getDocument blobUrl) "getDocument" (getDocument w blobUrl) in
       page_text pdf 1)
      (fun e =>
         perform emit (console_error "Text extraction failed") in
         ret EmptyString).

End Library.

(** ** Calls with tools *)

(** The fields of a tool call, of a grounded candidate and of the
    response that [sendMessage] and [analyzeAuthor] read. *)
Record FunctionCall : Type := {
  call_name : option string;
  call_args : option json
}.

Record Web : Type := { uri : option string }.
Record GroundingChunk : Type := { web : option Web }.
Record GroundingMetadata : Type := { groundingChunks : option (list GroundingChunk) }.
Record GroundedCandidate : Type := { groundingMetadata : option GroundingMetadata }.

Record ToolResponse : Type := {
  answer_text : option string;                              (* response.text *)
  functionCalls : option (list FunctionCall);               (* response.functionCalls *)
  grounded_candidates : option (list GroundedCandidate)     (* response.candidates *)
}.

Inductive Tool : Type :=
| googleSearch
| functionDeclarations (names : list string).

(** A request with a [config] of tools: the model and the contents, the
    system instruction if there is one, the tools. *)
Record ToolRequest : Type := {
  request : Request;
  systemInstruction : option string;
  tools : list Tool
}.

(** [ai.models.generateContent] on such a request; [None]: the call
    rejects. *)
Record Assistant : Type := {
  generateContentWithTools : ToolRequest -> option ToolResponse
}.

(** What [analyzeAuthor] resolves with: an object, and the value assigned
    to its [sources] property if one was ([profile.sources = sources]). *)
Record AuthorProfile : Type := {
  profile : json;
  sources : option (list string)
}.

Section Author.
Variable rt : Runtime.
Variable ai : Assistant.

Definition generateWithTools (req : ToolRequest) : M ToolResponse :=
  await (call_generateContent (request req)) "generateContent"
        (generateContentWithTools ai req).

(** *** analyzeAuthor (lines 325-390) *)

Definition author_prompt (name : string) : string :=
  Str.join nl
    [ "Research the author " +:+ quoted name +:+ " using Google Search."
    ; "    "
    ; "    GOAL: Create a professional profile to help a user understand their "
        +:+ quoted "research headspace" +:+ " and background."
    ; "    "
    ; "    PRIVACY WARNING: "
    ; "    - Do NOT include personal information (family, home address, marriage, children)."
    ; "    - Focus ONLY on: Academic history (degrees, universities), Professional Roles, Research Interests, and Key Collaborators."
    ; EmptyString
    ; "    RETURN JSON FORMAT:"
    ; "    {"
    ; "      " +:+ quoted "name" +:+ ": " +:+ quoted name +:+ ","
    ; "      " +:+ quoted "affiliation" +:+ ": " +:+ quoted "Current University or Lab"
        +:+ ","
    ; "      " +:+ quoted "hIndex" +:+ ": number (estimate if not found),"
    ; "      " +:+ quoted "citationCount" +:+ ": number (estimate if not found),"
    ; "      " +:+ quoted "interests" +:+ ": [" +:+ quoted "topic1" +:+ ", "
        +:+ quoted "topic2" +:+ ", " +:+ quoted "topic3" +:+ "],"
    ; "      " +:+ quoted "education" +:+ ": [" +:+ quoted "PhD from X" +:+ ", "
        +:+ quoted "BS from Y" +:+ "],"
    ; "      " +:+ quoted "collaborators" +:+ ": [" +:+ quoted "Name 1" +:+ ", "
        +:+ quoted "Name 2" +:+ "],"
    ; "      " +:+ quoted "recentWork" +:+ ": [" +:+ quoted "Title of recent paper 1"
        +:+ ", " +:+ quoted "Title of recent paper 2" +:+ "],"
    ; "      " +:+ quoted "summary" +:+ ": "
        +:+ quoted "2-3 sentence summary of their research trajectory and impact."
    ; "    }"
    ].

Definition author_request (name : string) : ToolRequest :=
  {| request := {| model := "gemini-2.5-flash";
                   contents := Prompt (author_prompt name);
                   responseMimeType := None |};
     systemInstruction := None;
     tools := [googleSearch] |}.

(** Lines 357-365: [text.replace(/```json\n?|```/g, '')], then the part
    from the first opening brace to the last closing one, if both are
    there. *)
Definition profile_text (response_text : option string) : string :=
  let text := or_default response_text "{}" in
  let text := Str.remove_all ["```json" +:+ nl; "```json"; "```"] text in
  match Text.indexOf "{" text, Text.lastIndexOf "}" text with
  | Some firstBrace, Some lastBrace => Text.substring firstBrace (lastBrace + 1) text
  | _, _ => text
  end.

(** Lines 370-377: the truthy [web.uri] of the chunks of the first
    candidate. *)
Definition chunk_uri (chunk : GroundingChunk) : option string :=
  match web chunk with
  | Some wb => match uri wb with
               | Some u => if truthy u then Some u else None
               | None => None
               end
  | None => None
  end.

Definition grounding_sources (response : ToolResponse) : list string :=
  match grounded_candidates response with
  | Some (first :: _) =>
      match groundingMetadata first with
      | Some meta => match groundingChunks meta with
                     | Some chunks => omap chunk_uri chunks
                     | None => []
                     end
      | None => []
      end
  | _ => []
  end.

(** [profile.sources = sources]: on [null] and, in a module, on a
    primitive value the assignment throws. *)
Definition set_sources (parsed : json) (srcs : list string) : M AuthorProfile :=
  match parsed with
  | JObj _ | JArr _ => ret {| profile := parsed; sources := Some srcs |}
  | _ => throw TypeError
  end.

Definition analyzeAuthor (name : string) : M AuthorProfile :=
  try_catch
    (let* response := generateWithTools (author_request name) in
     let text := profile_text (answer_text response) in
     let* parsed := parse rt text in
     let srcs := grounding_sources response in
     set_sources parsed srcs)
    (fun e =>
       perform emit (console_error "Author analysis failed") in
       ret {| profile := JObj [("name", JStr name);
                               ("affiliation", JStr "Unknown");
                               ("interests", JArr []);
                               ("summary", JStr "Could not load detailed profile. Please try again.")];
              sources := None |}).

End Author.

(** ** The chat *)

(** A paper of the corpus with the fields that the chat reads besides
    those of [Paper]. *)
Record CorpusPaper : Type := {
  paper : Paper;
  authors : list json;          (* [metadata.authors], an array, unchecked *)
  abstract : option string
}.

Record Insight : Type := { insight_content : string }.

(** The [data] of a reply: [{ action, paperId }]; a [paperId] that the
    call did not give is [undefined]. *)
Record ReplyData : Type := {
  action : string;
  paperId : option json
}.

(** A message with the two optional fields that the chat functions set. *)
Record Reply : Type := {
  message : Message;
  isThinking : option bool;
  reply_data : option ReplyData
}.

Section Chat.
Variable rt : Runtime.
Variable w : World.
Variable ai : Assistant.

(** The text of the system instruction (lines 269-277).  It is a constant
    of the source that holds code units above 255, and no function looks
    into it. *)
Variable instruction : string.

(** *** sendMessage (lines 249-304) *)

Definition count (n : nat) : string := NumberToString rt (Num.of_nat n).

(** One line of the corpus index; [None]: the title or an author cannot be
    printed and the template throws. *)
Definition corpus_line (p : CorpusPaper) : option string :=
  match ToString rt (title (paper p)), join_values rt ", " (authors p) with
  | Some t, Some names =>
      Some ("ID: " +:+ paper_id (paper p) +:+ " | Title: " +:+ t
              +:+ " | Authors: " +:+ names)
  | _, _ => None
  end.

Definition corpusSummary (papers : list CorpusPaper) : option string :=
  if (0 <? length papers)%nat then
    match mapM corpus_line papers with
    | Some lines =>
        Some (Str.join nl
                [ EmptyString
                ; EmptyString
                ; "--- CORPUS INDEX ---"
                ; "The user has the following " +:+ count (length papers)
                    +:+ " papers available:"
                ; Str.join nl lines
                ; "--- END CORPUS ---"
                ])
    | None => None
    end
  else
    Some (Str.join nl
            [ EmptyString
            ; EmptyString
            ; "--- CORPUS INDEX ---"
            ; "(Empty)"
            ; "--- END CORPUS ---"
            ]).

(** [insights.map((ins, i) => `Insight ${i+1}: ${ins.content}`)], from
    index [i] on. *)
Fixpoint insight_lines (i : nat) (insights : list Insight) : list string :=
  match insights with
  | [] => []
  | ins :: rest =>
      ("Insight " +:+ count (i + 1) +:+ ": " +:+ insight_content ins)
        :: insight_lines (S i) rest
  end.

Definition insightsContext (insights : list Insight) : string :=
  if (0 <? length insights)%nat then
    Str.join nl
      [ EmptyString
      ; EmptyString
      ; "--- USER SAVED INSIGHTS ---"
      ; "(These are key thoughts the user wants to remember. If the current query relates to these, explicitly remind the user: "
          +:+ quoted "This relates to your insight: [Insight content]" +:+ ")"
      ; Str.join nl (insight_lines 0 insights)
      ; "--- END INSIGHTS ---"
      ]
  else EmptyString.

(** The context of lines 261-263; [None]: a template throws. *)
Definition chat_context (text : string) (papers : list CorpusPaper)
           (activePaper : option CorpusPaper) (insights : list Insight) : option string :=
  match corpusSummary papers with
  | Some corpusSummary =>
      match activePaper with
      | Some active =>
          match ToString rt (title (paper active)) with
          | Some t =>
              Some ("Current Active Paper: " +:+ t +:+ nl
                      +:+ "Abstract: " +:+ or_default (abstract active) "N/A"
                      +:+ corpusSummary +:+ insightsContext insights
                      +:+ nl +:+ nl +:+ "User Query: " +:+ text)
          | None => None
          end
      | None =>
          Some ("User Query: " +:+ text +:+ corpusSummary +:+ insightsContext insights)
      end
  | None => None
  end.

(** The request of line 265; [None]: the context cannot be written. *)
Definition chat_request (text : string) (papers : list CorpusPaper)
           (activePaper : option CorpusPaper) (insights : list Insight)
  : option ToolRequest :=
  match chat_context text papers activePaper insights with
  | Some context =>
      Some {| request := {| model := "gemini-2.5-flash";
                            contents := Prompt context;
                            responseMimeType := None |};
              systemInstruction := Some instruction;
              tools := [functionDeclarations ["openPaper"]] |}
  | None => None
  end.

Definition plain_reply (content : string) : Reply :=
  {| message := new_message w content false;
     isThinking := None;
     reply_data := None |}.

(** [(call.args as any).paperId]: [args] may be missing. *)
Definition args_paperId (call : FunctionCall) : M (option json) :=
  match call_args call with
  | Some args => member "paperId" args
  | None => throw TypeError
  end.

Definition is_openPaper (call : FunctionCall) : bool :=
  match call_name call with
  | Some name => String.eqb name "openPaper"
  | None => false
  end.

Definition sendMessage (text : string) (papers : list CorpusPaper)
           (activePaper : option CorpusPaper) (insights : list Insight) : M Reply :=
  match chat_request text papers activePaper insights with
  | None => throw TypeError
  | Some req =>
      let* response := generateWithTools ai req in
      let answer :=
        ret (plain_reply (or_default (answer_text response) "I didn't get that.")) in
      match functionCalls response with
      | Some (call :: _) =>
          if is_openPaper call then
            let* paperId := args_paperId call in
            ret {| message := new_message w "Opening paper..." false;
                   isThinking := None;
                   reply_data := Some {| action := "open_paper"; paperId := paperId |} |}
          else answer
      | _ => answer
      end
  end.

(** *** findResearchGap (lines 306-322) *)

(** The request of line 310; [None]: the titles cannot be joined. *)
Definition gap_request (query : string) (papers : list CorpusPaper) : option Request :=
  match join_values rt ", " (map (fun p => title (paper p)) papers) with
  | Some titles =>
      Some {| model := "gemini-3-pro-preview";
              contents := Prompt ("Analyze these papers: " +:+ titles
                                  +:+ ". Identify a research gap related to: "
                                  +:+ quoted query
                                  +:+ ". Provide a structured gap analysis.");
              responseMimeType := None |}
  | None => None
  end.

Definition findResearchGap (query : string) (papers : list CorpusPaper) : M Reply :=
  match gap_request query papers with
  | None => throw TypeError
  | Some req =>
      let* response := generate w req in
      ret {| message := new_message w (or_default (text response) "Could not identify gaps.")
                                    false;
             isThinking := Some true;
             reply_data := None |}
  end.

End Chat.

(** ** The application (App.tsx) *)

Inductive AgentMode : Type :=
| CHAT
| CITATION_ANALYSIS
| RESEARCH_GAP
| AUTHOR_INTELLIGENCE
| VISUALIZE.

Definition is_CHAT (mode : AgentMode) : bool :=
  match mode with CHAT => true | _ => false end.

(** The service function that a request is sent to. *)
Inductive Route : Type :=
| to_findResearchGap
| to_analyzeAuthor
| to_visualizeFigure
| to_explainCitation
| to_sendMessage.

Module Pattern.

(** [a|b|...] of literals under the [i] flag. *)
Fixpoint any_ci (words : list string) : Regex.regex :=
  match words with
  | [] => Regex.Chr (fun _ => false)
  | [word] => Regex.lit_ci word
  | word :: rest => Regex.Alt (Regex.lit_ci word) (any_ci rest)
  end.

(** [.]: any code unit but a line terminator. *)
Definition dot (c : ascii) : bool :=
  negb ((Str.code c =? 10)%nat || (Str.code c =? 13)%nat).

(** [re.test(s)] for a pattern that starts with [^]: a match at the first
    position only. *)
Definition test_at_start (r : Regex.regex) (s : string) : bool :=
  match Regex.run r (list_ascii_of_string s) [] (fun _ c => Some c) with
  | Some _ => true
  | None => false
  end.

(** [/^(open|view|read|show|display)\s/i], without its [^] *)
Definition paper_verb : Regex.regex :=
  Regex.Seq (Regex.Group 1 (any_ci ["open"; "view"; "read"; "show"; "display"]))
            (Regex.Chr Regex.is_space).

(** [/(paper|pdf|document)/i] *)
Definition paper_noun : Regex.regex :=
  Regex.Group 1 (any_ci ["paper"; "pdf"; "document"]).

(** [/(search|find|list)\s.*(paper|pdf|document)/i] *)
Definition search_command : Regex.regex :=
  Regex.Seq (Regex.Group 1 (any_ci ["search"; "find"; "list"]))
    (Regex.Seq (Regex.Chr Regex.is_space)
       (Regex.Seq (Regex.Star dot)
          (Regex.Group 2 (any_ci ["paper"; "pdf"; "document"])))).

(** [/(visualize|zoom|enhance|show|shoe|display|magnify|see|view|find|get|look at)/i] *)
Definition viz_verb : Regex.regex :=
  Regex.Group 1
    (any_ci ["visualize"; "zoom"; "enhance"; "show"; "shoe"; "display"; "magnify";
             "see"; "view"; "find"; "get"; "look at"]).

(** [/(figure|fig|table|chart|graph|image)/i] *)
Definition viz_noun : Regex.regex :=
  Regex.Group 1 (any_ci ["figure"; "fig"; "table"; "chart"; "graph"; "image"]).

(** [/^(figure|fig\.?|table)\s*\d+/i], without its [^] *)
Definition direct_figure : Regex.regex :=
  Regex.Seq
    (Regex.Group 1
       (Regex.Alt (Regex.lit_ci "figure")
          (Regex.Alt (Regex.Seq (Regex.lit_ci "fig") dot_opt)
             (Regex.lit_ci "table"))))
    (Regex.Seq (Regex.Star Regex.is_space) (Regex.Plus Regex.is_digit)).

(** [/\[\d+\]/] *)
Definition citationRegex : Regex.regex :=
  Regex.Seq (Regex.Chr (Regex.one_of ["["%char]))
    (Regex.Seq (Regex.Plus Regex.is_digit) (Regex.Chr (Regex.one_of ["]"%char]))).

End Pattern.

(** *** handleSendMessage (lines 580-680): the routing *)

Definition isPaperCommand (text : string) : bool :=
  Pattern.test_at_start Pattern.paper_verb text && Regex.test Pattern.paper_noun text.

Definition isSearchCommand (text : string) : bool :=
  Regex.test Pattern.search_command text.

Definition usedMode (text : string) (mode : AgentMode) : AgentMode :=
  if (isPaperCommand text || isSearchCommand text) && negb (is_CHAT mode)
  then CHAT else mode.

Definition isVizIntent (lowerText : string) : bool :=
  Regex.test Pattern.viz_verb lowerText && Regex.test Pattern.viz_noun lowerText.

Definition isDirectFigure (lowerText : string) : bool :=
  Pattern.test_at_start Pattern.direct_figure lowerText.

(** The [switch] of lines 608-652. *)
Definition route (text : string) (mode : AgentMode) : Route :=
  match usedMode text mode with
  | RESEARCH_GAP => to_findResearchGap
  | AUTHOR_INTELLIGENCE => to_analyzeAuthor
  | VISUALIZE => to_visualizeFigure
  | CITATION_ANALYSIS => to_explainCitation
  | CHAT =>
      let lowerText := Str.toLowerCase text in
      if isVizIntent lowerText || isDirectFigure lowerText
      then to_visualizeFigure else to_sendMessage
  end.

(** *** handleAskSofia (lines 568-578): the message and the mode that it
    hands to [handleSendMessage] *)

Definition handleAskSofia (text : string) : string * AgentMode :=
  if Regex.test Pattern.citationRegex text
  then ("Analyze this citation context: " +:+ quoted text, CITATION_ANALYSIS)
  else ("Analyze this excerpt: " +:+ quoted text, CHAT).

Section App.
Variable rt : Runtime.
Variable w : World.
Variable ai : Assistant.
Variable instruction : string.

(** [papers.find(p => p.id === pid)] for a [pid] of any type. *)
Definition find_paper (papers : list CorpusPaper) (pid : json) : option CorpusPaper :=
  match pid with
  | JStr s => find (fun p => String.eqb (paper_id (paper p)) s) papers
  | _ => None
  end.

Definition with_content (r : Reply) (content : string) : Reply :=
  {| message := {| id := id (message r);
                   role := role (message r);
                   msg_content := content;
                   timestamp := timestamp (message r);
                   citations := citations (message r);
                   type := type (message r) |};
     isThinking := isThinking r;
     reply_data := reply_data r |}.

(** Lines 654-664: the reply as it is shown, or the exception of a
    template, and the paper made active if one is ([setActivePaperId(pid)],
    line 659, before the template of line 660). *)
Definition open_paper_action (papers : list CorpusPaper) (responseMsg : Reply)
  : Res Reply * option string :=
  match reply_data responseMsg with
  | Some d =>
      match paperId d with
      | Some pid =>
          if String.eqb (action d) "open_paper" && truthy_value pid then
            match find_paper papers pid with
            | Some foundPaper =>
                (match ToString rt (title (paper foundPaper)) with
                 | Some t => Ok (with_content responseMsg ("Opened **" +:+ t +:+ "**."))
                 | None => Throw TypeError
                 end,
                 Some (paper_id (paper foundPaper)))
            | None =>
                (match ToString rt pid with
                 | Some shown_id =>
                     Ok (with_content responseMsg
                           ("I tried to open the paper, but could not find the ID "
                              +:+ shown_id +:+ "."))
                 | None => Throw TypeError
                 end,
                 None)
            end
          else (Ok responseMsg, None)
      | None => (Ok responseMsg, None)
      end
  | None => (Ok responseMsg, None)
  end.

Definition reply_of (m : Message) : Reply :=
  {| message := m; isThinking := None; reply_data := None |}.

(** [activePaper?.title || "current paper"] *)
Definition activeTitle (activePaper : option CorpusPaper) : json :=
  match activePaper with
  | Some p => if truthy_value (title (paper p)) then title (paper p)
              else JStr "current paper"
  | None => JStr "current paper"
  end.

(** The [try] block up to line 652: the response of the service function
    that the request is routed to.  [None]: the figures are still being
    processed.  The message of the user is the first object created (line
    581), the response is the second. *)
Definition respond (text : string) (mode : AgentMode) (papers : list CorpusPaper)
           (activePaper : option CorpusPaper) (insights : list Insight)
           (order : list nat) : option (M Reply) :=
  let w1 := advance 1 w in
  match route text mode with
  | to_findResearchGap => Some (findResearchGap rt w1 text papers)
  | to_analyzeAuthor =>
      Some (let* profile := analyzeAuthor rt ai text in
            ret (plain_reply w1 ("Profile loaded for " +:+ text +:+ ".")))
  | to_visualizeFigure =>
      match visualizeFigure rt w1 text (option_map paper activePaper) order with
      | Some (m, t) => Some (Ok (reply_of m), t)
      | None => None
      end
  | to_explainCitation =>
      Some (let* paperTitle := to_string rt (activeTitle activePaper) in
            let* explanation := explainCitation w text paperTitle in
            ret (plain_reply w1 explanation))
  | to_sendMessage => Some (sendMessage rt w1 ai instruction text papers activePaper insights)
  end.

(** The message of the [catch] block (line 672), when [n] objects were
    created before it. *)
Definition error_reply (n : nat) : Reply :=
  plain_reply (advance n w) "Error processing request.".

(** What [handleSendMessage] does once the service has answered: the
    message that it appends, if it appends one, and the paper that it makes
    active, if it does.  [active] is the test
    [activeRequestRef.current === requestId] of lines 667 and 671: the
    request was not stopped and no later request has replaced it.  The
    outer [None]: the figures are still being processed. *)
Definition handleSendMessage (text : string) (mode : AgentMode) (papers : list CorpusPaper)
           (activePaper : option CorpusPaper) (insights : list Insight)
           (order : list nat) (active : bool) : option (option Reply * option string) :=
  match respond text mode papers activePaper insights order with
  | Some (Ok responseMsg, _) =>
      let (shown, opened) := open_paper_action papers responseMsg in
      let appended := match shown with
                      | Ok r => r
                      | Throw _ => error_reply 2
                      end in
      Some (if active then Some appended else None, opened)
  | Some (Throw _, _) => Some (if active then Some (error_reply 1) else None, None)
  | None => None
  end.

End App.

(** *** handleUpload (App.tsx, lines 480-530) *)

(** A file of the input: its name and type, what [FileReader] gives for
    it ([None]: the reader fails), and the URL that [createObjectURL]
    makes for it. *)
Record File : Type := {
  file_name : string;
  file_type : string;
  readAsDataURL : option string;
  objectURL : string
}.

(** A paper as [handleUpload] builds it; title and authors are what
    [extractPaperMetadata] returned. *)
Record UploadedPaper : Type := {
  up_id : string;
  up_title : json;
  up_authors : list json;
  fileName : string;
  uploadDate : Z;
  up_url : string;
  fileData : option string;     (* [None]: [undefined] *)
  up_mimeType : string
}.

(** The state that [handleUpload] reads and sets. *)
Record UploadState : Type := {
  st_papers : list UploadedPaper;
  st_activePaperId : option string;
  st_messages : list Message;
  st_isProcessing : bool
}.

Section Upload.
Variable rt : Runtime.
Variable w : World.

(** [fileToBase64] (lines 41-52): [result.split(',')[1]], which is
    [undefined] ([None]) for a result without a comma. *)
Definition fileToBase64 (file : File) : M (option string) :=
  match readAsDataURL file with
  | Some result => ret (Str.split_on ","%char result !! 1%nat)
  | None => throw (Rejected "FileReader")
  end.

(** The body of the loop over the files (lines 496-515); the paper is the
    [n]-th object that the handler creates. *)
Definition upload_one (n : nat) (file : File) : M UploadedPaper :=
  let* base64Data := fileToBase64 file in
  let url := objectURL file in
  let* firstPageText := extractPdfText w url in
  let* metadata := extractPaperMetadata rt w firstPageText (file_name file) in
  ret {| up_id := randomUUID w n;
         up_title := meta_title metadata;
         up_authors := meta_authors metadata;
         fileName := file_name file;
         uploadDate := now w n;
         up_url := url;
         fileData := base64Data;
         up_mimeType := file_type file |}.

(** [for (const file of files) { ... newPapers.push(...) }].  The updater
    of line 488 is queued before the loop and has run, and created its
    message, by the time the reader of the first file answers: the papers
    are the objects created after that message. *)
Fixpoint upload_all (files : list File) (newPapers : list UploadedPaper)
  : M (list UploadedPaper) :=
  match files with
  | [] => ret newPapers
  | file :: rest =>
      let* p := upload_one (1 + length newPapers) file in
      upload_all rest (newPapers ++ [p])
  end.

(** A message of the handler, the [n]-th object that it creates. *)
Definition system_message (n : nat) (content : string) : Message :=
  {| id := randomUUID w n;
     role := "system";
     msg_content := content;
     timestamp := now w n;
     citations := None;
     type := None |}.

Definition falsy_id (activePaperId : option string) : bool :=
  match activePaperId with
  | Some s => negb (truthy s)
  | None => true
  end.

(** The state after the handler has run, whether it completed or stopped
    at a rejection (there is no [try] around the loop), and the trace of
    its calls; [files] is [e.target.files]. *)
Definition handleUpload (files : option (list File)) (st : UploadState)
  : UploadState * list Event :=
  match files with
  | Some (file :: more) =>
      let files := file :: more in
      let uploading :=
        system_message 0 ("Uploading and analyzing "
                            +:+ NumberToString rt (Num.of_nat (length files))
                            +:+ " paper(s) for metadata (Authors/Titles)...") in
      match upload_all files [] with
      | (Ok newPapers, t) =>
          ({| st_papers := st_papers st ++ newPapers;
              st_activePaperId :=
                match newPapers with
                | first :: _ =>
                    if falsy_id (st_activePaperId st) then Some (up_id first)
                    else st_activePaperId st
                | [] => st_activePaperId st
                end;
              st_messages :=
                st_messages st
                  ++ [uploading;
                      system_message (1 + length newPapers)
                        ("Successfully added "
                           +:+ NumberToString rt (Num.of_nat (length newPapers))
                           +:+ " paper(s). Authors and Titles indexed.")];
              st_isProcessing := false |}, t)
      | (Throw _, t) =>
          ({| st_papers := st_papers st;
              st_activePaperId := st_activePaperId st;
              st_messages := st_messages st ++ [uploading];
              st_isProcessing := true |}, t)
      end
  | _ => (st, [])
  end.

End Upload.

(** *** handleUpdatePaper and handleDeletePaper (App.tsx, lines 532-539) *)

Definition handleUpdatePaper (updatedPaper : UploadedPaper) (st : UploadState)
  : UploadState :=
  {| st_papers := map (fun p => if String.eqb (up_id p) (up_id updatedPaper)
                                then updatedPaper else p)
                      (st_papers st);
     st_activePaperId := st_activePaperId st;
     st_messages := st_messages st;
     st_isProcessing := st_isProcessing st |}.

Definition handleDeletePaper (id : string) (st : UploadState) : UploadState :=
  {| st_papers := List.filter (fun p => negb (String.eqb (up_id p) id)) (st_papers st);
     st_activePaperId := match st_activePaperId st with
                         | Some active => if String.eqb active id then None
                                          else Some active
                         | None => None
                         end;
     st_messages := st_messages st;
     st_isProcessing := st_isProcessing st |}.

(** ** The image viewer (ImageZoomModal, src/unnamed/part_000) *)

Module Zoom.

(** [Math.max] and [Math.min] on finite numbers. *)
Definition max (a b : Q) : Q := if Qle_bool a b then b else a.
Definition min (a b : Q) : Q := if Qle_bool a b then a else b.

(** The view ([None]: the grid) and the scale. *)
Record State : Type := { viewIndex : option nat; scale : Q }.

Inductive Action : Type :=
| Wheel (deltaY : Q)
| ZoomOut
| ZoomIn
| SetView (v : option nat)
| Open (images : nat).

Definition same_view (a b : option nat) : bool :=
  match a, b with
  | Some i, Some j => (i =? j)%nat
  | None, None => true
  | _, _ => false
  end.

(** [handleWheel] (lines 39-45), the two zoom buttons (lines 102 and
    104, shown in the single view only), a change of view with the effect
    that resets the zoom (lines 34-37), and the opening of the viewer
    (lines 21-31). *)
Definition step (st : State) (ev : Action) : State :=
  match ev with
  | Wheel deltaY =>
      match viewIndex st with
      | None => st
      | Some _ =>
          let delta := (deltaY * - (1 # 1000))%Q in
          {| viewIndex := viewIndex st;
             scale := min (max (1 # 2) (scale st + delta)%Q) 6 |}
      end
  | ZoomOut =>
      match viewIndex st with
      | None => st
      | Some _ => {| viewIndex := viewIndex st;
                     scale := max (1 # 2) (scale st - (1 # 2))%Q |}
      end
  | ZoomIn =>
      match viewIndex st with
      | None => st
      | Some _ => {| viewIndex := viewIndex st;
                     scale := min 6 (scale st + (1 # 2))%Q |}
      end
  | SetView v =>
      if same_view (viewIndex st) v then st
      else {| viewIndex := v; scale := 1 |}
  | Open images =>
      {| viewIndex := if (images =? 1)%nat then Some 0%nat else None; scale := 1 |}
  end.

Definition initial : State := {| viewIndex := None; scale := 1 |}.

Definition after (events : list Action) : State := fold_left step events initial.

End Zoom.

(** ** The images of a visualization message (ChatInterface.tsx, lines 45-63) *)

Record ZoomImage : Type := { alt : string; src : string }.

Module Markup.

(** A lazy [.*?]: the shortest run of code units other than line
    terminators after which the rest of the pattern, [k], matches; [seen]
    is the run so far. *)
Fixpoint lazy_dots {R} (s : list ascii) (seen : list ascii)
         (k : list ascii -> list ascii -> option R) : option R :=
  match k seen s with
  | Some x => Some x
  | None => match s with
            | a :: s' => if Pattern.dot a then lazy_dots s' (seen ++ [a]) k else None
            | [] => None
            end
  end.

Fixpoint literal (p : string) (s : list ascii) : option (list ascii) :=
  match p, s with
  | EmptyString, _ => Some s
  | String a p', b :: s' => if Ascii.eqb a b then literal p' s' else None
  | String _ _, [] => None
  end.

(** [/!\[(.*?)\]\((data:.*?)\)/] at the start of [s]: the two groups and
    what is left of [s] after the match. *)
Definition image_at (s : list ascii) : option (list ascii * list ascii * list ascii) :=
  match literal "![" s with
  | Some s1 =>
      lazy_dots s1 [] (fun group1 s2 =>
        match literal "](" s2 with
        | Some s3 =>
            match literal "data:" s3 with
            | Some s4 =>
                lazy_dots s4 [] (fun rest2 s5 =>
                  match literal ")" s5 with
                  | Some s6 => Some (group1, list_ascii_of_string "data:" ++ rest2, s6)
                  | None => None
                  end)
            | None => None
            end
        | None => None
        end)
  | None => None
  end.

(** [content.matchAll(/.../g)]: the matches from left to right, each
    search starting where the match before it ended; [skip] is the number
    of code units still covered by that match. *)
Fixpoint matchAll (s : list ascii) (skip : nat) : list (list ascii * list ascii) :=
  match s with
  | [] => []
  | _ :: s' =>
      match skip with
      | S n => matchAll s' n
      | O => match image_at s with
             | Some (group1, group2, rest) =>
                 (group1, group2) :: matchAll s' (length s' - length rest)
             | None => matchAll s' 0
             end
      end
  end.

End Markup.

(** [matches.map(m => ({ alt: m[1] || 'Figure', src: m[2] }))] *)
Definition zoom_images (content : string) : list ZoomImage :=
  map (fun m => {| alt := or_default (Some (string_of_list_ascii (fst m))) "Figure";
                   src := string_of_list_ascii (snd m) |})
      (Markup.matchAll (list_ascii_of_string content) 0).

(** ** The vocabulary of the further properties *)

(** A reply of the model with a text. *)
Definition worded (r : Reply) : Prop :=
  msg_content (message r) <> EmptyString /\ role (message r) = "model".

(** A continuation that accepts whatever is left, as [test] has it. *)
Definition accepting {R} (k : list ascii -> Regex.captures -> option R) : Prop :=
  forall s c, is_Some (k s c).

(** Lower-casing a code unit does not change whether it matches the
    pattern letter [c] under the [i] flag. *)
Definition folds_with_lower (c : ascii) : bool :=
  forallb (fun n => Bool.eqb (Regex.ci c (Str.lower_char (ascii_of_nat n)))
                             (Regex.ci c (ascii_of_nat n)))
          (seq 0 256).

(** The code units of the class [p] are left alone by lower-casing. *)
Definition kept_by_lower (p : ascii -> bool) : bool :=
  forallb (fun n => implb (p (ascii_of_nat n))
                          (Ascii.eqb (Str.lower_char (ascii_of_nat n)) (ascii_of_nat n)))
          (seq 0 256).

(** A text without line terminators. *)
Definition one_line (s : string) : bool :=
  forallb Pattern.dot (list_ascii_of_string s).

(** A record whose markup can be read back: the label, written out, has
    no exclamation mark, no closing bracket and no line terminator; the
    image, if there is one, is a data URL without a closing parenthesis
    and without a line terminator. *)
Definition displayable (rt : Runtime) (res : FigureResult) : bool :=
  let name := label_text rt res in
  printable rt (label res)
  && lacks "!" name && lacks "]" name && one_line name
  && (if truthy (imageUrl res)
      then match Str.drop_prefix "data:" (imageUrl res) with
           | Some u => lacks ")" u && one_line u
           | None => false
           end
      else true).

(** The image that the chat shows for a record. *)
Definition shown (rt : Runtime) (res : FigureResult) : ZoomImage :=
  {| alt := or_default (Some (label_text rt res)) "Figure";
     src := imageUrl res |}.

(** The two groups of the match on the markup of a record. *)
Definition raw_match (rt : Runtime) (res : FigureResult) : list ascii * list ascii :=
  (list_ascii_of_string (label_text rt res), list_ascii_of_string (imageUrl res)).

(** The papers built for [files]: one per file, in order, each with the
    name and the object URL of its file and, for a non-empty file name, a
    truthy title; their identifiers are consecutive draws of
    [randomUUID], one for each paper, in the order of the files. *)
Definition built_from (w : World) (files : list File) (newPapers : list UploadedPaper)
  : Prop :=
  Forall2 (fun file p =>
             fileName p = file_name file
             /\ up_url p = objectURL file
             /\ (file_name file <> EmptyString -> truthy_value (up_title p) = true))
          files newPapers
  /\ exists k, map up_id newPapers = map (randomUUID w) (seq k (length files)).

(** The active paper, if there is one, is a paper of the corpus. *)
Definition active_in_corpus (st : UploadState) : Prop :=
  match st_activePaperId st with
  | Some active => exists p, p ∈ st_papers st /\ up_id p = active
  | None => True
  end.

(** A scale between 50% and 600%. *)
Definition zoom_in_range (st : Zoom.State) : Prop :=
  (1 # 2 <= Zoom.scale st /\ Zoom.scale st <= 6)%Q.

(** ** Sample requests for the chat and the library *)

Module ChatSample.
Import Sample.

(** The five pages of [OrchestratorSample.w_pages]. *)
Definition five_pages : PdfDoc :=
  doc [page ["Introduction"] "PAGE1";
       page ["as Figure 1 shows"] "PAGE2";
       page ["Fig. 1: overview"] "PAGE3";
       page ["Table 2. Results"] "PAGE4";
       page ["Figure 3: ablation"] "PAGE5"].

(** The detector answers with a box in a code fence. *)
Definition w_box : World :=
  world None
        (client None (Some (text_response (fenced (box_text "100" "100" "600" "900")))) None).

Definition corpus : list CorpusPaper :=
  [ {| paper := OrchestratorSample.paper; authors := [JStr "A. Author"];
       abstract := None |};
    {| paper := {| paper_id := "p2"; title := JStr "Another paper"; url := "blob:other" |};
       authors := [JStr "B. Writer"; JStr "C. Reader"];
       abstract := Some "An abstract." |} ].

Definition assistant (answer : option ToolResponse) : Assistant :=
  {| generateContentWithTools := fun _ => answer |}.

Definition said (s : string) : ToolResponse :=
  {| answer_text := Some s; functionCalls := None; grounded_candidates := None |}.


(** The request of [generateKnowledgeGraph] for this corpus. *)
Definition graph_of_corpus : Request :=
  {| model := "gemini-2.5-flash";
     contents := Prompt (graph_prompt rt0 (map paper corpus)
                           (Str.join nl ["ID: p1, Title: A paper";
                                         "ID: p2, Title: Another paper"]));
     responseMimeType := Some "application/json" |}.


Definition records : list FigureResult :=
  [ {| imageUrl := "data:image/png;base64,AAAA"; label := JStr "Figure 1"; error := None |};
    failure_record (JStr "Table 2");
    {| imageUrl := "data:image/jpeg;base64,BBBB"; label := JStr EmptyString;
       error := None |} ].

Definition pdf_file (name : string) : File :=
  {| file_name := name;
     file_type := "application/pdf";
     readAsDataURL := Some "data:application/pdf;base64,JVBERi0=";
     objectURL := "blob:" +:+ name |}.

Definition broken_file (name : string) : File :=
  {| file_name := name;
     file_type := "application/pdf";
     readAsDataURL := None;
     objectURL := "blob:" +:+ name |}.

Definition fresh : UploadState :=
  {| st_papers := []; st_activePaperId := None; st_messages := [];
     st_isProcessing := false |}.

(** One paper in the corpus, and it is the active one. *)
Definition one_paper : UploadState :=
  {| st_papers := [ {| up_id := "p1"; up_title := JStr "A paper"; up_authors := [];
                       fileName := "a.pdf"; uploadDate := 0; up_url := "blob:a.pdf";
                       fileData := Some "JVBERi0="; up_mimeType := "application/pdf" |} ];
     st_activePaperId := Some "p1";
     st_messages := [];
     st_isProcessing := false |}.

End ChatSample.

(** ** Properties *)

(** *** The monad *)

Lemma bind_ok {A B} (a : A) (t : list Event) (f : A -> M B) :
  bind (Ok a, t) f = (fst (f a), t ++ snd (f a)).
Proof. unfold bind. destruct (f a); reflexivity. Qed.

Lemma bind_ret_l {A B} (a : A) (f : A -> M B) : bind (ret a) f = f a.
Proof. unfold bind, ret. destruct (f a); reflexivity. Qed.

Lemma try_catch_throw {A} (e : JsError) (t : list Event) (h : JsError -> M A) :
  try_catch (Throw e, t) h = (fst (h e), t ++ snd (h e)).
Proof. unfold try_catch. destruct (h e); reflexivity. Qed.

Lemma to_string_printed (rt : Runtime) (v : json) (s : string) :
  ToString rt v = Some s -> to_string rt v = ret s.
Proof. intros H. unfold to_string. rewrite H. reflexivity. Qed.

Lemma to_string_throws (rt : Runtime) (v : json) :
  ToString rt v = None -> to_string rt v = throw TypeError.
Proof. intros H. unfold to_string. rewrite H. reflexivity. Qed.

Lemma printable_true (rt : Runtime) (v : json) :
  printable rt v = true <-> exists s, ToString rt v = Some s.
Proof.
  unfold printable. destruct (ToString rt v) as [s |]; split.
  - intros _. exists s. reflexivity.
  - reflexivity.
  - discriminate.
  - intros [s Hs]. discriminate Hs.
Qed.

Lemma printable_false (rt : Runtime) (v : json) :
  printable rt v = false <-> ToString rt v = None.
Proof. unfold printable. destruct (ToString rt v); split; congruence. Qed.

Lemma printable_JStr (rt : Runtime) (s : string) : printable rt (JStr s) = true.
Proof. reflexivity. Qed.

(** A handler that always returns makes the whole [try] return. *)
Lemma try_catch_returns {A} (m : M A) (h : JsError -> M A) :
  (forall e, exists a, fst (h e) = Ok a) -> exists a, fst (try_catch m h) = Ok a.
Proof.
  intros Hh. destruct m as [[a | e] t].
  - exists a. reflexivity.
  - rewrite try_catch_throw. simpl. apply Hh.
Qed.

(** *** The target extractor *)

Section ExtractorFacts.
Variable rt : Runtime.
Variable w : World.

Lemma extractFigureTargets_result (query : string) :
  fst (extractFigureTargets rt w query) =
  Ok (match extract_parsed rt w query with
      | Some (JArr (t :: ts)) => t :: ts
      | _ => [JStr query]
      end).
Proof.
  unfold extractFigureTargets, extract_parsed, generate, await, parse.
  destruct (generateContent w (extract_request query)) as [response |]; [| reflexivity].
  rewrite bind_ok.
  destruct (JSON_parse rt (or_default (text response) "[]")) as [v |]; [| reflexivity].
  destruct v as [| b | q | s | [| t ts] | ms]; reflexivity.
Qed.
End ExtractorFacts.

(** C4.  For every query, the empty one included, [extractFigureTargets]
    returns a list of at least one identifier; when the call fails, the
    answer does not parse, is not an array, or is the empty array, that
    list is exactly the one-element list holding the query itself. *)
Theorem extractFigureTargets_at_least_one (rt : Runtime) (w : World) (query : string) :
  exists targets,
    fst (extractFigureTargets rt w query) = Ok targets
    /\ (1 <= length targets)%nat
    /\ (extract_parsed rt w query = None -> targets = [JStr query])
    /\ (forall v, extract_parsed rt w query = Some v ->
                  (forall elems, v <> JArr elems) -> targets = [JStr query])
    /\ (extract_parsed rt w query = Some (JArr []) -> targets = [JStr query]).
Proof.
  eexists. split; [apply extractFigureTargets_result |].
  destruct (extract_parsed rt w query) as [v |] eqn:E.
  - destruct v as [| b | q | s | [| t ts] | ms]; simpl;
      (split; [lia |]); (split; [congruence |]); (split; [| congruence]);
      intros v Hv Hna; try reflexivity.
    injection Hv as <-. exfalso. eapply Hna. reflexivity.
  - simpl. repeat split; auto.
Qed.

(** *** The enhancer *)

Lemma use_part_image_of (acc : string) (p : Part) :
  use_part acc p = default acc (image_of p).
Proof.
  unfold use_part, image_of.
  destruct (inlineData p) as [blob |]; [| reflexivity].
  destruct (data blob) as [d |]; [| reflexivity].
  destruct (truthy d); reflexivity.
Qed.

Lemma last_cons_default {A} (x d : A) (l : list A) :
  List.last (x :: l) d = List.last l x.
Proof.
  revert x d. induction l as [| y l IH]; intros x d; [reflexivity |].
  change (List.last (x :: y :: l) d) with (List.last (y :: l) d).
  rewrite (IH y d), (IH y x). reflexivity.
Qed.

(** The loop keeps overwriting: the last image wins. *)
Lemma fold_use_part (ps : list Part) (init : string) :
  fold_left use_part ps init = List.last (images ps) init.
Proof.
  revert init. induction ps as [| p ps IH]; intros init; [reflexivity |].
  simpl fold_left. rewrite IH, use_part_image_of. unfold images. simpl omap.
  destruct (image_of p) as [u |]; simpl.
  - symmetry. apply last_cons_default.
  - reflexivity.
Qed.

Section EnhancerFacts.
Variable rt : Runtime.
Variable w : World.

(** The enhancer answers, except when its call throws and the warning of
    the [catch] block cannot be written. *)
Lemma enhance_result (target : json) (cropped : string) :
  fst (enhance rt w target cropped) =
  match generateContent w (enhancement_request cropped) with
  | Some r => Ok (match first_candidate_parts r with
                  | Some ps => List.last (images ps) ("data:image/jpeg;base64," +:+ cropped)
                  | None => "data:image/jpeg;base64," +:+ cropped
                  end)
  | None => if printable rt target then Ok ("data:image/jpeg;base64," +:+ cropped)
            else Throw TypeError
  end.
Proof.
  unfold enhance, generate, await, printable, to_string.
  destruct (generateContent w (enhancement_request cropped)) as [r |].
  - rewrite bind_ok.
    destruct (first_candidate_parts r) as [ps |]; simpl; [| reflexivity].
    rewrite fold_use_part. reflexivity.
  - destruct (ToString rt target); reflexivity.
Qed.

Lemma enhance_returns (target : json) (cropped : string) :
  printable rt target = true ->
  exists u, fst (enhance rt w target cropped) = Ok u.
Proof.
  intros Hp. rewrite enhance_result, Hp.
  destruct (generateContent w (enhancement_request cropped)); eexists; reflexivity.
Qed.
End EnhancerFacts.

(** C8, as the code has it.  When the enhancement response carries one or
    more parts with inline image data (two or more in particular), the
    enhancer's output is the last such part; when it carries none, or has
    no parts, or the call throws, the output is the data URL of the image
    that went in, unmodified.  The last case is that of a target which
    the warning of the [catch] block can print, as every string is, and so
    every target that reaches the enhancer; on any other target that
    warning throws. *)
Theorem enhance_takes_last_image (rt : Runtime) (w : World) (target : json) (cropped : string) :
  (forall r ps,
      generateContent w (enhancement_request cropped) = Some r ->
      first_candidate_parts r = Some ps ->
      fst (enhance rt w target cropped)
      = Ok (List.last (images ps) ("data:image/jpeg;base64," +:+ cropped)))
  /\ (forall r,
      generateContent w (enhancement_request cropped) = Some r ->
      first_candidate_parts r = None
      \/ (exists ps, first_candidate_parts r = Some ps /\ images ps = []) ->
      fst (enhance rt w target cropped) = Ok ("data:image/jpeg;base64," +:+ cropped))
  /\ (generateContent w (enhancement_request cropped) = None ->
      fst (enhance rt w target cropped)
      = if printable rt target then Ok ("data:image/jpeg;base64," +:+ cropped)
        else Throw TypeError).
Proof.
  rewrite enhance_result. repeat split.
  - intros r ps -> ->. reflexivity.
  - intros r -> [-> | (ps & -> & ->)]; reflexivity.
  - intros ->. reflexivity.
Qed.

(** C8 as stated fails: with two image parts the first one is not the
    output. *)
Lemma enhance_first_image_refuted :
  ~ (forall (rt : Runtime) (w : World) (target : json) (cropped : string) r ps first,
        generateContent w (enhancement_request cropped) = Some r ->
        first_candidate_parts r = Some ps ->
        (2 <= length (images ps))%nat ->
        head (images ps) = Some first ->
        fst (enhance rt w target cropped) = Ok first).
Proof.
  intros H.
  pose (ps := [Sample.image_part "image/png" "AAAA"; Sample.image_part "image/png" "BBBB"]).
  pose (r := Sample.image_response ps).
  specialize (H Sample.rt0
                (Sample.world None (Sample.client None None (Some r)))
                (JStr "Figure 1") "CROP" r ps "data:image/png;base64,AAAA"
                eq_refl eq_refl).
  simpl in H. specialize (H (le_n 2) eq_refl).
  vm_compute in H. discriminate H.
Qed.

(** *** Promise.all *)

Module PromiseFacts.
Import Promise.

Section Join.
Context {A : Type}.
Implicit Types (vs : list A) (values : list (option A)) (order : list nat).

Lemma settle_fulfilled vs order values :
  settle (map Ok vs) order values = Ok (store vs order values).
Proof.
  revert values. induction order as [| i rest IH]; intros values; [reflexivity |].
  simpl. rewrite list_lookup_fmap.
  destruct (vs !! i) as [v |]; simpl; apply IH.
Qed.

Lemma store_length vs order values :
  length (store vs order values) = length values.
Proof.
  revert values. induction order as [| i rest IH]; intros values; [reflexivity |].
  simpl. destruct (vs !! i); rewrite IH; [apply length_insert | reflexivity].
Qed.

(** A slot whose branch is not in [order] keeps what it had. *)
Lemma store_other vs order values j :
  j ∉ order -> store vs order values !! j = values !! j.
Proof.
  revert values. induction order as [| i rest IH]; intros values Hj; [reflexivity |].
  apply not_elem_of_cons in Hj as [Hne Hrest]. simpl.
  destruct (vs !! i).
  - rewrite IH by assumption. apply list_lookup_insert_ne. congruence.
  - apply IH. assumption.
Qed.

(** A slot whose branch settles holds that branch's value, whenever it
    settles and whatever settles after it. *)
Lemma store_settled vs order values j v :
  j ∈ order -> vs !! j = Some v -> (j < length values)%nat ->
  store vs order values !! j = Some (Some v).
Proof.
  revert values. induction order as [| i rest IH]; intros values Hj Hv Hlen.
  - inversion Hj.
  - simpl. destruct (decide (j ∈ rest)) as [Hin | Hnin].
    + destruct (vs !! i); apply IH; rewrite ?length_insert; assumption.
    + apply elem_of_cons in Hj as [-> | Hin]; [| contradiction].
      rewrite Hv, store_other by assumption.
      apply list_lookup_insert_eq. assumption.
Qed.

Lemma filled_fmap_Some vs : filled (map Some vs) = Some vs.
Proof. induction vs as [| v vs IH]; simpl; [| rewrite IH]; reflexivity. Qed.

(** If every branch is fulfilled and every branch settles, the join is
    fulfilled with the values in the order of the branches. *)
Lemma all_fulfilled vs order :
  order ≡ₚ seq 0 (length vs) -> all (map Ok vs) order = Some (Ok vs).
Proof.
  intros Hperm. unfold all. rewrite settle_fulfilled, length_map.
  assert (store vs order (replicate (length vs) None) = map Some vs) as ->.
  { apply list_eq. intros j. rewrite list_lookup_fmap.
    destruct (vs !! j) as [v |] eqn:Hv; simpl.
    - apply lookup_lt_Some in Hv as Hlt.
      apply store_settled; [| assumption | rewrite length_replicate; assumption].
      rewrite Hperm. apply elem_of_seq. lia.
    - apply lookup_ge_None in Hv. apply lookup_ge_None.
      rewrite store_length, length_replicate. assumption. }
  rewrite filled_fmap_Some. reflexivity.
Qed.


(** If a branch that settles is rejected, and the rejected branches all
    carry the exception [e], the join is rejected with [e], whatever the
    order. *)
Lemma settle_rejected (outcomes : list (Res A)) order values e j :
  (forall i e', outcomes !! i = Some (Throw e') -> e' = e) ->
  j ∈ order -> outcomes !! j = Some (Throw e) ->
  settle outcomes order values = Throw e.
Proof.
  intros Hsame. revert values. induction order as [| i rest IH]; intros values Hj Hout.
  - inversion Hj.
  - simpl. destruct (outcomes !! i) as [[v | e'] |] eqn:Hi.
    + apply IH; [| exact Hout].
      apply elem_of_cons in Hj as [-> | Hin]; [congruence | exact Hin].
    + rewrite (Hsame _ _ Hi). reflexivity.
    + apply IH; [| exact Hout].
      apply elem_of_cons in Hj as [-> | Hin]; [congruence | exact Hin].
Qed.

Lemma all_rejected (outcomes : list (Res A)) order e j :
  (forall i e', outcomes !! i = Some (Throw e') -> e' = e) ->
  order ≡ₚ seq 0 (length outcomes) ->
  outcomes !! j = Some (Throw e) ->
  all outcomes order = Some (Throw e).
Proof.
  intros Hsame Hperm Hout. unfold all.
  rewrite (settle_rejected outcomes order _ e j Hsame); [reflexivity | | exact Hout].
  rewrite Hperm. apply elem_of_seq. apply lookup_lt_Some in Hout. lia.
Qed.

End Join.

End PromiseFacts.

(** *** The orchestrator *)

Lemma append_cons (x : ascii) (a b : string) : String x a +:+ b = String x (a +:+ b).
Proof. reflexivity. Qed.

Lemma append_assoc (a b c : string) : (a +:+ b) +:+ c = a +:+ (b +:+ c).
Proof.
  induction a as [| x a IH]; [reflexivity |].
  rewrite !append_cons, IH. reflexivity.
Qed.

Lemma append_empty_r (s : string) : s +:+ "" = s.
Proof.
  induction s as [| x s IH]; [reflexivity |].
  rewrite append_cons, IH. reflexivity.
Qed.

Lemma bind_ok_inv {A B} (m : M A) (f : A -> M B) (b : B) :
  fst (bind m f) = Ok b -> exists a, fst m = Ok a /\ fst (f a) = Ok b.
Proof.
  destruct m as [[a | e] t]; simpl; [| discriminate].
  destruct (f a) as [r t'] eqn:E. simpl. intros ->. exists a. rewrite E. split; reflexivity.
Qed.

Lemma try_catch_ok_inv {A} (m : M A) (h : JsError -> M A) (a : A) :
  fst (try_catch m h) = Ok a ->
  fst m = Ok a \/ exists e, fst m = Throw e /\ fst (h e) = Ok a.
Proof.
  destruct m as [[a' | e] t]; simpl.
  - intros H. left. exact H.
  - destruct (h e) as [r t'] eqn:E. simpl. intros ->. right. exists e.
    rewrite E. split; reflexivity.
Qed.

Section OrchestratorFacts.
Variable rt : Runtime.
Variable w : World.

(** For a target that can be printed, the outer [try]/[catch] turns
    everything into a record. *)
Lemma processSingleFigure_returns (target : json) (paperUrl : string) :
  printable rt target = true ->
  exists res, fst (processSingleFigure rt w target paperUrl) = Ok res.
Proof.
  intros Hp. apply printable_true in Hp as [name Hname].
  unfold processSingleFigure. apply try_catch_returns.
  intros e. rewrite (to_string_printed _ _ _ Hname). eexists. reflexivity.
Qed.

(** A target that cannot be printed is no string: the locator or the
    rasteriser throws on it, and so does the [catch] block (line 484).  The
    branch is rejected. *)
Lemma processSingleFigure_rejects (target : json) (paperUrl : string) :
  printable rt target = false ->
  processSingleFigure rt w target paperUrl = (Throw TypeError, []).
Proof.
  intros Hp. apply printable_false in Hp.
  unfold processSingleFigure, findPageForQuery, renderPageAsImage.
  rewrite (to_string_throws _ _ Hp).
  destruct (pdfjsLib w); simpl negb; cbv iota.
  - destruct target; try reflexivity. discriminate Hp.
  - reflexivity.
Qed.

Lemma processSingleFigure_label (target : json) (paperUrl : string) (res : FigureResult) :
  fst (processSingleFigure rt w target paperUrl) = Ok res -> label res = target.
Proof.
  unfold processSingleFigure. intros H.
  apply try_catch_ok_inv in H as [H | (e & _ & H)].
  - apply bind_ok_inv in H as (pageNum & _ & H).
    apply bind_ok_inv in H as (page & _ & H).
    apply bind_ok_inv in H as (cropped & _ & H).
    apply bind_ok_inv in H as (final & _ & H).
    injection H as <-. reflexivity.
  - apply bind_ok_inv in H as (name & _ & H).
    apply bind_ok_inv in H as (u & _ & H).
    injection H as <-. reflexivity.
Qed.

Lemma processSingleFigure_figure_result (target : json) (paperUrl : string) :
  printable rt target = true ->
  fst (processSingleFigure rt w target paperUrl) = Ok (figure_result rt w paperUrl target).
Proof.
  intros Hp. unfold figure_result.
  destruct (processSingleFigure_returns target paperUrl Hp) as [res ->]. reflexivity.
Qed.

Lemma figure_result_label (target : json) (paperUrl : string) :
  label (figure_result rt w paperUrl target) = target.
Proof.
  unfold figure_result.
  destruct (fst (processSingleFigure rt w target paperUrl)) as [res | e] eqn:E.
  - eapply processSingleFigure_label. exact E.
  - reflexivity.
Qed.

Lemma branches_fulfilled (targets : list json) (paperUrl : string) :
  Forall (fun t => printable rt t = true) targets ->
  map fst (branches rt w targets paperUrl) = map Ok (map (figure_result rt w paperUrl) targets).
Proof.
  intros Hp. unfold branches. rewrite !map_map.
  induction Hp as [| t ts Ht _ IH]; [reflexivity |].
  simpl. rewrite IH, (processSingleFigure_figure_result t paperUrl Ht). reflexivity.
Qed.

(** The outcome of a branch: a record, or a TypeError. *)
Lemma branch_outcome (targets : list json) (paperUrl : string) (i : nat) (e : JsError) :
  map fst (branches rt w targets paperUrl) !! i = Some (Throw e) ->
  e = TypeError /\ exists t, targets !! i = Some t /\ printable rt t = false.
Proof.
  unfold branches. rewrite map_map, list_lookup_fmap.
  destruct (targets !! i) as [t |]; simpl; [| discriminate].
  intros [= H]. destruct (printable rt t) eqn:Hp.
  - destruct (processSingleFigure_returns t paperUrl Hp) as [res Hres]. congruence.
  - rewrite (processSingleFigure_rejects t paperUrl Hp) in H. simpl in H.
    injection H as <-. split; [reflexivity |]. exists t. split; [reflexivity | exact Hp].
Qed.

Lemma run_targets_in_order (targets : list json) (paperUrl : string) (order : list nat) :
  Forall (fun t => printable rt t = true) targets ->
  order ≡ₚ seq 0 (length targets) ->
  run_targets rt w targets paperUrl order
  = Some (Ok (map (figure_result rt w paperUrl) targets)).
Proof.
  intros Hp Hperm. unfold run_targets. rewrite branches_fulfilled by assumption.
  apply PromiseFacts.all_fulfilled. rewrite length_map. assumption.
Qed.

(** One target that cannot be printed rejects the join. *)
Lemma run_targets_rejected (targets : list json) (paperUrl : string) (order : list nat) :
  Exists (fun t => printable rt t = false) targets ->
  order ≡ₚ seq 0 (length targets) ->
  run_targets rt w targets paperUrl order = Some (Throw TypeError).
Proof.
  intros Hex Hperm. apply Exists_exists in Hex as (t & Hin & Hp).
  apply list_elem_of_lookup in Hin as [j Hj].
  unfold run_targets.
  apply (PromiseFacts.all_rejected _ _ _ j).
  - intros i e' Hi. apply branch_outcome in Hi as [-> _]. reflexivity.
  - unfold branches. rewrite !length_map. exact Hperm.
  - unfold branches. rewrite map_map, list_lookup_fmap, Hj. simpl.
    rewrite (processSingleFigure_rejects t paperUrl Hp). reflexivity.
Qed.


Lemma add_result_step (content : string) (flag : bool) (res : FigureResult) :
  printable rt (label res) = true ->
  add_result rt (content, flag) res
  = Some (content +:+ notice rt res, flag || succeeded res).
Proof.
  intros Hp. apply printable_true in Hp as [name Hname].
  unfold add_result, notice, succeeded, label_text. rewrite Hname. simpl default.
  destruct (truthy (imageUrl res)).
  - rewrite orb_true_r. reflexivity.
  - rewrite orb_false_r. reflexivity.
Qed.

Lemma add_results_printable (results : list FigureResult) (content : string) (flag : bool) :
  Forall (fun res => printable rt (label res) = true) results ->
  add_results rt results (content, flag)
  = Some (content +:+ notices rt results, flag || existsb succeeded results).
Proof.
  intros Hp. revert content flag.
  induction Hp as [| res rest Hres _ IH]; intros content flag.
  - simpl. rewrite append_empty_r, orb_false_r. reflexivity.
  - cbn [add_results notices existsb]. rewrite add_result_step by exact Hres.
    rewrite IH, append_assoc, orb_assoc. reflexivity.
Qed.

Lemma render_content_cases (results : list FigureResult) :
  Forall (fun res => printable rt (label res) = true) results ->
  render_content rt results = Some (rendered rt results).
Proof.
  intros Hp. unfold render_content, rendered.
  rewrite add_results_printable by exact Hp. simpl orb.
  destruct (existsb succeeded results); simpl negb; [| reflexivity].
  rewrite !append_assoc. reflexivity.
Qed.

Lemma results_printable (targets : list json) (paperUrl : string) :
  Forall (fun t => printable rt t = true) targets ->
  Forall (fun res => printable rt (label res) = true)
         (map (figure_result rt w paperUrl) targets).
Proof.
  intros Hp. apply Forall_map. eapply Forall_impl; [exact Hp |].
  intros t Ht. simpl. rewrite figure_result_label. exact Ht.
Qed.

Lemma visualizeFigure_message (query : string) (paper : Paper) (order : list nat)
      (targets : list json) :
  fst (extractFigureTargets rt w query) = Ok targets ->
  Forall (fun t => printable rt t = true) targets ->
  order ≡ₚ seq 0 (length targets) ->
  visualizeFigure rt w query (Some paper) order
  = Some (new_message w (rendered rt (map (figure_result rt w (url paper)) targets)) true,
          snd (extractFigureTargets rt w query)).
Proof.
  intros Ht Hp Hperm. unfold visualizeFigure.
  destruct (extractFigureTargets rt w query) as [r t]. simpl in Ht. subst r.
  rewrite run_targets_in_order by assumption.
  rewrite render_content_cases by (apply results_printable; exact Hp). reflexivity.
Qed.

Lemma visualizeFigure_critical (query : string) (paper : Paper) (order : list nat)
      (targets : list json) :
  fst (extractFigureTargets rt w query) = Ok targets ->
  Exists (fun t => printable rt t = false) targets ->
  order ≡ₚ seq 0 (length targets) ->
  visualizeFigure rt w query (Some paper) order
  = Some (new_message w critical_error false,
          snd (extractFigureTargets rt w query)
            ++ [console_error "Critical visualization error:"]).
Proof.
  intros Ht Hex Hperm. unfold visualizeFigure.
  destruct (extractFigureTargets rt w query) as [r t]. simpl in Ht. subst r.
  rewrite run_targets_rejected by assumption. reflexivity.
Qed.
End OrchestratorFacts.

Lemma truthy_false (s : string) : truthy s = false <-> s = "".
Proof. destruct s; simpl; split; congruence. Qed.

Lemma no_success_iff (results : list FigureResult) :
  existsb succeeded results = false <-> Forall (fun res => imageUrl res = "") results.
Proof.
  induction results as [| res rest IH]; simpl.
  - split; [constructor | reflexivity].
  - rewrite orb_false_iff, IH, Forall_cons. unfold succeeded.
    rewrite truthy_false. reflexivity.
Qed.

Lemma rendered_none_processed (rt : Runtime) (results : list FigureResult) :
  rendered rt results = none_processed
  <-> Forall (fun res => imageUrl res = "") results.
Proof.
  unfold rendered. rewrite <- no_success_iff.
  destruct (existsb succeeded results); [| tauto].
  split; [| discriminate].
  rewrite !append_cons. unfold none_processed. discriminate.
Qed.

(** C2.  Whatever the order in which the branches settle, the results of
    [visualizeFigure] are in the order of the extracted targets: the
    result at position [i] is the record that the branch of the target at
    position [i] is fulfilled with, and the message is built from the
    results in that order.  There is a list of results when every target
    can be printed, as every string can; a target that cannot makes its
    branch reject, and then there is no list at all, in any order. *)
Theorem visualizeFigure_keeps_target_order
        (rt : Runtime) (w : World) (query : string) (paper : Paper)
        (order : list nat) (targets : list json) :
  fst (extractFigureTargets rt w query) = Ok targets ->
  order ≡ₚ seq 0 (length targets) ->
  (Forall (fun t => printable rt t = true) targets ->
   exists results,
     run_targets rt w targets (url paper) order = Some (Ok results)
     /\ Forall2 (fulfilled rt w (url paper)) targets results
     /\ render_content rt results = Some (rendered rt results)
     /\ exists trace,
         visualizeFigure rt w query (Some paper) order
         = Some (new_message w (rendered rt results) true, trace))
  /\ (Exists (fun t => printable rt t = false) targets ->
      run_targets rt w targets (url paper) order = Some (Throw TypeError)
      /\ exists trace,
          visualizeFigure rt w query (Some paper) order
          = Some (new_message w critical_error false, trace)).
Proof.
  intros Ht Hperm. split.
  - intros Hp. exists (map (figure_result rt w (url paper)) targets).
    split; [apply run_targets_in_order; assumption |].
    split.
    { apply Forall2_fmap_r. apply Forall_Forall2_diag.
      eapply Forall_impl; [exact Hp |]. intros t Hpt.
      apply processSingleFigure_figure_result. exact Hpt. }
    split; [apply render_content_cases; apply results_printable; exact Hp |].
    eexists. apply visualizeFigure_message; assumption.
  - intros Hex. split; [apply run_targets_rejected; assumption |].
    eexists. eapply visualizeFigure_critical; eassumption.
Qed.

(** C6.  When every target of a request failed (every branch is fulfilled
    with a record that has an empty image), the message of
    [visualizeFigure] is the single line [none_processed], not a list of
    notices; and the message is that line only then, so the outcome
    differs from every outcome in which a target succeeded. *)
Theorem visualizeFigure_all_failed
        (rt : Runtime) (w : World) (query : string) (paper : Paper)
        (order : list nat) (targets : list json) (results : list FigureResult) :
  fst (extractFigureTargets rt w query) = Ok targets ->
  order ≡ₚ seq 0 (length targets) ->
  Forall2 (fulfilled rt w (url paper)) targets results ->
  exists content trace,
    visualizeFigure rt w query (Some paper) order
    = Some (new_message w content true, trace)
    /\ (Forall (fun res => imageUrl res = "") results -> content = none_processed)
    /\ (Exists (fun res => imageUrl res <> "") results -> content <> none_processed).
Proof.
  intros Ht Hperm Hful.
  assert (Hp : Forall (fun t => printable rt t = true) targets).
  { clear Ht Hperm. induction Hful as [| t res ts rs Hres _ IH]; constructor; [| exact IH].
    destruct (printable rt t) eqn:Hpt; [reflexivity |].
    unfold fulfilled in Hres.
    rewrite (processSingleFigure_rejects rt w t (url paper) Hpt) in Hres. discriminate Hres. }
  assert (Hres : results = map (figure_result rt w (url paper)) targets).
  { clear Ht Hperm Hp. induction Hful as [| t res ts rs Hres _ IH]; [reflexivity |].
    simpl. rewrite <- IH. unfold figure_result. unfold fulfilled in Hres. rewrite Hres.
    reflexivity. }
  subst results. do 2 eexists.
  split; [apply visualizeFigure_message; eassumption |].
  rewrite rendered_none_processed.
  split; [tauto |].
  intros Hex Hall. apply Exists_exists in Hex as (res & Hin & Hne).
  rewrite Forall_forall in Hall. apply Hne, Hall, Hin.
Qed.

Lemma visualizeFigure_keeps_target_order_witness :
  (Forall (fun t => printable Sample.rt0 t = true) OrchestratorSample.three_targets ->
   exists results,
     run_targets Sample.rt0 OrchestratorSample.w_pages OrchestratorSample.three_targets
       "blob:paper" [2; 0; 1]%nat = Some (Ok results)
     /\ Forall2 (fulfilled Sample.rt0 OrchestratorSample.w_pages "blob:paper")
          OrchestratorSample.three_targets results
     /\ render_content Sample.rt0 results = Some (rendered Sample.rt0 results)
     /\ exists trace,
         visualizeFigure Sample.rt0 OrchestratorSample.w_pages
           "show figure 1, table 2 and figure 3"
           (Some OrchestratorSample.paper) [2; 0; 1]%nat
         = Some (new_message OrchestratorSample.w_pages (rendered Sample.rt0 results) true,
                 trace))
  /\ (Exists (fun t => printable Sample.rt0 t = false) OrchestratorSample.three_targets ->
      run_targets Sample.rt0 OrchestratorSample.w_pages OrchestratorSample.three_targets
        "blob:paper" [2; 0; 1]%nat = Some (Throw TypeError)
      /\ exists trace,
          visualizeFigure Sample.rt0 OrchestratorSample.w_pages
            "show figure 1, table 2 and figure 3"
            (Some OrchestratorSample.paper) [2; 0; 1]%nat
          = Some (new_message OrchestratorSample.w_pages critical_error false, trace)).
Proof.
  apply (visualizeFigure_keeps_target_order Sample.rt0 OrchestratorSample.w_pages
           "show figure 1, table 2 and figure 3" OrchestratorSample.paper
           [2; 0; 1]%nat OrchestratorSample.three_targets).
  - vm_compute. reflexivity.
  - simpl. solve_Permutation.
Defined.

Lemma visualizeFigure_all_failed_witness :
  exists content trace,
    visualizeFigure Sample.rt0 OrchestratorSample.w_no_document "figure 1, table 2, figure 3"
      (Some OrchestratorSample.paper) [1; 2; 0]%nat
    = Some (new_message OrchestratorSample.w_no_document content true, trace)
    /\ (Forall (fun res => imageUrl res = "")
          (map failure_record OrchestratorSample.three_targets) ->
        content = none_processed)
    /\ (Exists (fun res => imageUrl res <> "")
          (map failure_record OrchestratorSample.three_targets) ->
        content <> none_processed).
Proof.
  apply (visualizeFigure_all_failed Sample.rt0 OrchestratorSample.w_no_document
           "figure 1, table 2, figure 3" OrchestratorSample.paper
           [1; 2; 0]%nat OrchestratorSample.three_targets
           (map failure_record OrchestratorSample.three_targets)).
  - vm_compute. reflexivity.
  - simpl. solve_Permutation.
  - repeat constructor.
Defined.

(** *** Traces *)

Lemma bind_fst_ok {A B} (m : M A) (a : A) (f : A -> M B) :
  fst m = Ok a -> bind m f = (fst (f a), snd m ++ snd (f a)).
Proof. destruct m as [r t]. simpl. intros ->. apply bind_ok. Qed.

Lemma bind_fst_throw {A B} (m : M A) (e : JsError) (f : A -> M B) :
  fst m = Throw e -> bind m f = (Throw e, snd m).
Proof. destruct m as [r t]. simpl. intros ->. reflexivity. Qed.

Section TraceInvariant.
Variable P : Event -> Prop.

Lemma trace_bind {A B} (m : M A) (f : A -> M B) :
  Forall P (snd m) -> (forall a, Forall P (snd (f a))) -> Forall P (snd (bind m f)).
Proof.
  intros Hm Hf. destruct m as [[a | e] t]; simpl in *; [| assumption].
  specialize (Hf a). destruct (f a) as [r t']. simpl in *.
  apply Forall_app. split; assumption.
Qed.

Lemma trace_try_catch {A} (m : M A) (h : JsError -> M A) :
  Forall P (snd m) -> (forall e, Forall P (snd (h e))) -> Forall P (snd (try_catch m h)).
Proof.
  intros Hm Hh. destruct m as [[a | e] t]; simpl in *; [assumption |].
  specialize (Hh e). destruct (h e) as [r t']. simpl in *.
  apply Forall_app. split; assumption.
Qed.

Lemma trace_await {A} (ev : Event) (what : string) (o : option A) :
  P ev -> Forall P (snd (await ev what o)).
Proof. intros Hev. destruct o; simpl; repeat constructor; assumption. Qed.

Lemma trace_emit (ev : Event) : P ev -> Forall P (snd (emit ev)).
Proof. intros Hev. simpl. repeat constructor. assumption. Qed.

Lemma trace_ret {A} (a : A) : Forall P (snd (ret a)).
Proof. constructor. Qed.

Lemma trace_throw {A} (e : JsError) : Forall P (snd (@throw A e)).
Proof. constructor. Qed.
End TraceInvariant.

Lemma quiet_not_enhancement (t : list Event) : Forall quiet t -> Forall not_enhancement t.
Proof.
  intros H. eapply Forall_impl; [exact H |].
  intros ev Hq other. destruct ev; simpl in *; try discriminate. contradiction.
Qed.

Lemma detector_not_crop (t : list Event) : Forall detector_event t -> Forall not_crop t.
Proof. intros H. eapply Forall_impl; [exact H |]. intros [] Hq; simpl in *; tauto. Qed.

Lemma detector_not_enhancement (t : list Event) :
  Forall detector_event t -> Forall not_enhancement t.
Proof.
  intros H. eapply Forall_impl; [exact H |].
  intros ev Hq other. destruct ev; simpl in *; try discriminate; try contradiction.
  intros [= ->]. discriminate Hq.
Qed.

Lemma quiet_not_crop (t : list Event) : Forall quiet t -> Forall not_crop t.
Proof. intros H. eapply Forall_impl; [exact H |]. intros [] Hq; simpl in *; tauto. Qed.

Lemma not_crop_elem (t : list Event) :
  Forall not_crop t -> forall img box, call_cropImage img box ∉ t.
Proof.
  intros H img box Hin. rewrite Forall_forall in H. exact (H _ Hin).
Qed.

Section LocatorTrace.
Variable w : World.

Lemma page_text_quiet (pdf : PdfDoc) (i : nat) : Forall quiet (snd (page_text pdf i)).
Proof.
  unfold page_text.
  apply trace_bind; [apply trace_await; exact I |]. intros page.
  apply trace_bind; [apply trace_await; exact I |]. intros items.
  apply trace_ret.
Qed.

Lemma scan_quiet (pdf : PdfDoc) (caption loose : Regex.regex)
      (todo i bestPage : nat) (foundStrict : bool) :
  Forall quiet (snd (scan pdf caption loose todo i bestPage foundStrict)).
Proof.
  revert i bestPage. induction todo as [| todo IH]; intros i bestPage; simpl.
  - constructor.
  - apply trace_bind; [apply page_text_quiet |]. intros text.
    destruct (Regex.test caption text); [apply trace_ret | apply IH].
Qed.

Lemma findPageForQuery_quiet (pdfUrl : string) (query : json) :
  Forall quiet (snd (findPageForQuery w pdfUrl query)).
Proof.
  unfold findPageForQuery.
  destruct (pdfjsLib w); simpl negb; cbv iota; [| apply trace_ret].
  destruct query; try apply trace_throw.
  destruct (Regex.exec identifier_pattern s); [| apply trace_ret].
  apply trace_bind.
  - apply trace_try_catch.
    + apply trace_bind; [apply trace_await; exact I |]. intros pdf.
      apply trace_bind; [apply scan_quiet |]. intros page. apply trace_ret.
    + intros e. apply trace_bind; [apply trace_emit; exact I |]. intros _.
      apply trace_ret.
  - intros [page |]; apply trace_ret.
Qed.

Lemma renderPageAsImage_quiet (rt : Runtime) (pdfUrl : string) (pageNum : nat) :
  Forall quiet (snd (renderPageAsImage rt w pdfUrl pageNum)).
Proof.
  unfold renderPageAsImage.
  destruct (pdfjsLib w); simpl negb; cbv iota; [| apply trace_throw].
  apply trace_bind; [apply trace_await; exact I |]. intros pdf.
  apply trace_bind; [apply trace_await; exact I |]. intros page.
  destruct (getContext2d w _ _); simpl negb; cbv iota; [| apply trace_throw].
  apply trace_bind; [apply trace_await; exact I |]. intros rendered.
  apply trace_ret.
Qed.
End LocatorTrace.

(** *** The region detector *)

(** A target on which the locator and the rasteriser both return is a
    string: on any other value the locator throws, unless pdf.js is
    missing, and then the rasteriser throws. *)
Lemma rasterised_target_is_string (rt : Runtime) (w : World) (target : json)
      (paperUrl : string) (pageNum : nat) (page : string) :
  fst (findPageForQuery w paperUrl target) = Ok pageNum ->
  fst (renderPageAsImage rt w paperUrl pageNum) = Ok page ->
  exists q, target = JStr q.
Proof.
  unfold findPageForQuery, renderPageAsImage.
  destruct (pdfjsLib w); simpl negb; cbv iota; [| discriminate].
  destruct target; try discriminate. intros _ _. eexists. reflexivity.
Qed.

Section DetectorFacts.
Variable rt : Runtime.
Variable w : World.

Ltac leaf := intros; simpl; repeat constructor.

Lemma detectAndCrop_no_box (target : json) (page name : string) :
  ToString rt target = Some name ->
  detected_box rt w target page = None ->
  fst (detectAndCrop rt w target page) = Ok page
  /\ Forall detector_event (snd (detectAndCrop rt w target page)).
Proof.
  intros Hname.
  unfold detected_box, detection_parsed, detectAndCrop, to_string, generate, await, parse.
  rewrite Hname, bind_ret_l.
  destruct (generateContent w (detection_request name page)) as [r |]; [| leaf].
  rewrite bind_ok. cbv beta.
  destruct (JSON_parse rt (strip_fences (or_default (text r) "{}"))) as [v |]; [| leaf].
  rewrite bind_ret_l.
  destruct v as [| b | q | s | elems | members]; try solve [leaf].
  unfold box_2d, get_prop.
  destruct (lookup_member "box_2d" members) as [bx |]; [| leaf].
  destruct bx as [| b | q | s | elems | ms]; try solve [leaf].
  destruct elems as [| y1 [| x1 [| y2 [| x2 [| extra rest]]]]]; try solve [leaf].
  discriminate.
Qed.

Lemma detectAndCrop_rejected (target : json) (page name : string) (box : list json) :
  ToString rt target = Some name ->
  detected_box rt w target page = Some box ->
  rejected rt box = true ->
  fst (detectAndCrop rt w target page) = Ok page
  /\ Forall detector_event (snd (detectAndCrop rt w target page)).
Proof.
  intros Hname.
  unfold detected_box, detection_parsed, detectAndCrop, to_string, generate, await, parse.
  rewrite Hname, bind_ret_l.
  destruct (generateContent w (detection_request name page)) as [r |]; [| discriminate].
  rewrite bind_ok. cbv beta.
  destruct (JSON_parse rt (strip_fences (or_default (text r) "{}"))) as [v |];
    [| discriminate].
  rewrite bind_ret_l.
  destruct v as [| b | q | s | elems | members]; try discriminate.
  unfold box_2d, get_prop.
  destruct (lookup_member "box_2d" members) as [bx |]; [| discriminate].
  destruct bx as [| b | q | s | elems | ms]; try discriminate.
  destruct elems as [| y1 [| x1 [| y2 [| x2 [| extra rest]]]]]; try discriminate.
  intros [= <-]. unfold rejected, numbers, to_number. cbn [mapM].
  rewrite bind_ret_l.
  destruct (ToNumber rt y1) as [n_y1 |], (ToNumber rt x1) as [n_x1 |],
           (ToNumber rt y2) as [n_y2 |], (ToNumber rt x2) as [n_x2 |];
    try solve [leaf].
  simpl. unfold fails_a_gate, degenerate, too_small, near_full_page,
    box_height, box_width, element. simpl lookup.
  intros Hrej.
  destruct (Num.le _ _ || Num.le _ _); [leaf |].
  destruct (Num.lt _ _); [leaf |].
  destruct (Num.gt _ _ && Num.gt _ _); [leaf |].
  discriminate Hrej.
Qed.
End DetectorFacts.

(** *** One target, end to end *)

Section PipelineFacts.
Variable rt : Runtime.
Variable w : World.

(** The enhancer's first event is its request, which carries the image it
    was given; it never crops. *)
Lemma enhance_trace (target : json) (img : string) :
  exists rest,
    snd (enhance rt w target img) = call_generateContent (enhancement_request img) :: rest
    /\ Forall quiet rest.
Proof.
  unfold enhance, generate, await, to_string.
  destruct (generateContent w (enhancement_request img)) as [r |].
  - rewrite bind_ok. destruct (first_candidate_parts r); simpl; eexists; split;
      try reflexivity; constructor.
  - destruct (ToString rt target); simpl; eexists; (split; [reflexivity |]);
      repeat constructor.
Qed.

Lemma enhance_not_crop (target : json) (img : string) :
  Forall not_crop (snd (enhance rt w target img)).
Proof.
  destruct (enhance_trace target img) as (rest & -> & Hq).
  constructor; [exact I | apply quiet_not_crop, Hq].
Qed.

(** When the locator, the rasteriser and the detector return, the record
    is a success whose image is the enhancer's output for what the
    detector returned, and the trace is the four traces in sequence. *)
Lemma processSingleFigure_success (target : json) (paperUrl : string)
      (pageNum : nat) (page cropped : string) :
  fst (findPageForQuery w paperUrl target) = Ok pageNum ->
  fst (renderPageAsImage rt w paperUrl pageNum) = Ok page ->
  fst (detectAndCrop rt w target page) = Ok cropped ->
  exists finalImageUrl,
    fst (enhance rt w target cropped) = Ok finalImageUrl
    /\ processSingleFigure rt w target paperUrl
       = (Ok {| imageUrl := finalImageUrl; label := target; error := None |},
          snd (findPageForQuery w paperUrl target)
            ++ snd (renderPageAsImage rt w paperUrl pageNum)
            ++ snd (detectAndCrop rt w target page)
            ++ snd (enhance rt w target cropped)).
Proof.
  intros Hloc Hras Hdet.
  destruct (rasterised_target_is_string rt w target paperUrl pageNum page Hloc Hras)
    as [q Hq].
  assert (Hp : printable rt target = true) by (rewrite Hq; reflexivity).
  destruct (enhance_returns rt w target cropped Hp) as [u Hu].
  exists u. split; [assumption |].
  unfold processSingleFigure.
  rewrite (bind_fst_ok _ pageNum _ Hloc).
  rewrite (bind_fst_ok _ page _ Hras).
  rewrite (bind_fst_ok _ cropped _ Hdet).
  rewrite (bind_fst_ok _ u _ Hu).
  simpl. rewrite app_nil_r. reflexivity.
Qed.
End PipelineFacts.

(** C3.  Let the locator and the rasteriser have produced the page image.
    If the detector's answer has no 4-element box (the call failed, the
    text did not parse, the value is [null], [box_2d] is missing, not an
    array or not of length 4), or its box is rejected: an element has no
    number, or the box fails a gate (height or width not positive; height
    below 20; height and width both above 950, each as the code computes
    it), then [cropImage] is not called anywhere in the processing of the
    target, and the enhancer is called on the page image itself; the
    record is the enhancer's output for the page image.  The sentinel
    [[0,0,0,0]] is rejected by the first gate, so it is treated as an
    absent box is. *)
Theorem rejected_box_keeps_full_page
        (rt : Runtime) (w : World) (target : json) (paperUrl : string)
        (pageNum : nat) (page : string) :
  fst (findPageForQuery w paperUrl target) = Ok pageNum ->
  fst (renderPageAsImage rt w paperUrl pageNum) = Ok page ->
  detected_box rt w target page = None
  \/ (exists box, detected_box rt w target page = Some box /\ rejected rt box = true) ->
  (forall img box, call_cropImage img box ∉ snd (processSingleFigure rt w target paperUrl))
  /\ (exists finalImageUrl before rest,
        fst (enhance rt w target page) = Ok finalImageUrl
        /\ processSingleFigure rt w target paperUrl
           = (Ok {| imageUrl := finalImageUrl; label := target; error := None |},
              before ++ call_generateContent (enhancement_request page) :: rest)
        /\ Forall not_enhancement (before ++ rest))
  /\ rejected rt sentinel = true
  /\ numbers rt sentinel = Some [0; 0; 0; 0]%float
  /\ degenerate [0; 0; 0; 0]%float = true.
Proof.
  intros Hloc Hras Hbox.
  destruct (rasterised_target_is_string rt w target paperUrl pageNum page Hloc Hras)
    as [q Hq].
  assert (Hname : ToString rt target = Some q) by (rewrite Hq; reflexivity).
  assert (fst (detectAndCrop rt w target page) = Ok page
          /\ Forall detector_event (snd (detectAndCrop rt w target page))) as [Hdet Hnc].
  { destruct Hbox as [Hnone | (box & Hsome & Hrej)].
    - eapply detectAndCrop_no_box; eassumption.
    - eapply detectAndCrop_rejected; eassumption. }
  destruct (processSingleFigure_success rt w target paperUrl pageNum page page
              Hloc Hras Hdet) as (u & Hu & Hrun).
  split; [| split; [| repeat split]].
  - apply not_crop_elem. rewrite Hrun. simpl snd.
    repeat (apply Forall_app; split).
    + apply quiet_not_crop, findPageForQuery_quiet.
    + apply quiet_not_crop, renderPageAsImage_quiet.
    + apply detector_not_crop. assumption.
    + apply enhance_not_crop.
  - destruct (enhance_trace rt w target page) as (rest & Htr & Hqt).
    exists u, (snd (findPageForQuery w paperUrl target)
                 ++ snd (renderPageAsImage rt w paperUrl pageNum)
                 ++ snd (detectAndCrop rt w target page)), rest.
    split; [assumption |]. split.
    + rewrite Hrun, Htr, <- !app_assoc. reflexivity.
    + repeat (apply Forall_app; split).
      * apply quiet_not_enhancement, findPageForQuery_quiet.
      * apply quiet_not_enhancement, renderPageAsImage_quiet.
      * apply detector_not_enhancement. assumption.
      * apply quiet_not_enhancement. assumption.
Qed.

Lemma rejected_box_keeps_full_page_witness :
  (forall img box,
      call_cropImage img box
      ∉ snd (processSingleFigure Sample.rt0 OrchestratorSample.w_pages
               (JStr "Figure 1") "blob:paper"))
  /\ (exists finalImageUrl before rest,
        fst (enhance Sample.rt0 OrchestratorSample.w_pages (JStr "Figure 1") "PAGE3")
        = Ok finalImageUrl
        /\ processSingleFigure Sample.rt0 OrchestratorSample.w_pages
             (JStr "Figure 1") "blob:paper"
           = (Ok {| imageUrl := finalImageUrl; label := JStr "Figure 1"; error := None |},
              before ++ call_generateContent (enhancement_request "PAGE3") :: rest)
        /\ Forall not_enhancement (before ++ rest))
  /\ rejected Sample.rt0 sentinel = true
  /\ numbers Sample.rt0 sentinel = Some [0; 0; 0; 0]%float
  /\ degenerate [0; 0; 0; 0]%float = true.
Proof.
  apply (rejected_box_keeps_full_page Sample.rt0 OrchestratorSample.w_pages
           (JStr "Figure 1") "blob:paper" 3 "PAGE3").
  - vm_compute. reflexivity.
  - vm_compute. reflexivity.
  - right. exists sentinel. split; vm_compute; reflexivity.
Defined.

(** *** The cropper *)

(** The multiplication of the language is commutative: [width * rX] is
    [rX * width]. *)
Lemma Num_mul_comm (a b : jsnum) : Num.mul a b = Num.mul b a.
Proof.
  unfold Num.mul. apply Prim2SF_inj. rewrite !FloatAxioms.mul_spec.
  destruct (Prim2SF a) as [sa | sa | | sa ma ea], (Prim2SF b) as [sb | sb | | sb mb eb];
    simpl; rewrite ?(xorb_comm sa sb); try reflexivity.
  unfold SF64mul, SFmul.
  rewrite (xorb_comm sb sa), (Pos.mul_comm mb ma), (Z.add_comm eb ea). reflexivity.
Qed.

Lemma cropImage_outcome (rt : Runtime) (w : World) (img : string) (box : list jsnum) :
  cropImage rt w img box
  = (Ok (fst (crop_outcome rt w img box)),
     call_cropImage img box :: snd (crop_outcome rt w img box)).
Proof.
  unfold cropImage, crop_outcome, src_of, emit. rewrite bind_ok.
  destruct (image_decode w ("data:image/jpeg;base64," +:+ img)) as [[iw ih] |];
    [| reflexivity].
  cbv zeta. unfold extracted, scaled_rect, normalized, box_width, box_height.
  cbn [rect_x rect_y rect_w rect_h].
  rewrite !(Num_mul_comm iw), !(Num_mul_comm ih).
  destruct (Num.le _ _ || Num.le _ _); [reflexivity |].
  destruct (getContext2d w _ _); reflexivity.
Qed.

(** C9.  [cropImage] always resolves.  It resolves with its input when the
    image does not decode, when the normalised width or height of the box
    is not positive, and when no drawing context is available; in every
    other case it draws, and resolves with, exactly the rectangle
    [scaled_rect]: [x = xMin/1000 * width], [y = yMin/1000 * height] and
    the width and the height scaled likewise.  The box is any array of
    numbers and every quantity is the double that the code computes. *)
Theorem cropImage_total (rt : Runtime) (w : World) (img : string) (box : list jsnum) :
  exists out,
    fst (cropImage rt w img box) = Ok out
    /\ (image_decode w (src_of img) = None -> out = img)
    /\ (forall width height,
          image_decode w (src_of img) = Some (width, height) ->
          let r := scaled_rect box width height in
          let available :=
            getContext2d w (canvas_dim rt (rect_w r)) (canvas_dim rt (rect_h r)) in
          (Num.le (normalized (box_width box)) 0%float = true
           \/ Num.le (normalized (box_height box)) 0%float = true -> out = img)
          /\ (available = false -> out = img)
          /\ (Num.le (normalized (box_width box)) 0%float = false ->
              Num.le (normalized (box_height box)) 0%float = false ->
              available = true ->
              out = extracted rt w img r
              /\ call_drawImage img (rect_x r) (rect_y r) (rect_w r) (rect_h r)
                   (canvas_dim rt (rect_w r)) (canvas_dim rt (rect_h r))
                 ∈ snd (cropImage rt w img box))).
Proof.
  rewrite cropImage_outcome. exists (fst (crop_outcome rt w img box)).
  split; [reflexivity |]. unfold crop_outcome.
  destruct (image_decode w (src_of img)) as [[iw ih] |].
  2: { split; [reflexivity |]. intros ? ? [=]. }
  split; [discriminate |]. intros ? ? [= <- <-]. cbv zeta.
  destruct (Num.le (normalized (box_width box)) 0%float);
    [simpl; repeat split; try reflexivity; discriminate |].
  destruct (Num.le (normalized (box_height box)) 0%float);
    [simpl; repeat split; try reflexivity; discriminate |].
  simpl orb. cbv iota.
  destruct (getContext2d w _ _).
  - split; [intros [|]; discriminate |]. split; [discriminate |].
    intros _ _ _. split; [reflexivity |].
    simpl snd. apply elem_of_cons. right. apply elem_of_cons. left. reflexivity.
  - split; [reflexivity |]. split; [reflexivity |]. discriminate.
Qed.

(** *** The page locator *)

Section LocatorFacts.
Variable w : World.

Lemma page_text_read (pdf : PdfDoc) (i : nat) (t : string) :
  page_string pdf i = Some t ->
  page_text pdf i = (Ok t, [call_getPage i; call_getTextContent i]).
Proof.
  unfold page_string, page_text, await.
  destruct (getPage pdf i) as [page |]; [| discriminate].
  rewrite bind_ok. cbv beta.
  destruct (page_items page) as [items |]; [| discriminate].
  intros [= <-]. reflexivity.
Qed.

Lemma page_text_fails (pdf : PdfDoc) (i : nat) :
  page_string pdf i = None -> exists e, fst (page_text pdf i) = Throw e.
Proof.
  unfold page_string, page_text, await.
  destruct (getPage pdf i) as [page |]; [| intros _; eexists; reflexivity].
  rewrite bind_ok. cbv beta.
  destruct (page_items page) as [items |]; [discriminate |].
  intros _. eexists. reflexivity.
Qed.

(** All pages readable: first strict page, else last loose page, else
    what [bestPage] was. *)
Lemma scan_readable (pdf : PdfDoc) (caption loose : Regex.regex) (todo i bestPage : nat) :
  (forall j, i <= j < i + todo -> is_Some (page_string pdf j)) ->
  fst (scan pdf caption loose todo i bestPage false)
  = Ok (match first_where (matches_on pdf caption) (seq i todo) with
        | Some j => j
        | None => default bestPage (last_where (matches_on pdf loose) (seq i todo))
        end).
Proof.
  revert i bestPage. induction todo as [| todo IH]; intros i bestPage Hread; [reflexivity |].
  destruct (Hread i ltac:(lia)) as [t Ht].
  assert (matches_on pdf caption i = Regex.test caption t) as Hc
    by (unfold matches_on; rewrite Ht; reflexivity).
  assert (matches_on pdf loose i = Regex.test loose t) as Hl
    by (unfold matches_on; rewrite Ht; reflexivity).
  cbn [scan seq first_where last_where]. rewrite Hc, Hl.
  rewrite (page_text_read pdf i t Ht), bind_ok. cbv beta.
  destruct (Regex.test caption t); [reflexivity |].
  cbn [fst]. rewrite IH by (intros j Hj; apply Hread; lia).
  destruct (first_where (matches_on pdf caption) (seq (S i) todo)); [reflexivity |].
  destruct (last_where (matches_on pdf loose) (seq (S i) todo)); [reflexivity |].
  simpl. destruct (Regex.test loose t); reflexivity.
Qed.

(** The scan returns at the first strict page; later pages are not read. *)
Lemma scan_hit (pdf : PdfDoc) (caption loose : Regex.regex) (todo i bestPage p : nat) :
  i <= p < i + todo ->
  (forall j, i <= j < p -> exists t, page_string pdf j = Some t /\ Regex.test caption t = false) ->
  matches_on pdf caption p = true ->
  fst (scan pdf caption loose todo i bestPage false) = Ok p.
Proof.
  revert i bestPage. induction todo as [| todo IH]; intros i bestPage Hp Hbefore Hhit; [lia |].
  cbn [scan]. destruct (decide (i = p)) as [-> | Hne].
  - unfold matches_on in Hhit. destruct (page_string pdf p) as [t |] eqn:Ht; [| discriminate].
    rewrite (page_text_read pdf p t Ht), bind_ok. cbv beta. rewrite Hhit. reflexivity.
  - destruct (Hbefore i ltac:(lia)) as (t & Ht & Hno).
    rewrite (page_text_read pdf i t Ht), bind_ok. cbv beta. rewrite Hno. cbn [fst].
    apply IH; [lia | intros j Hj; apply Hbefore; lia | assumption].
Qed.

(** The scan throws at the first page that cannot be read, whatever the
    candidate is by then. *)
Lemma scan_fails (pdf : PdfDoc) (caption loose : Regex.regex) (todo i bestPage k : nat) :
  i <= k < i + todo ->
  (forall j, i <= j < k -> exists t, page_string pdf j = Some t /\ Regex.test caption t = false) ->
  page_string pdf k = None ->
  exists e, fst (scan pdf caption loose todo i bestPage false) = Throw e.
Proof.
  revert i bestPage. induction todo as [| todo IH]; intros i bestPage Hk Hbefore Hfail; [lia |].
  cbn [scan]. destruct (decide (i = k)) as [-> | Hne].
  - destruct (page_text_fails pdf k Hfail) as [e He].
    exists e. rewrite (bind_fst_throw _ e _ He). reflexivity.
  - destruct (Hbefore i ltac:(lia)) as (t & Ht & Hno).
    rewrite (page_text_read pdf i t Ht), bind_ok. cbv beta. rewrite Hno. cbn [fst].
    apply IH; [lia | intros j Hj; apply Hbefore; lia | assumption].
Qed.

(** [findPageForQuery] on an identifier of the right shape and a document
    that opens: the scan's page, or 1 when the scan throws. *)
Lemma findPageForQuery_scans (pdfUrl q : string) (m : Regex.captures) (pdf : PdfDoc) :
  pdfjsLib w = true ->
  Regex.exec identifier_pattern q = Some m ->
  getDocument w pdfUrl = Some pdf ->
  fst (findPageForQuery w pdfUrl (JStr q))
  = Ok (match fst (scan pdf (captionPattern (label_of m) (number_of m))
                     (loosePattern (label_of m) (number_of m))
                     (Nat.min (numPages pdf) 30) 1 1 false) with
        | Ok page => page
        | Throw _ => 1%nat
        end).
Proof.
  intros Hlib Hm Hdoc. unfold findPageForQuery. rewrite Hlib, Hm, Hdoc.
  cbn [negb]. cbv zeta. fold (label_of m). fold (number_of m).
  unfold await. rewrite bind_ok. cbv beta.
  destruct (scan pdf _ _ _ 1 1 false) as [[page | e] t]; reflexivity.
Qed.

Lemma findPageForQuery_no_shape (pdfUrl q : string) :
  Regex.exec identifier_pattern q = None ->
  fst (findPageForQuery w pdfUrl (JStr q)) = Ok 1%nat.
Proof.
  intros Hm. unfold findPageForQuery. rewrite Hm.
  destruct (pdfjsLib w); reflexivity.
Qed.
End LocatorFacts.

(** C5, as the code has it.  Take an identifier of the shape
    (Figure|Fig.|Table) number, with pdf.js loaded and a document that
    opens; the scan covers pages 1 to min(pageCount, 30) in order.
    [findPageForQuery] returns the first page whose text matches the strict
    pattern, if the pages before it can be read, whatever loose matches
    come before it.  If every scanned page can be read and none matches
    the strict pattern, it returns the last scanned page matching the loose
    pattern, and page 1 if there is none.  An identifier that does not have
    the shape gives page 1. *)
Theorem findPageForQuery_first_strict_else_last_loose
        (w : World) (pdfUrl q : string) (m : Regex.captures) (pdf : PdfDoc) :
  pdfjsLib w = true ->
  Regex.exec identifier_pattern q = Some m ->
  getDocument w pdfUrl = Some pdf ->
  let caption := captionPattern (label_of m) (number_of m) in
  let loose := loosePattern (label_of m) (number_of m) in
  (forall p,
      (1 <= p <= Nat.min (numPages pdf) 30)%nat ->
      matches_on pdf caption p = true ->
      (forall j, (1 <= j < p)%nat ->
                 exists t, page_string pdf j = Some t /\ Regex.test caption t = false) ->
      fst (findPageForQuery w pdfUrl (JStr q)) = Ok p)
  /\ ((forall i, (1 <= i <= Nat.min (numPages pdf) 30)%nat -> is_Some (page_string pdf i)) ->
      fst (findPageForQuery w pdfUrl (JStr q)) = Ok (located pdf caption loose))
  /\ (forall q', Regex.exec identifier_pattern q' = None ->
                 fst (findPageForQuery w pdfUrl (JStr q')) = Ok 1%nat).
Proof.
  intros Hlib Hm Hdoc caption loose.
  split; [| split; [| apply findPageForQuery_no_shape]].
  - intros p Hp Hhit Hbefore.
    rewrite (findPageForQuery_scans w pdfUrl q m pdf Hlib Hm Hdoc).
    fold caption loose.
    rewrite (scan_hit pdf caption loose _ 1 1 p); [reflexivity | lia | assumption..].
  - intros Hread.
    rewrite (findPageForQuery_scans w pdfUrl q m pdf Hlib Hm Hdoc).
    rewrite scan_readable by (intros j Hj; apply Hread; lia).
    reflexivity.
Qed.

Lemma findPageForQuery_first_strict_else_last_loose_witness :
  fst (findPageForQuery OrchestratorSample.w_pages "blob:paper" (JStr "Figure 1")) = Ok 3%nat
  /\ fst (findPageForQuery OrchestratorSample.w_pages "blob:paper" (JStr "Figure 1"))
     = Ok (located
             (Sample.doc [Sample.page ["Introduction"] "PAGE1";
                          Sample.page ["as Figure 1 shows"] "PAGE2";
                          Sample.page ["Fig. 1: overview"] "PAGE3";
                          Sample.page ["Table 2. Results"] "PAGE4";
                          Sample.page ["Figure 3: ablation"] "PAGE5"])
             (captionPattern "figure" "1") (loosePattern "figure" "1")).
Proof.
  destruct (findPageForQuery_first_strict_else_last_loose OrchestratorSample.w_pages
              "blob:paper" "Figure 1"
              [(2%nat, ["1"%char]);
               (1%nat, ["F"%char; "i"%char; "g"%char; "u"%char; "r"%char; "e"%char])]
              (Sample.doc [Sample.page ["Introduction"] "PAGE1";
                           Sample.page ["as Figure 1 shows"] "PAGE2";
                           Sample.page ["Fig. 1: overview"] "PAGE3";
                           Sample.page ["Table 2. Results"] "PAGE4";
                           Sample.page ["Figure 3: ablation"] "PAGE5"])
              eq_refl eq_refl eq_refl) as (Hstrict & Hreadable & _).
  split.
  - apply Hstrict.
    + simpl. lia.
    + vm_compute. reflexivity.
    + intros j Hj. assert (j = 1 \/ j = 2)%nat as [-> | ->] by lia;
        eexists; split; vm_compute; reflexivity.
  - apply Hreadable. intros i Hi. simpl in Hi.
    assert (i = 1 \/ i = 2 \/ i = 3 \/ i = 4 \/ i = 5)%nat as Hcases by lia.
    destruct Hcases as [-> | [-> | [-> | [-> | ->]]]]; vm_compute; eauto.
Defined.

(** C5 as stated fails: with loose matches on pages 2 and 4 and no strict
    match, the specification's locator answers 2 (the first loose page)
    and the code answers 4. *)
Lemma findPageForQuery_not_first_loose :
  let pdf := LocatorSample.two_mentions in
  let caption := captionPattern "figure" "1" in
  let loose := loosePattern "figure" "1" in
  first_where (matches_on pdf caption) (scanned pdf) = None
  /\ first_where (matches_on pdf loose) (scanned pdf) = Some 2%nat
  /\ spec_locate pdf caption loose = 2%nat
  /\ fst (findPageForQuery (LocatorSample.over pdf) "blob:paper" (JStr "Figure 1")) = Ok 4%nat
  /\ fst (findPageForQuery (LocatorSample.over pdf) "blob:paper" (JStr "Figure 1"))
     <> Ok (spec_locate pdf caption loose).
Proof. vm_compute. repeat split; discriminate. Qed.

(** C7, as the code has it.  If the text of a scanned page cannot be
    extracted and no earlier page matched the strict pattern,
    [findPageForQuery] returns page 1, whether or not an earlier page had
    been recorded as a loose candidate. *)
Theorem findPageForQuery_error_gives_page_1
        (w : World) (pdfUrl q : string) (m : Regex.captures) (pdf : PdfDoc) (k : nat) :
  pdfjsLib w = true ->
  Regex.exec identifier_pattern q = Some m ->
  getDocument w pdfUrl = Some pdf ->
  (1 <= k <= Nat.min (numPages pdf) 30)%nat ->
  page_string pdf k = None ->
  (forall j, (1 <= j < k)%nat ->
             exists t, page_string pdf j = Some t
                       /\ Regex.test (captionPattern (label_of m) (number_of m)) t = false) ->
  fst (findPageForQuery w pdfUrl (JStr q)) = Ok 1%nat.
Proof.
  intros Hlib Hm Hdoc Hk Hfail Hbefore.
  rewrite (findPageForQuery_scans w pdfUrl q m pdf Hlib Hm Hdoc).
  destruct (scan_fails pdf (captionPattern (label_of m) (number_of m))
              (loosePattern (label_of m) (number_of m))
              (Nat.min (numPages pdf) 30) 1 1 k ltac:(lia) Hbefore Hfail) as [e ->].
  reflexivity.
Qed.

Lemma findPageForQuery_error_gives_page_1_witness :
  fst (findPageForQuery (LocatorSample.over LocatorSample.broken_page) "blob:paper"
         (JStr "Figure 2")) = Ok 1%nat.
Proof.
  apply (findPageForQuery_error_gives_page_1
           (LocatorSample.over LocatorSample.broken_page) "blob:paper" "Figure 2"
           [(2%nat, ["2"%char]);
            (1%nat, ["F"%char; "i"%char; "g"%char; "u"%char; "r"%char; "e"%char])]
           LocatorSample.broken_page 3).
  - reflexivity.
  - vm_compute. reflexivity.
  - reflexivity.
  - simpl. lia.
  - reflexivity.
  - intros j Hj. assert (j = 1 \/ j = 2)%nat as [-> | ->] by lia;
      eexists; split; vm_compute; reflexivity.
Defined.

(** C7 as stated fails: page 2 is recorded as the loose candidate, the
    text of page 3 cannot be extracted, and the code answers 1 where the
    specification's locator answers 2. *)
Lemma findPageForQuery_error_drops_candidate :
  let pdf := LocatorSample.broken_page in
  let caption := captionPattern "figure" "2" in
  let loose := loosePattern "figure" "2" in
  page_string pdf 3 = None
  /\ matches_on pdf loose 2 = true
  /\ matches_on pdf caption 1 = false /\ matches_on pdf caption 2 = false
  /\ spec_locate pdf caption loose = 2%nat
  /\ fst (findPageForQuery (LocatorSample.over pdf) "blob:paper" (JStr "Figure 2")) = Ok 1%nat
  /\ fst (findPageForQuery (LocatorSample.over pdf) "blob:paper" (JStr "Figure 2"))
     <> Ok (spec_locate pdf caption loose).
Proof. vm_compute. repeat split; discriminate. Qed.

(** *** The matcher on the locator's patterns *)

Module RegexFacts.
Import Regex.

Lemma list_ascii_app (a b : string) :
  list_ascii_of_string (a +:+ b) = list_ascii_of_string a ++ list_ascii_of_string b.
Proof.
  induction a as [| x a IH]; [reflexivity |].
  rewrite append_cons. simpl. rewrite IH. reflexivity.
Qed.

Lemma ci_refl (c : ascii) : ci c c = true.
Proof. unfold ci. apply Ascii.eqb_refl. Qed.

Lemma ci_match_refl (s : string) : ci_match s s = true.
Proof. induction s as [| c s IH]; simpl; [| rewrite ci_refl, IH]; reflexivity. Qed.

Lemma digit_not_space (c : ascii) : is_digit c = true -> is_space c = false.
Proof.
  unfold is_digit, is_space, Str.in_range, Str.code. intros H.
  apply andb_true_iff in H as [H1 H2].
  apply Nat.leb_le in H1, H2.
  repeat (apply orb_false_iff; split).
  - apply andb_false_iff. right. apply Nat.leb_gt. lia.
  - apply Nat.eqb_neq. lia.
  - apply Nat.eqb_neq. lia.
Qed.

Section Runs.
Context {R : Type}.
Implicit Types (k : list ascii -> captures -> option R) (c : captures).

(** A literal consumes a text that matches it. *)
Lemma run_lit_ci (pat text : string) (tail : list ascii) c k :
  ci_match pat text = true ->
  run (lit_ci pat) (list_ascii_of_string text ++ tail) c k = k tail c.
Proof.
  revert text. induction pat as [| p pat IH]; intros [| a text] H; try discriminate.
  - reflexivity.
  - simpl in H. apply andb_true_iff in H as [Ha Hrest].
    simpl. unfold ci in Ha. fold (ci p a). unfold ci. rewrite Ha. apply IH. assumption.
Qed.

Lemma star_stop (p : ascii -> bool) (s : list ascii) (k' : list ascii -> option R) :
  match s with [] => True | a :: _ => p a = false end ->
  star p s k' = k' s.
Proof. destruct s as [| a s]; simpl; [reflexivity |]. intros ->. reflexivity. Qed.

(** Greedy repetition takes a whole run when the continuation accepts the
    end of the text. *)
Lemma star_all (p : ascii -> bool) (s : list ascii) (k' : list ascii -> option R) (x : R) :
  forallb p s = true -> k' [] = Some x -> star p s k' = Some x.
Proof.
  intros Hall Hk. induction s as [| a s IH]; simpl; [assumption |].
  simpl in Hall. apply andb_true_iff in Hall as [-> Hrest].
  rewrite (IH Hrest). reflexivity.
Qed.
End Runs.

(** A match anywhere in the text is found. *)
Lemma exec_from_app (r : regex) (pre s : list ascii) :
  is_Some (run r s [] (fun _ c => Some c)) -> is_Some (exec_from r (pre ++ s)).
Proof.
  intros Hs. induction pre as [| a pre IH].
  - destruct s; simpl; destruct (run r _ [] _); auto; destruct Hs; discriminate.
  - simpl. destruct (run r (a :: pre ++ s) [] _); [eauto | assumption].
Qed.

Lemma is_Some_or_else {A} (o o' : option A) :
  is_Some o -> is_Some (match o with Some x => Some x | None => o' end).
Proof. intros [x ->]. eauto. Qed.

Lemma take_consumed {A} (a b : list A) : take (length (a ++ b) - length b) (a ++ b) = a.
Proof.
  rewrite length_app, Nat.add_sub. apply take_app_length.
Qed.

End RegexFacts.

Module PatternFacts.
Import Regex RegexFacts.

Lemma run_lit_ci_head_miss {R} (p a : ascii) (pat text : string) (tail : list ascii)
      (c : captures) (k : list ascii -> captures -> option R) :
  ci p a = false ->
  run (lit_ci (String p pat)) (list_ascii_of_string (String a text) ++ tail) c k = None.
Proof. intros H. simpl. rewrite H. reflexivity. Qed.

Lemma is_number_digits (N : string) :
  is_number N = true ->
  exists d ds, list_ascii_of_string N = d :: ds
               /\ is_digit d = true /\ forallb is_digit ds = true.
Proof.
  unfold is_number. destruct (list_ascii_of_string N) as [| d ds]; [discriminate |].
  simpl. intros H. apply andb_true_iff in H as [Hd Hds]. eauto.
Qed.

Lemma exec_from_here (r : regex) (s : list ascii) (c : captures) :
  run r s [] (fun _ c' => Some c') = Some c -> exec_from r s = Some c.
Proof. intros H. destruct s; simpl; rewrite H; reflexivity. Qed.

(** The identifier "Table N": group 1 is "Table", group 2 is N. *)
Lemma identifier_of_table (N : string) :
  is_number N = true ->
  exec identifier_pattern ("Table " +:+ N)
  = Some [(2%nat, list_ascii_of_string N); (1%nat, list_ascii_of_string "Table")].
Proof.
  intros HN. destruct (is_number_digits N HN) as (d & ds & HNl & Hd & Hds).
  unfold exec.
  change ("Table " +:+ N) with ("Table" +:+ (" " +:+ N)).
  rewrite list_ascii_app.
  change (list_ascii_of_string (" " +:+ N)) with (" "%char :: list_ascii_of_string N).
  rewrite HNl. apply exec_from_here.
  unfold identifier_pattern. cbn [run].
  rewrite (run_lit_ci_head_miss "F" "T" "igure" "able") by reflexivity.
  rewrite (run_lit_ci_head_miss "F" "T" "ig" "able") by reflexivity.
  rewrite (run_lit_ci "Table" "Table") by reflexivity.
  rewrite take_consumed.
  cbn [star]. change (is_space " "%char) with true. cbv iota.
  rewrite (digit_not_space d Hd), Hd.
  erewrite star_all; [reflexivity | assumption |].
  cbn [length]. rewrite Nat.sub_0_r.
  change (S (length ds)) with (length (d :: ds)). rewrite firstn_all. reflexivity.
Qed.

(** The strict pattern built for a table accepts a figure caption. *)
Lemma caption_accepts_fig (N pre post : string) :
  is_number N = true ->
  test (captionPattern "table" N) (pre +:+ "Fig. " +:+ N +:+ ":" +:+ post) = true.
Proof.
  intros HN. destruct (is_number_digits N HN) as (d & ds & HNl & Hd & Hds).
  unfold test, exec.
  change ("Fig. " +:+ N +:+ ":" +:+ post) with ("Fig" +:+ ". " +:+ N +:+ ":" +:+ post).
  rewrite !list_ascii_app.
  change (list_ascii_of_string ". ") with ["."%char; " "%char].
  change (list_ascii_of_string ":") with [":"%char].
  assert (H : is_Some (exec_from (captionPattern "table" N)
             (list_ascii_of_string pre ++ list_ascii_of_string "Fig"
                ++ ["."%char; " "%char] ++ list_ascii_of_string N ++ [":"%char]
                ++ list_ascii_of_string post))).
  { apply exec_from_app. unfold captionPattern. cbn [run].
    rewrite (run_lit_ci_head_miss "t" "F" "able" "ig") by reflexivity.
    rewrite (run_lit_ci "fig" "Fig") by reflexivity.
    unfold dot_opt. cbn [run app].
    change (one_of ["."%char] "."%char) with true. cbv iota.
    apply is_Some_or_else.
    cbn [star]. change (is_space " "%char) with true. cbv iota.
    apply is_Some_or_else.
    rewrite star_stop by (rewrite HNl; simpl; apply digit_not_space, Hd).
    rewrite (run_lit_ci N N) by apply ci_match_refl.
    change (one_of ["."%char; ":"%char] ":"%char) with true. cbv iota. eauto. }
  destruct H as [c ->]. reflexivity.
Qed.

(** So does the loose pattern. *)
Lemma loose_accepts_fig (N pre post : string) :
  is_number N = true ->
  test (loosePattern "table" N) (pre +:+ "Fig. " +:+ N +:+ post) = true.
Proof.
  intros HN. destruct (is_number_digits N HN) as (d & ds & HNl & Hd & Hds).
  unfold test, exec.
  change ("Fig. " +:+ N +:+ post) with ("Fig" +:+ ". " +:+ N +:+ post).
  rewrite !list_ascii_app.
  change (list_ascii_of_string ". ") with ["."%char; " "%char].
  assert (H : is_Some (exec_from (loosePattern "table" N)
             (list_ascii_of_string pre ++ list_ascii_of_string "Fig"
                ++ ["."%char; " "%char] ++ list_ascii_of_string N
                ++ list_ascii_of_string post))).
  { apply exec_from_app. unfold loosePattern. cbn [run].
    rewrite (run_lit_ci_head_miss "t" "F" "able" "ig") by reflexivity.
    rewrite (run_lit_ci "fig" "Fig") by reflexivity.
    unfold dot_opt. cbn [run app].
    change (one_of ["."%char] "."%char) with true. cbv iota.
    apply is_Some_or_else.
    cbn [star]. change (is_space " "%char) with true. cbv iota.
    apply is_Some_or_else.
    rewrite star_stop by (rewrite HNl; simpl; apply digit_not_space, Hd).
    rewrite (run_lit_ci N N) by apply ci_match_refl. eauto. }
  destruct H as [c ->]. reflexivity.
Qed.

End PatternFacts.

(** C10.  For a number N, the strict and the loose pattern that
    [findPageForQuery] builds for the identifier "Table N" both accept a
    text containing "Fig. N:"; and if the first scanned page whose text
    matches the strict pattern is a page containing "Fig. N:", that page is
    what [findPageForQuery] returns for "Table N", although it carries a
    figure caption. *)
Theorem table_identifier_matches_figure_caption (N : string) :
  Regex.is_number N = true ->
  (forall pre post,
      Regex.test (captionPattern "table" N) (pre +:+ "Fig. " +:+ N +:+ ":" +:+ post) = true
      /\ Regex.test (loosePattern "table" N) (pre +:+ "Fig. " +:+ N +:+ ":" +:+ post) = true)
  /\ (forall (w : World) (pdfUrl : string) (pdf : PdfDoc) (p : nat) (pre post : string),
        pdfjsLib w = true ->
        getDocument w pdfUrl = Some pdf ->
        (1 <= p <= Nat.min (numPages pdf) 30)%nat ->
        page_string pdf p = Some (pre +:+ "Fig. " +:+ N +:+ ":" +:+ post) ->
        (forall j, (1 <= j < p)%nat ->
                   exists t, page_string pdf j = Some t
                             /\ Regex.test (captionPattern "table" N) t = false) ->
        fst (findPageForQuery w pdfUrl (JStr ("Table " +:+ N))) = Ok p).
Proof.
  intros HN. split.
  - intros pre post. split.
    + apply PatternFacts.caption_accepts_fig. assumption.
    + apply PatternFacts.loose_accepts_fig. assumption.
  - intros w pdfUrl pdf p pre post Hlib Hdoc Hp Htext Hbefore.
    rewrite (findPageForQuery_scans w pdfUrl _ _ pdf Hlib
               (PatternFacts.identifier_of_table N HN) Hdoc).
    assert (label_of [(2%nat, list_ascii_of_string N);
                      (1%nat, list_ascii_of_string "Table")] = "table") as -> by reflexivity.
    assert (number_of [(2%nat, list_ascii_of_string N);
                       (1%nat, list_ascii_of_string "Table")] = N) as ->.
    { unfold number_of, group_text. simpl. apply string_of_list_ascii_of_string. }
    rewrite (scan_hit pdf _ _ _ 1 1 p); [reflexivity | lia | assumption |].
    unfold matches_on. rewrite Htext.
    apply PatternFacts.caption_accepts_fig. assumption.
Qed.

Lemma table_identifier_matches_figure_caption_witness :
  (forall pre post,
      Regex.test (captionPattern "table" "2") (pre +:+ "Fig. " +:+ "2" +:+ ":" +:+ post) = true
      /\ Regex.test (loosePattern "table" "2") (pre +:+ "Fig. " +:+ "2" +:+ ":" +:+ post) = true)
  /\ fst (findPageForQuery (LocatorSample.over LocatorSample.figure_caption) "blob:paper"
            (JStr ("Table " +:+ "2"))) = Ok 3%nat.
Proof.
  destruct (table_identifier_matches_figure_caption "2" eq_refl) as [Haccept Hpage].
  split; [exact Haccept |].
  apply (Hpage (LocatorSample.over LocatorSample.figure_caption) "blob:paper"
           LocatorSample.figure_caption 3%nat "" " overview of the method").
  - reflexivity.
  - reflexivity.
  - simpl. lia.
  - reflexivity.
  - intros j Hj. assert (j = 1 \/ j = 2)%nat as [-> | ->] by lia;
      eexists; split; vm_compute; reflexivity.
Defined.

(** *** Failures and isolation *)

Lemma use_part_truthy (acc : string) (p : Part) :
  truthy acc = true -> truthy (use_part acc p) = true.
Proof.
  intros Hacc. unfold use_part.
  destruct (inlineData p) as [blob |]; [| assumption].
  destruct (data blob) as [d |]; [| assumption].
  destruct (truthy d); [reflexivity | assumption].
Qed.

Lemma fold_use_part_truthy (ps : list Part) (init : string) :
  truthy init = true -> truthy (fold_left use_part ps init) = true.
Proof.
  revert init. induction ps as [| p ps IH]; intros init Hinit; [assumption |].
  simpl. apply IH, use_part_truthy, Hinit.
Qed.

Section FailureFacts.
Variable rt : Runtime.
Variable w : World.

(** The enhancer always hands back an image. *)
Lemma enhance_truthy (target : json) (cropped finalImageUrl : string) :
  fst (enhance rt w target cropped) = Ok finalImageUrl -> truthy finalImageUrl = true.
Proof.
  unfold enhance, generate, await, to_string.
  destruct (generateContent w (enhancement_request cropped)) as [r |].
  - rewrite bind_ok. destruct (first_candidate_parts r) as [ps |]; simpl.
    + intros [= <-]. apply fold_use_part_truthy. reflexivity.
    + intros [= <-]. reflexivity.
  - destruct (ToString rt target); simpl; [| discriminate]. intros [= <-]. reflexivity.
Qed.

(** The detector never throws to its caller when the warning of its
    [catch] block can be written. *)
Lemma detectAndCrop_returns (target : json) (page : string) :
  printable rt target = true ->
  exists cropped, fst (detectAndCrop rt w target page) = Ok cropped.
Proof.
  intros Hp. apply printable_true in Hp as [name Hname].
  unfold detectAndCrop. apply try_catch_returns.
  intros e. rewrite (to_string_printed _ _ _ Hname). eexists. reflexivity.
Qed.




Lemma fulfilled_figure_results (targets : list json) (paperUrl : string) :
  Forall (fun t => printable rt t = true) targets ->
  Forall2 (fulfilled rt w paperUrl) targets (map (figure_result rt w paperUrl) targets).
Proof.
  intros Hp. apply Forall2_fmap_r. apply Forall_Forall2_diag.
  eapply Forall_impl; [exact Hp |]. intros t Hpt.
  apply processSingleFigure_figure_result. exact Hpt.
Qed.
End FailureFacts.



(** *** Scenarios of the specification, evaluated *)

(** A loose match on page 2 and a strict match on page 5: page 5. *)
Example locator_precedence :
  fst (findPageForQuery
         (LocatorSample.over
            (Sample.doc [Sample.page ["Introduction"] "P1";
                         Sample.page ["see Figure 4"] "P2";
                         Sample.page ["Methods"] "P3";
                         Sample.page ["Results"] "P4";
                         Sample.page ["Figure 4."; "Accuracy"] "P5"]))
         "blob:paper" (JStr "figure 4"))
  = Ok 5%nat.
Proof. vm_compute. reflexivity. Qed.

(** A target that is not a string makes the locator throw, and the branch
    returns the failure record. *)
Example locator_throws_on_a_number :
  fst (findPageForQuery OrchestratorSample.w_pages "blob:paper" (Sample.num 1)) = Throw TypeError
  /\ fst (processSingleFigure Sample.rt0 OrchestratorSample.w_pages (Sample.num 1) "blob:paper")
     = Ok (failure_record (Sample.num 1)).
Proof. split; vm_compute; reflexivity. Qed.

(** The empty query with an answer that does not parse: the query itself. *)
Example extract_empty_query :
  fst (extractFigureTargets Sample.rt0
         (Sample.world None (Sample.client (Some (Sample.text_response "no json")) None None))
         "")
  = Ok [JStr ""].
Proof. vm_compute. reflexivity. Qed.

(** The box [[10, 10, 15, 900]] has height 5, below the threshold: the page
    image goes on unchanged and nothing is cropped. *)
Example sliver_box_is_rejected :
  let w := Sample.world None
             (Sample.client None
                (Some (Sample.text_response (Sample.box_text "10" "10" "15" "900"))) None) in
  too_small [10; 10; 15; 900]%float = true
  /\ detectAndCrop Sample.rt0 w (JStr "Figure 1") "PAGE"
     = (Ok "PAGE",
        [call_generateContent (detection_request "Figure 1" "PAGE");
         console_warn "Detected box too small for figure Figure 1, likely text label."]).
Proof. split; vm_compute; reflexivity. Qed.

(** An accepted box, wrapped in a code fence: the crop is the scaled
    rectangle of the 1224 x 1584 page image. *)
Example accepted_box_is_cropped :
  let w := Sample.world None
             (Sample.client None
                (Some (Sample.text_response
                         ("```json" +:+ nl +:+ Sample.box_text "100" "100" "600" "900"
                            +:+ nl +:+ "```")))
                None) in
  detectAndCrop Sample.rt0 w (JStr "Figure 1") "PAGE"
  = (Ok "crop-of-PAGE",
     [call_generateContent (detection_request "Figure 1" "PAGE");
      call_cropImage "PAGE" [100; 100; 600; 900]%float;
      call_drawImage "PAGE"
        (1224 * (100 / 1000))%float (1584 * (100 / 1000))%float
        (1224 * ((900 - 100) / 1000))%float (1584 * ((600 - 100) / 1000))%float
        979 792]).
Proof. vm_compute. reflexivity. Qed.

(** A box whose elements are strings is converted by the subtractions and
    cropped like a box of numbers. *)
Example box_of_strings_is_cropped :
  let rt := {| JSON_parse := fun _ => Some (JObj [("box_2d",
                                  JArr [JStr "100"; JStr "100"; JStr "600"; JStr "900"])]);
               NumberToString := fun _ => "0";
               StringToNumber := fun s => if String.eqb s "100" then 100%float
                                          else if String.eqb s "600" then 600%float
                                          else 900%float;
               canvas_dim := Sample.trunc |} in
  let w := Sample.world None (Sample.client None (Some (Sample.text_response "{}")) None) in
  rejected rt [JStr "100"; JStr "100"; JStr "600"; JStr "900"] = false
  /\ call_cropImage "PAGE" [100; 100; 600; 900]%float
     ∈ snd (detectAndCrop rt w (JStr "Figure 1") "PAGE").
Proof.
  split; [vm_compute; reflexivity |].
  vm_compute. repeat (first [apply list_elem_of_here | apply list_elem_of_further]).
Qed.

(** A box with an element that has no number: the subtraction throws, the
    [catch] block of the detector logs, and the page image goes on. *)
Example box_with_an_object_is_not_cropped :
  let box := [JNum 0; JNum 0; JObj [("toString", JNum 1)]; JNum 500]%float in
  let rt := {| JSON_parse := fun _ => Some (JObj [("box_2d", JArr box)]);
               NumberToString := fun _ => "0";
               StringToNumber := fun _ => NaN;
               canvas_dim := Sample.trunc |} in
  let w := Sample.world None (Sample.client None (Some (Sample.text_response "{}")) None) in
  numbers rt box = None
  /\ rejected rt box = true
  /\ detectAndCrop rt w (JStr "Figure 1") "PAGE"
     = (Ok "PAGE",
        [call_generateContent (detection_request "Figure 1" "PAGE");
         console_warn "Detection failed for Figure 1, using full page."]).
Proof. repeat split; vm_compute; reflexivity. Qed.

(** The gates see the rounded difference: 20.2 - 0.2 is 20 in doubles, which
    is not below 20, so the box is cropped. *)
Example rounded_height_passes_the_gate :
  let box := [2 / 10; 0; 202 / 10; 500]%float in
  box_height box = 20%float
  /\ fails_a_gate box = false.
Proof. split; vm_compute; reflexivity. Qed.

(** A width that underflows: the normalised width of [[0, 0, 500, 2^-1074]]
    is zero in doubles, and [cropImage] gives the image back undrawn. *)
Example underflowing_width_is_not_drawn :
  let box := [0; 0; 500; 0x1p-1074]%float in
  normalized (box_width box) = 0%float
  /\ cropImage Sample.rt0 OrchestratorSample.w_pages "PAGE" box
     = (Ok "PAGE", [call_cropImage "PAGE" box]).
Proof. split; vm_compute; reflexivity. Qed.

(** A target that cannot be printed: the extractor hands over
    [["Figure 1", {"toString": 1}, "Figure 3"]]; the branch of the object
    is rejected and the whole request is answered with the critical
    error, in every order of settlement. *)
Example unprintable_target_rejects_the_request :
  let targets := [JStr "Figure 1"; JObj [("toString", JNum 1%float)]; JStr "Figure 3"] in
  let rt := Sample.runtime [("[]", JArr targets)] in
  let w := Sample.world (Some ChatSample.five_pages)
             (Sample.client (Some (Sample.text_response "[]")) None None) in
  fst (extractFigureTargets rt w "figures") = Ok targets
  /\ processSingleFigure rt w (JObj [("toString", JNum 1%float)]) "blob:paper"
     = (Throw TypeError, [])
  /\ (forall order, order ≡ₚ [0; 1; 2]%nat ->
      exists trace,
        visualizeFigure rt w "figures" (Some OrchestratorSample.paper) order
        = Some (new_message w critical_error false, trace)).
Proof.
  split; [vm_compute; reflexivity |]. split; [vm_compute; reflexivity |].
  intros order Hperm. eexists.
  apply (visualizeFigure_critical _ _ "figures" OrchestratorSample.paper order
           [JStr "Figure 1"; JObj [("toString", JNum 1%float)]; JStr "Figure 3"]).
  - vm_compute. reflexivity.
  - right. left. reflexivity.
  - exact Hperm.
Qed.

(** ** Further properties of the service *)

(** *** The locator's page is a page of the document *)

Section LocatorRange.
Variable w : World.

Lemma scan_range (pdf : PdfDoc) (caption loose : Regex.regex)
      (todo i bestPage : nat) (foundStrict : bool) (p : nat) :
  fst (scan pdf caption loose todo i bestPage foundStrict) = Ok p ->
  p = bestPage \/ (i <= p < i + todo)%nat.
Proof.
  revert i bestPage. induction todo as [| todo IH]; intros i bestPage.
  - simpl. intros [= <-]. left. reflexivity.
  - cbn [scan]. destruct (page_text pdf i) as [[t | e] tr]; [| discriminate].
    rewrite bind_ok. cbv beta. cbn [fst].
    destruct (Regex.test caption t).
    + intros [= <-]. right. lia.
    + intros H. apply IH in H as [-> | H]; [| right; lia].
      destruct (negb foundStrict && Regex.test loose t); [right; lia | left; reflexivity].
Qed.

Lemma findPageForQuery_string_returns (pdfUrl q : string) :
  exists p, fst (findPageForQuery w pdfUrl (JStr q)) = Ok p
            /\ (p = 1%nat
                \/ exists pdf, getDocument w pdfUrl = Some pdf
                               /\ (1 <= p <= Nat.min (numPages pdf) 30)%nat).
Proof.
  unfold findPageForQuery.
  destruct (pdfjsLib w); cbn [negb]; [| exists 1%nat; split; [reflexivity | left; reflexivity]].
  destruct (Regex.exec identifier_pattern q) as [m |];
    [| exists 1%nat; split; [reflexivity | left; reflexivity]].
  cbv zeta. unfold await.
  destruct (getDocument w pdfUrl) as [pdf |];
    [| exists 1%nat; split; [reflexivity | left; reflexivity]].
  rewrite bind_ok. cbv beta.
  destruct (scan pdf _ _ _ 1 1 false) as [[p | e] t] eqn:E.
  - exists p. split; [reflexivity |].
    apply (f_equal fst) in E. simpl in E. apply scan_range in E as [-> | H].
    + left. reflexivity.
    + right. exists pdf. split; [reflexivity | lia].
  - exists 1%nat. split; [reflexivity | left; reflexivity].
Qed.

(** With pdf.js loaded, a target that is not a string makes the locator
    throw. *)
Lemma findPageForQuery_not_string (pdfUrl : string) (target : json) (p : nat) :
  pdfjsLib w = true ->
  fst (findPageForQuery w pdfUrl target) = Ok p ->
  exists q, target = JStr q.
Proof.
  intros Hlib. unfold findPageForQuery. rewrite Hlib. cbn [negb].
  destruct target; try discriminate. eauto.
Qed.
End LocatorRange.

(** X1.  For a string identifier [findPageForQuery] always returns, and
    the page it returns is page 1 or one of the scanned pages of the
    document, between 1 and min(pageCount, 30).  It talks to pdf.js and
    to the console only: no inference call, no crop. *)
Theorem findPageForQuery_page_in_range (w : World) (pdfUrl q : string) :
  exists p,
    fst (findPageForQuery w pdfUrl (JStr q)) = Ok p
    /\ (p = 1%nat
        \/ exists pdf, getDocument w pdfUrl = Some pdf
                       /\ (1 <= p <= Nat.min (numPages pdf) 30)%nat)
    /\ Forall quiet (snd (findPageForQuery w pdfUrl (JStr q))).
Proof.
  destruct (findPageForQuery_string_returns w pdfUrl q) as (p & Hp & Hrange).
  exists p. split; [exact Hp |]. split; [exact Hrange |].
  apply findPageForQuery_quiet.
Qed.

(** X2.  In a document with at least one page, whose pages 1 to pageCount
    all exist, the page the locator hands to the rasteriser exists: the
    rasteriser never fails at [getPage]. *)
Theorem rasteriser_gets_an_existing_page
        (rt : Runtime) (w : World) (pdfUrl : string) (pdf : PdfDoc)
        (target : json) (p : nat) :
  pdfjsLib w = true ->
  getDocument w pdfUrl = Some pdf ->
  (1 <= numPages pdf)%nat ->
  (forall i, (1 <= i <= numPages pdf)%nat -> is_Some (getPage pdf i)) ->
  fst (findPageForQuery w pdfUrl target) = Ok p ->
  is_Some (getPage pdf p)
  /\ fst (renderPageAsImage rt w pdfUrl p) <> Throw (Rejected "getPage").
Proof.
  intros Hlib Hdoc Hone Hpages Hloc.
  assert (is_Some (getPage pdf p)) as Hpage.
  { destruct (findPageForQuery_not_string w pdfUrl target p Hlib Hloc) as [q ->].
    destruct (findPageForQuery_string_returns w pdfUrl q) as (p' & Hp' & Hrange).
    rewrite Hloc in Hp'. injection Hp' as <-.
    destruct Hrange as [-> | (pdf' & Hdoc' & Hr)].
    - apply Hpages. lia.
    - rewrite Hdoc in Hdoc'. injection Hdoc' as <-. apply Hpages. lia. }
  split; [assumption |].
  destruct Hpage as [page Hpage].
  unfold renderPageAsImage, await. rewrite Hlib, Hdoc. cbn [negb].
  rewrite bind_ok. cbv beta. rewrite Hpage, bind_ok. cbv beta zeta.
  destruct (getContext2d w _ _); cbn [negb]; [| discriminate].
  destruct (page_render page); simpl; discriminate.
Qed.

(** *** What one target costs and what its record looks like *)

Lemma inference_calls_app (a b : list Event) :
  inference_calls (a ++ b) = (inference_calls a + inference_calls b)%nat.
Proof. induction a as [| ev a IH]; simpl; [| rewrite IH]; lia. Qed.

Lemma silent_no_calls (t : list Event) : Forall silent t -> inference_calls t = 0%nat.
Proof.
  induction 1 as [| ev t Hev _ IH]; [reflexivity |].
  simpl. unfold silent in Hev. rewrite Hev, IH. reflexivity.
Qed.

Lemma quiet_silent (t : list Event) : Forall quiet t -> Forall silent t.
Proof.
  intros H. eapply Forall_impl; [exact H |].
  intros ev Hq. destruct ev; simpl in *; try reflexivity; contradiction.
Qed.

(** A call followed by code that makes no call, inside a [try]: one call. *)
Lemma one_call_then_silence {A B} (req : Request) (what : string) (o : option A)
      (body : A -> M B) (h : JsError -> M B) :
  (forall a, Forall silent (snd (body a))) ->
  (forall e, Forall silent (snd (h e))) ->
  inference_calls
    (snd (try_catch (bind (await (call_generateContent req) what o) body) h)) = 1%nat.
Proof.
  intros Hbody Hh. destruct o as [a |]; simpl.
  - specialize (Hbody a). destruct (body a) as [[b | e] t]; simpl in *.
    + rewrite silent_no_calls by assumption. reflexivity.
    + specialize (Hh e). destruct (h e) as [r t']. simpl in *.
      rewrite inference_calls_app, !silent_no_calls by assumption. reflexivity.
  - specialize (Hh (Rejected what)). destruct (h (Rejected what)) as [r t']. simpl in *.
    rewrite silent_no_calls by assumption. reflexivity.
Qed.

Section CostFacts.
Variable rt : Runtime.
Variable w : World.

Lemma cropImage_silent (img : string) (box : list jsnum) :
  Forall silent (snd (cropImage rt w img box)).
Proof.
  rewrite cropImage_outcome. simpl snd. unfold crop_outcome.
  destruct (image_decode w (src_of img)) as [[iw ih] |]; [| repeat constructor].
  cbv zeta. destruct (_ || _); [repeat constructor |].
  destruct (getContext2d w _ _); repeat constructor.
Qed.

Lemma warn_then_page_silent (msg page : string) :
  Forall silent (snd (bind (emit (console_warn msg)) (fun _ => @ret string page))).
Proof. simpl. repeat constructor. Qed.

Lemma to_number_silent (v : json) : Forall silent (snd (to_number rt v)).
Proof. unfold to_number. destruct (ToNumber rt v); constructor. Qed.

Lemma detectAndCrop_one_call (target : json) (page : string) :
  printable rt target = true ->
  inference_calls (snd (detectAndCrop rt w target page)) = 1%nat.
Proof.
  intros Hp. apply printable_true in Hp as [name Hname].
  unfold detectAndCrop, generate, to_string. rewrite Hname, !bind_ret_l.
  apply one_call_then_silence.
  - intros r. cbv zeta.
    apply trace_bind.
    { unfold parse. destruct (JSON_parse rt _); constructor. }
    intros v. apply trace_bind.
    { unfold box_2d. destruct v; constructor. }
    intros [bx |]; [| apply trace_ret].
    destruct bx as [| b | q | s | elems | ms]; try apply trace_ret.
    destruct elems as [| y1 [| x1 [| y2 [| x2 [| extra rest]]]]]; try apply trace_ret.
    apply trace_bind; [apply to_number_silent |]. intros n_y2.
    apply trace_bind; [apply to_number_silent |]. intros n_y1.
    apply trace_bind; [apply to_number_silent |]. intros n_x2.
    apply trace_bind; [apply to_number_silent |]. intros n_x1.
    destruct (_ || _); [apply warn_then_page_silent |].
    destruct (Num.lt _ _); [apply warn_then_page_silent |].
    destruct (_ && _); [apply warn_then_page_silent |].
    apply cropImage_silent.
  - intros e. apply warn_then_page_silent.
Qed.

Lemma enhance_one_call (target : json) (img : string) :
  inference_calls (snd (enhance rt w target img)) = 1%nat.
Proof.
  destruct (enhance_trace rt w target img) as (rest & -> & Hq).
  simpl. rewrite silent_no_calls by (apply quiet_silent, Hq). reflexivity.
Qed.

(** The three ways through [processSingleFigure] for a target that can be
    printed. *)
Lemma processSingleFigure_cases (target : json) (paperUrl name : string) :
  ToString rt target = Some name ->
  (exists e,
      fst (findPageForQuery w paperUrl target) = Throw e
      /\ processSingleFigure rt w target paperUrl
         = (Ok (failure_record target),
            snd (findPageForQuery w paperUrl target)
              ++ [console_error ("Error processing " +:+ name)]))
  \/ (exists pageNum e,
      fst (findPageForQuery w paperUrl target) = Ok pageNum
      /\ fst (renderPageAsImage rt w paperUrl pageNum) = Throw e
      /\ processSingleFigure rt w target paperUrl
         = (Ok (failure_record target),
            (snd (findPageForQuery w paperUrl target)
               ++ snd (renderPageAsImage rt w paperUrl pageNum))
              ++ [console_error ("Error processing " +:+ name)]))
  \/ (exists pageNum page cropped finalImageUrl,
      fst (findPageForQuery w paperUrl target) = Ok pageNum
      /\ fst (renderPageAsImage rt w paperUrl pageNum) = Ok page
      /\ fst (detectAndCrop rt w target page) = Ok cropped
      /\ fst (enhance rt w target cropped) = Ok finalImageUrl
      /\ processSingleFigure rt w target paperUrl
         = (Ok {| imageUrl := finalImageUrl; label := target; error := None |},
            snd (findPageForQuery w paperUrl target)
              ++ snd (renderPageAsImage rt w paperUrl pageNum)
              ++ snd (detectAndCrop rt w target page)
              ++ snd (enhance rt w target cropped))).
Proof.
  intros Hname.
  assert (Hp : printable rt target = true) by (apply printable_true; eauto).
  destruct (fst (findPageForQuery w paperUrl target)) as [pageNum | e] eqn:Hloc.
  - destruct (fst (renderPageAsImage rt w paperUrl pageNum)) as [page | e] eqn:Hras.
    + right. right.
      destruct (detectAndCrop_returns rt w target page Hp) as [cropped Hdet].
      destruct (processSingleFigure_success rt w target paperUrl pageNum page cropped
                  Hloc Hras Hdet) as (u & Hu & Hrun).
      exists pageNum, page, cropped, u. auto.
    + right. left. exists pageNum, e. split; [reflexivity |]. split; [assumption |].
      unfold processSingleFigure, to_string. rewrite Hname.
      rewrite (bind_fst_ok _ pageNum _ Hloc), (bind_fst_throw _ e _ Hras). reflexivity.
  - left. exists e. split; [reflexivity |].
    unfold processSingleFigure, to_string. rewrite Hname.
    rewrite (bind_fst_throw _ e _ Hloc). reflexivity.
Qed.
End CostFacts.

(** X3.  A target that succeeds costs exactly two inference calls (the
    detection and the enhancement); a target that fails costs none: the
    failure happens before the first call. *)
Theorem target_costs_two_calls_or_none
        (rt : Runtime) (w : World) (target : json) (paperUrl : string) :
  let res := figure_result rt w paperUrl target in
  let calls := inference_calls (snd (processSingleFigure rt w target paperUrl)) in
  (imageUrl res = "" -> calls = 0%nat)
  /\ (imageUrl res <> "" -> calls = 2%nat).
Proof.
  cbv zeta. unfold figure_result.
  destruct (ToString rt target) as [name |] eqn:Hname.
  2: { apply printable_false in Hname.
       rewrite (processSingleFigure_rejects rt w target paperUrl Hname). simpl.
       split; [reflexivity | intros H; contradiction H; reflexivity]. }
  assert (Hp : printable rt target = true) by (apply printable_true; eauto).
  destruct (processSingleFigure_cases rt w target paperUrl name Hname)
    as [(e & Hloc & ->) | [(n & e & Hloc & Hras & ->) | (n & page & c & u & Hloc & Hras & Hdet & Hu & ->)]];
    simpl fst; simpl snd.
  - split; [| intros H; contradiction H; reflexivity]. intros _.
    rewrite inference_calls_app, silent_no_calls
      by (apply quiet_silent, findPageForQuery_quiet). reflexivity.
  - split; [| intros H; contradiction H; reflexivity]. intros _.
    rewrite !inference_calls_app.
    rewrite (silent_no_calls (snd (findPageForQuery _ _ _)))
      by (apply quiet_silent, findPageForQuery_quiet).
    rewrite (silent_no_calls (snd (renderPageAsImage _ _ _ _)))
      by (apply quiet_silent, renderPageAsImage_quiet).
    reflexivity.
  - split.
    + simpl. intros ->. apply enhance_truthy in Hu. discriminate Hu.
    + intros _. rewrite !inference_calls_app.
      rewrite (silent_no_calls (snd (findPageForQuery _ _ _)))
        by (apply quiet_silent, findPageForQuery_quiet).
      rewrite (silent_no_calls (snd (renderPageAsImage _ _ _ _)))
        by (apply quiet_silent, renderPageAsImage_quiet).
      rewrite detectAndCrop_one_call by exact Hp. rewrite enhance_one_call. reflexivity.
Qed.

Lemma startsWith_append (p s : string) : Str.startsWith p (p +:+ s) = true.
Proof.
  unfold Str.startsWith. induction p as [| a p IH]; [destruct s; reflexivity |].
  rewrite append_cons. simpl. destruct (ascii_dec a a); [assumption | congruence].
Qed.

Lemma use_part_data_url (acc : string) (p : Part) :
  Str.startsWith "data:" acc = true -> Str.startsWith "data:" (use_part acc p) = true.
Proof.
  intros Hacc. unfold use_part.
  destruct (inlineData p) as [blob |]; [| assumption].
  destruct (data blob) as [d |]; [| assumption].
  destruct (truthy d); [apply startsWith_append | assumption].
Qed.

Lemma fold_use_part_data_url (ps : list Part) (init : string) :
  Str.startsWith "data:" init = true ->
  Str.startsWith "data:" (fold_left use_part ps init) = true.
Proof.
  revert init. induction ps as [| p ps IH]; intros init Hinit; [assumption |].
  simpl. apply IH, use_part_data_url, Hinit.
Qed.

Lemma enhance_data_url (rt : Runtime) (w : World) (target : json) (cropped u : string) :
  fst (enhance rt w target cropped) = Ok u -> Str.startsWith "data:" u = true.
Proof.
  unfold enhance, generate, await, to_string.
  destruct (generateContent w (enhancement_request cropped)) as [r |].
  - rewrite bind_ok. destruct (first_candidate_parts r) as [ps |]; simpl.
    + intros [= <-]. apply fold_use_part_data_url.
      apply (startsWith_append "data:" ("image/jpeg;base64," +:+ cropped)).
    + intros [= <-]. apply (startsWith_append "data:" ("image/jpeg;base64," +:+ cropped)).
  - destruct (ToString rt target); simpl; [| discriminate].
    intros [= <-]. apply (startsWith_append "data:" ("image/jpeg;base64," +:+ cropped)).
Qed.

(** X4.  The branch of a target that can be printed, as every string can,
    is fulfilled with a record that carries the target as its label and is
    of one of two kinds: a failure, with an empty image and the error
    "Failed to process", or a success, with a data URL as image and no
    error.  The branch of a target that cannot be printed is rejected with
    a TypeError. *)
Theorem record_is_failure_or_data_url
        (rt : Runtime) (w : World) (target : json) (paperUrl : string) :
  (printable rt target = true ->
   exists res,
     fst (processSingleFigure rt w target paperUrl) = Ok res
     /\ label res = target
     /\ ((imageUrl res = "" /\ error res = Some "Failed to process")
         \/ (Str.startsWith "data:" (imageUrl res) = true /\ error res = None)))
  /\ (printable rt target = false ->
      fst (processSingleFigure rt w target paperUrl) = Throw TypeError).
Proof.
  split.
  - intros Hp. apply printable_true in Hp as [name Hname].
    destruct (processSingleFigure_cases rt w target paperUrl name Hname)
      as [(e & Hloc & ->) | [(n & e & Hloc & Hras & ->) | (n & page & c & u & Hloc & Hras & Hdet & Hu & ->)]];
      eexists; (split; [reflexivity |]); simpl; split; try reflexivity; auto.
    right. split; [| reflexivity]. eapply enhance_data_url. eassumption.
  - intros Hp. rewrite (processSingleFigure_rejects rt w target paperUrl Hp). reflexivity.
Qed.

(** *** A document that cannot be opened *)

Lemma renderPageAsImage_unopenable (rt : Runtime) (w : World) (pdfUrl : string) (n : nat) :
  pdfjsLib w = false \/ getDocument w pdfUrl = None ->
  exists e, fst (renderPageAsImage rt w pdfUrl n) = Throw e.
Proof.
  unfold renderPageAsImage, await. intros [Hlib | Hdoc].
  - rewrite Hlib. eexists. reflexivity.
  - destruct (pdfjsLib w); cbn [negb]; [| eexists; reflexivity].
    rewrite Hdoc. eexists. reflexivity.
Qed.

Lemma figure_result_unopenable (rt : Runtime) (w : World) (paperUrl : string) (target : json) :
  pdfjsLib w = false \/ getDocument w paperUrl = None ->
  figure_result rt w paperUrl target = failure_record target.
Proof.
  intros Hno. unfold figure_result.
  destruct (ToString rt target) as [name |] eqn:Hname.
  2: { apply printable_false in Hname.
       rewrite (processSingleFigure_rejects rt w target paperUrl Hname). reflexivity. }
  destruct (processSingleFigure_cases rt w target paperUrl name Hname)
    as [(e & Hloc & ->) | [(n & e & Hloc & Hras & ->) | (n & page & c & u & Hloc & Hras & Hdet & Hu & ->)]];
    try reflexivity.
  destruct (renderPageAsImage_unopenable rt w paperUrl n Hno) as [e He].
  rewrite He in Hras. discriminate Hras.
Qed.

(** X5.  When pdf.js is not loaded, or the document of the paper cannot
    be opened, every target that can be printed fails, and if all the
    targets can, [visualizeFigure] answers with the single line
    [none_processed], whatever the query. *)
Theorem unopenable_document_gives_none_processed
        (rt : Runtime) (w : World) (query : string) (paper : Paper)
        (order : list nat) (targets : list json) :
  pdfjsLib w = false \/ getDocument w (url paper) = None ->
  fst (extractFigureTargets rt w query) = Ok targets ->
  Forall (fun t => printable rt t = true) targets ->
  order ≡ₚ seq 0 (length targets) ->
  Forall2 (fulfilled rt w (url paper)) targets (map failure_record targets)
  /\ exists trace,
      visualizeFigure rt w query (Some paper) order
      = Some (new_message w none_processed true, trace).
Proof.
  intros Hno Ht Hp Hperm.
  assert (Hrec : map (figure_result rt w (url paper)) targets = map failure_record targets).
  { apply map_ext. intros t. apply figure_result_unopenable. exact Hno. }
  split.
  - rewrite <- Hrec. apply fulfilled_figure_results. exact Hp.
  - eexists.
    rewrite (visualizeFigure_message rt w query paper order targets Ht Hp Hperm).
    f_equal. f_equal. f_equal.
    apply rendered_none_processed. rewrite Forall_map.
    apply Forall_forall. intros t _.
    rewrite figure_result_unopenable by assumption. reflexivity.
Qed.

(** *** The catch block of visualizeFigure *)

Section JoinValues.
Context {A : Type}.



End JoinValues.



(** *** An accepted box *)

Section AcceptedBox.
Variable rt : Runtime.
Variable w : World.

Lemma detectAndCrop_accepted (target : json) (page : string) (box : list json) :
  detected_box rt w target page = Some box ->
  rejected rt box = false ->
  exists name ns,
    ToString rt target = Some name
    /\ numbers rt box = Some ns
    /\ fails_a_gate ns = false
    /\ detectAndCrop rt w target page
       = (fst (cropImage rt w page ns),
          call_generateContent (detection_request name page)
            :: snd (cropImage rt w page ns)).
Proof.
  unfold detected_box, detection_parsed, detectAndCrop, to_string, generate, await, parse.
  destruct (ToString rt target) as [name |]; [| discriminate].
  rewrite bind_ret_l.
  destruct (generateContent w (detection_request name page)) as [r |]; [| discriminate].
  rewrite bind_ok. cbv beta.
  destruct (JSON_parse rt (strip_fences (or_default (text r) "{}"))) as [v |];
    [| discriminate].
  rewrite bind_ret_l.
  destruct v as [| b | q | s | elems | members]; try discriminate.
  unfold box_2d, get_prop.
  destruct (lookup_member "box_2d" members) as [bx |]; [| discriminate].
  destruct bx as [| b | q | s | elems | ms]; try discriminate.
  destruct elems as [| y1 [| x1 [| y2 [| x2 [| extra rest]]]]]; try discriminate.
  intros [= <-]. unfold rejected, numbers, to_number. cbn [mapM].
  rewrite bind_ret_l.
  destruct (ToNumber rt y1) as [n_y1 |], (ToNumber rt x1) as [n_x1 |],
           (ToNumber rt y2) as [n_y2 |], (ToNumber rt x2) as [n_x2 |];
    try discriminate.
  simpl mbind. simpl mret. intros Hrej.
  exists name, [n_y1; n_x1; n_y2; n_x2].
  split; [reflexivity |]. split; [reflexivity |]. split; [exact Hrej |].
  apply orb_false_iff in Hrej as [Hrej Hfull].
  apply orb_false_iff in Hrej as [Hdeg Hsmall].
  assert (Hd : Num.le (Num.sub n_y2 n_y1) 0%float || Num.le (Num.sub n_x2 n_x1) 0%float
               = false) by exact Hdeg.
  assert (Hs : Num.lt (Num.sub n_y2 n_y1) 20%float = false) by exact Hsmall.
  assert (Hf : Num.gt (Num.sub n_y2 n_y1) 950%float && Num.gt (Num.sub n_x2 n_x1) 950%float
               = false) by exact Hfull.
  rewrite !bind_ret_l. cbv zeta. rewrite Hd, Hs, Hf.
  rewrite cropImage_outcome. reflexivity.
Qed.
End AcceptedBox.

(** X7.  A box whose four elements have numbers and that passes the three
    gates is handed to [cropImage] as these numbers, together with the
    page image, right after the detection call: the detector resolves
    with what [cropImage] resolves with, and its trace is the detection
    call followed by the trace of [cropImage], which starts with the
    call itself. *)
Theorem accepted_box_reaches_cropImage
        (rt : Runtime) (w : World) (target : json) (page : string) (box : list json) :
  detected_box rt w target page = Some box ->
  rejected rt box = false ->
  exists name ns drawn,
    ToString rt target = Some name
    /\ numbers rt box = Some ns
    /\ fails_a_gate ns = false
    /\ detectAndCrop rt w target page
       = (fst (cropImage rt w page ns),
          call_generateContent (detection_request name page)
            :: snd (cropImage rt w page ns))
    /\ snd (cropImage rt w page ns) = call_cropImage page ns :: drawn
    /\ Forall silent drawn.
Proof.
  intros Hbox Hrej.
  destruct (detectAndCrop_accepted rt w target page box Hbox Hrej)
    as (name & ns & Hname & Hns & Hgate & Hrun).
  exists name, ns, (snd (crop_outcome rt w page ns)).
  repeat (split; [assumption |]).
  split; [rewrite cropImage_outcome; reflexivity |].
  pose proof (cropImage_silent rt w page ns) as Hs.
  rewrite cropImage_outcome in Hs. simpl snd in Hs.
  apply Forall_cons in Hs as [_ Hs]. exact Hs.
Qed.

(** *** Code fences *)

Lemma remove_all_fuel_empty (fuel : nat) (pats : list string) :
  Forall (fun p => p <> "") pats -> Str.remove_all_fuel fuel pats "" = "".
Proof.
  intros Hp. destruct fuel; [reflexivity |]. simpl.
  assert (Str.first_drop pats "" = None) as ->; [| reflexivity].
  induction Hp as [| p ps Hne _ IH]; [reflexivity |].
  simpl. destruct p; [congruence | assumption].
Qed.

Lemma first_pass_no_match (a : ascii) (rest : string) :
  Ascii.eqb a "`" = false ->
  match rest with String "`" _ => False | _ => True end ->
  Str.first_drop ["```json" +:+ nl; nl +:+ "```"] (String a rest) = None.
Proof.
  intros Ha Hrest.
  change ("```json" +:+ nl) with (String "`" ("``json" +:+ nl)).
  change (nl +:+ "```") with (String (ascii_of_nat 10) "```").
  cbn [Str.first_drop Str.drop_prefix]. rewrite Ascii.eqb_sym, Ha.
  destruct (Ascii.eqb _ a); [| reflexivity].
  destruct rest as [| t rest]; [reflexivity |].
  destruct (Ascii.eqb "`" t) eqn:E; [| reflexivity].
  apply Ascii.eqb_eq in E. subst t. contradiction.
Qed.

Lemma second_pass_no_match (a : ascii) (rest : string) :
  Ascii.eqb a "`" = false -> Str.first_drop ["```"] (String a rest) = None.
Proof.
  intros Ha. cbn [Str.first_drop Str.drop_prefix]. rewrite Ascii.eqb_sym, Ha. reflexivity.
Qed.

(** A text without a backquote goes through each pass unchanged, whatever
    follows it, as long as that does not start with a backquote. *)
Lemma pass_skips (pats : list string) (x tail : string) (fuel : nat) :
  (forall a rest,
      Ascii.eqb a "`" = false ->
      match rest with String "`" _ => False | _ => True end ->
      Str.first_drop pats (String a rest) = None) ->
  lacks "`" x = true ->
  match tail with String "`" _ => False | _ => True end ->
  (String.length x <= fuel)%nat ->
  Str.remove_all_fuel fuel pats (x +:+ tail)
  = x +:+ Str.remove_all_fuel (fuel - String.length x) pats tail.
Proof.
  intros Hpats Hx Htail. revert fuel. induction x as [| a x IH]; intros fuel Hfuel.
  - simpl. rewrite Nat.sub_0_r. reflexivity.
  - simpl in Hx. apply andb_true_iff in Hx as [Ha Hx]. apply negb_true_iff in Ha.
    destruct fuel as [| fuel]; [simpl in Hfuel; lia |].
    change (String a x +:+ tail) with (String a (x +:+ tail)).
    cbn [Str.remove_all_fuel]. rewrite Hpats.
    + rewrite (IH Hx) by (simpl in Hfuel; lia). reflexivity.
    + assumption.
    + destruct x as [| b x]; [exact Htail |].
      change (String b x +:+ tail) with (String b (x +:+ tail)).
      simpl in Hx. apply andb_true_iff in Hx as [Hb _]. apply negb_true_iff in Hb.
      destruct b as [[] [] [] [] [] [] [] []]; try exact I. discriminate Hb.
Qed.

Lemma length_append (a b : string) :
  String.length (a +:+ b) = (String.length a + String.length b)%nat.
Proof.
  induction a as [| x a IH]; [reflexivity |].
  change (String x a +:+ b) with (String x (a +:+ b)). simpl. rewrite IH. reflexivity.
Qed.

Lemma strip_fences_plain (x : string) : lacks "`" x = true -> strip_fences x = x.
Proof.
  intros Hx. unfold strip_fences, Str.remove_all.
  assert (forall pats, (forall a rest,
      Ascii.eqb a "`" = false ->
      match rest with String "`" _ => False | _ => True end ->
      Str.first_drop pats (String a rest) = None) ->
      Forall (fun p => p <> "") pats ->
      Str.remove_all_fuel (S (String.length x)) pats x = x) as Hpass.
  { intros pats Hpats Hne.
    rewrite <- (append_empty_r x) at 2.
    rewrite (pass_skips pats x "" _ Hpats Hx I) by lia.
    rewrite remove_all_fuel_empty by assumption. apply append_empty_r. }
  rewrite (Hpass ["```json" +:+ nl; nl +:+ "```"]).
  - apply Hpass.
    + intros a rest Ha _. apply second_pass_no_match, Ha.
    + repeat constructor; discriminate.
  - apply first_pass_no_match.
  - repeat constructor; discriminate.
Qed.

Lemma strip_fences_fenced (x : string) : lacks "`" x = true -> strip_fences (fenced x) = x.
Proof.
  intros Hx.
  assert (Str.remove_all ["```json" +:+ nl; nl +:+ "```"] (fenced x) = x) as H1.
  { unfold Str.remove_all, fenced.
    change ("```json" +:+ nl +:+ x +:+ nl +:+ "```")
      with (("```json" +:+ nl) +:+ (x +:+ nl +:+ "```")).
    rewrite length_append. 
    set (body := x +:+ nl +:+ "```").
    change (S (String.length ("```json" +:+ nl) + String.length body))
      with (S (8 + String.length body)).
    assert (forall fuel, Str.remove_all_fuel (S fuel) ["```json" +:+ nl; nl +:+ "```"]
                           (("```json" +:+ nl) +:+ body)
                         = Str.remove_all_fuel fuel ["```json" +:+ nl; nl +:+ "```"] body)
      as Hhead by reflexivity.
    rewrite Hhead. unfold body.
    rewrite (pass_skips _ x (nl +:+ "```") _ first_pass_no_match Hx I)
      by (rewrite length_append; lia).
    rewrite length_append.
    replace (8 + (String.length x + String.length (nl +:+ "```")) - String.length x)%nat
      with 12%nat by (simpl; lia).
    change (Str.remove_all_fuel 12 ["```json" +:+ nl; nl +:+ "```"] (nl +:+ "```")) with "".
    apply append_empty_r. }
  unfold strip_fences. change (Str.remove_all ["```json" +:+ nl; nl +:+ "```"] (fenced x))
    with (Str.remove_all ["```json" +:+ nl; nl +:+ "```"] (fenced x)).
  rewrite H1.
  pose proof (strip_fences_plain x Hx) as H2. unfold strip_fences in H2.
  assert (Str.remove_all ["```json" +:+ nl; nl +:+ "```"] x = x) as H3.
  { unfold Str.remove_all. rewrite <- (append_empty_r x) at 2.
    rewrite (pass_skips _ x "" _ first_pass_no_match Hx I) by lia.
    rewrite remove_all_fuel_empty by (repeat constructor; discriminate).
    apply append_empty_r. }
  rewrite H3 in H2. exact H2.
Qed.

(** X8.  A detector answer wrapped in a json code fence is unwrapped
    exactly, and an answer without backquotes is left as it is: for a text
    [x] without backquotes, stripping the fences of [fenced x] and of [x]
    both give [x]. *)
Theorem fenced_answer_is_unwrapped (x : string) :
  lacks "`" x = true ->
  strip_fences (fenced x) = x /\ strip_fences x = x.
Proof.
  intros Hx. split; [apply strip_fences_fenced | apply strip_fences_plain]; assumption.
Qed.

Lemma fenced_answer_is_unwrapped_witness :
  strip_fences (fenced (Sample.box_text "100" "100" "600" "900"))
  = Sample.box_text "100" "100" "600" "900"
  /\ strip_fences (Sample.box_text "100" "100" "600" "900")
     = Sample.box_text "100" "100" "600" "900".
Proof.
  apply (fenced_answer_is_unwrapped (Sample.box_text "100" "100" "600" "900")).
  vm_compute. reflexivity.
Defined.

(** *** Data URLs *)

Lemma split_on_lacks (c : ascii) (s : string) :
  lacks c s = true -> Str.split_on c s = [s].
Proof.
  induction s as [| a s IH]; [reflexivity |].
  simpl. intros H. apply andb_true_iff in H as [Ha Hs]. apply negb_true_iff in Ha.
  rewrite Ha, (IH Hs). reflexivity.
Qed.

Lemma split_on_first (c : ascii) (a b : string) :
  lacks c a = true ->
  Str.split_on c (a +:+ String c b) = a :: Str.split_on c b.
Proof.
  induction a as [| x a IH]; intros H.
  - change ("" +:+ String c b) with (String c b). simpl.
    rewrite Ascii.eqb_refl. reflexivity.
  - simpl in H. apply andb_true_iff in H as [Hx Ha]. apply negb_true_iff in Hx.
    change (String x a +:+ String c b) with (String x (a +:+ String c b)).
    cbn [Str.split_on]. rewrite Hx, (IH Ha). reflexivity.
Qed.

(** The payload of a data URL comes back from [split(',')[1]]. *)
Lemma split_comma_1_payload (media payload : string) :
  lacks "," media = true -> lacks "," payload = true ->
  split_comma_1 (data_url (media, payload)) = payload.
Proof.
  intros Hm Hp. unfold split_comma_1, data_url. cbn [fst snd].
  change ("data:" +:+ media +:+ "," +:+ payload)
    with (("data:" +:+ media) +:+ String "," payload).
  rewrite split_on_first, (split_on_lacks _ _ Hp); [reflexivity |].
  change ("data:" +:+ media) with (String "d" (String "a" (String "t" (String "a" (String ":" media))))).
  simpl. exact Hm.
Qed.

(** X9.  When the rasteriser gets through (pdf.js loaded, the document
    opens, the page exists, a drawing context is there, the rendering
    resolves), what it returns is exactly the payload of the canvas's data
    URL, provided neither the media type nor the payload contains a comma
    (base64 has none). *)
Theorem renderPageAsImage_returns_the_payload
        (rt : Runtime) (w : World) (pdfUrl : string) (pageNum : nat)
        (pdf : PdfDoc) (page : PdfPage) (media payload : string) :
  pdfjsLib w = true ->
  getDocument w pdfUrl = Some pdf ->
  getPage pdf pageNum = Some page ->
  getContext2d w (canvas_dim rt (fst (page_viewport page)))
    (canvas_dim rt (snd (page_viewport page))) = true ->
  page_render page = Some (media, payload) ->
  lacks "," media = true ->
  lacks "," payload = true ->
  renderPageAsImage rt w pdfUrl pageNum
  = (Ok payload, [call_getDocument pdfUrl; call_getPage pageNum; call_render pageNum]).
Proof.
  intros Hlib Hdoc Hpage Hctx Hrender Hm Hp.
  unfold renderPageAsImage, await. rewrite Hlib, Hdoc. cbn [negb].
  rewrite bind_ok. cbv beta. rewrite Hpage, bind_ok. cbv beta zeta.
  rewrite Hctx. cbn [negb]. rewrite Hrender, bind_ok. cbv beta.
  rewrite split_comma_1_payload by assumption. reflexivity.
Qed.

Lemma renderPageAsImage_returns_the_payload_witness :
  renderPageAsImage Sample.rt0 OrchestratorSample.w_pages "blob:paper" 3
  = (Ok "PAGE3", [call_getDocument "blob:paper"; call_getPage 3; call_render 3]).
Proof.
  apply (renderPageAsImage_returns_the_payload Sample.rt0 OrchestratorSample.w_pages
           "blob:paper" 3
           (Sample.doc [Sample.page ["Introduction"] "PAGE1";
                        Sample.page ["as Figure 1 shows"] "PAGE2";
                        Sample.page ["Fig. 1: overview"] "PAGE3";
                        Sample.page ["Table 2. Results"] "PAGE4";
                        Sample.page ["Figure 3: ablation"] "PAGE5"])
           (Sample.page ["Fig. 1: overview"] "PAGE3")
           "image/jpeg;base64" "PAGE3");
    reflexivity.
Defined.

(** *** The crop rectangle *)

(** The rectangle is not clamped to the image: for a 1224 pixels wide
    image and the columns 63 to 1000 of the grid, the rounded offset and
    the rounded width add up to more than 1224. *)
Example rectangle_can_overshoot_the_image :
  let r := scaled_rect [0; 63; 1000; 1000]%float 1224%float 1584%float in
  PrimFloat.ltb 1224%float (PrimFloat.add (rect_x r) (rect_w r)) = true.
Proof. vm_compute. reflexivity. Qed.

(** *** The library functions *)

Lemma member_silent (key : string) (v : json) : Forall silent (snd (member key v)).
Proof. destruct v; constructor. Qed.

Lemma parse_silent (rt : Runtime) (s : string) : Forall silent (snd (parse rt s)).
Proof. unfold parse. destruct (JSON_parse rt s); constructor. Qed.

Lemma silent_bind {A B} (m : M A) (f : A -> M B) :
  Forall silent (snd m) -> (forall a, Forall silent (snd (f a))) ->
  Forall silent (snd (bind m f)).
Proof. apply trace_bind. Qed.

Lemma or_default_truthy (o : option string) (d : string) :
  truthy d = true -> truthy (or_default o d) = true.
Proof. intros Hd. destruct o as [[| a s] |]; simpl; auto. Qed.

Lemma truthy_nonempty (s : string) : s <> EmptyString -> truthy s = true.
Proof. destruct s; [congruence | reflexivity]. Qed.

Section LibraryFacts.
Variable rt : Runtime.
Variable w : World.

Lemma extractPaperMetadata_resolves (firstPageText originalFilename : string) :
  exists m, fst (extractPaperMetadata rt w firstPageText originalFilename) = Ok m
            /\ (truthy originalFilename = true -> truthy_value (meta_title m) = true).
Proof.
  unfold extractPaperMetadata, generate, await.
  destruct (generateContent w _) as [r |].
  2:{ eexists. split; [reflexivity | simpl; auto]. }
  rewrite bind_ok. cbv beta zeta. unfold parse.
  destruct (JSON_parse rt _) as [data |].
  2:{ eexists. split; [reflexivity | simpl; auto]. }
  unfold ret at 1. rewrite bind_ok. cbv beta.
  destruct data as [| b | q | s | elems | members];
    try (eexists; split; [reflexivity | simpl; auto]; fail).
  unfold member, get_prop, ret. rewrite !bind_ok. cbv beta.
  destruct (lookup_member "title" members) as [t |].
  - destruct (truthy_value t) eqn:Ht;
      destruct (lookup_member "authors" members) as [[] |];
      (eexists; split; [reflexivity | simpl; auto]).
  - destruct (lookup_member "authors" members) as [[] |];
      (eexists; split; [reflexivity | simpl; auto]).
Qed.

Lemma extractPaperMetadata_one_call (firstPageText originalFilename : string) :
  inference_calls (snd (extractPaperMetadata rt w firstPageText originalFilename)) = 1%nat.
Proof.
  unfold extractPaperMetadata, generate. apply one_call_then_silence.
  - intros r. cbv zeta. apply silent_bind; [apply parse_silent |].
    intros data. apply silent_bind; [apply member_silent |].
    intros t. apply silent_bind; [apply member_silent |].
    intros a. constructor.
  - intros e. repeat constructor.
Qed.
End LibraryFacts.

(** X11.  [extractPaperMetadata] never rejects: whatever the inference
    call does, it resolves with a record, after exactly one inference
    call, and for a non-empty file name the title of the record is
    truthy (the model's title, or the file name in its place). *)
Theorem extractPaperMetadata_always_titled
        (rt : Runtime) (w : World) (firstPageText originalFilename : string) :
  exists m,
    fst (extractPaperMetadata rt w firstPageText originalFilename) = Ok m
    /\ inference_calls (snd (extractPaperMetadata rt w firstPageText originalFilename)) = 1%nat
    /\ (originalFilename <> EmptyString -> truthy_value (meta_title m) = true).
Proof.
  destruct (extractPaperMetadata_resolves rt w firstPageText originalFilename) as (m & Hm & Ht).
  exists m. split; [exact Hm |]. split; [apply extractPaperMetadata_one_call |].
  intros Hf. apply Ht, truthy_nonempty, Hf.
Qed.

Lemma substring_head (k : nat) (a b : string) :
  (k <= String.length a)%nat ->
  String.substring 0 k (a +:+ b) = String.substring 0 k a.
Proof.
  revert k. induction a as [| x a IH]; intros k Hk.
  - simpl in Hk. assert (k = 0%nat) as -> by lia.
    change (EmptyString +:+ b) with b. destruct b; reflexivity.
  - change (String x a +:+ b) with (String x (a +:+ b)).
    destruct k as [| k]; [reflexivity |].
    simpl in Hk. simpl. rewrite IH by lia. reflexivity.
Qed.

Lemma Text_substring_head (n : nat) (a b : string) :
  (n <= String.length a)%nat ->
  Text.substring 0 n (a +:+ b) = Text.substring 0 n a.
Proof.
  intros Hn. unfold Text.substring. rewrite length_append.
  rewrite !Nat.min_0_l, !Nat.max_0_l, !Nat.sub_0_r.
  rewrite (Nat.min_l n (String.length a)) by exact Hn.
  rewrite (Nat.min_l n (String.length a + String.length b)) by lia.
  apply substring_head, Hn.
Qed.

(** X12.  Only the first 2000 characters of the page text reach the
    metadata request: whatever follows them changes neither the request
    nor the result. *)
Theorem extractPaperMetadata_reads_2000_characters
        (rt : Runtime) (w : World) (head rest originalFilename : string) :
  (2000 <= String.length head)%nat ->
  metadata_request (head +:+ rest) originalFilename = metadata_request head originalFilename
  /\ extractPaperMetadata rt w (head +:+ rest) originalFilename
     = extractPaperMetadata rt w head originalFilename.
Proof.
  intros Hlen.
  assert (E : metadata_request (head +:+ rest) originalFilename
              = metadata_request head originalFilename).
  { unfold metadata_request, metadata_prompt.
    rewrite (Text_substring_head 2000 head rest Hlen). reflexivity. }
  split; [exact E |]. unfold extractPaperMetadata. rewrite E. reflexivity.
Qed.

Section GraphFacts.
Variable rt : Runtime.
Variable w : World.

Lemma paperList_None (papers : list Paper) :
  paperList rt papers = None <-> Exists (fun p => printable rt (title p) = false) papers.
Proof.
  unfold paperList. induction papers as [| p papers IH].
  - simpl. split; [discriminate | intros H; inversion H].
  - rewrite Exists_cons. cbn [mapM].
    assert (E : printable rt (title p) = false <-> paper_line rt p = None).
    { unfold printable, paper_line. destruct (ToString rt (title p)); split; congruence. }
    rewrite E. destruct (paper_line rt p) as [line |]; simpl.
    + destruct (mapM (paper_line rt) papers) as [lines |]; simpl in *.
      * split; [discriminate |]. intros [H | H]; [discriminate H |].
        apply IH in H. discriminate H.
      * split; [| reflexivity]. intros _. right. apply IH. reflexivity.
    + split; [| reflexivity]. intros _. left. reflexivity.
Qed.

Lemma graph_request_None (papers : list Paper) :
  graph_request rt papers = None
  <-> Exists (fun p => printable rt (title p) = false) papers.
Proof.
  rewrite <- paperList_None. unfold graph_request.
  destruct (paperList rt papers); split; congruence.
Qed.

Lemma generateKnowledgeGraph_resolves (papers : list Paper) (req : Request) :
  graph_request rt papers = Some req ->
  exists v, fst (generateKnowledgeGraph rt w papers) = Ok v.
Proof.
  intros Hreq. unfold generateKnowledgeGraph.
  destruct (length papers =? 0)%nat; [eexists; reflexivity |]. rewrite Hreq.
  apply try_catch_returns. intros e. eexists. reflexivity.
Qed.

Lemma generateKnowledgeGraph_calls (papers : list Paper) (req : Request) :
  papers <> [] ->
  graph_request rt papers = Some req ->
  inference_calls (snd (generateKnowledgeGraph rt w papers)) = 1%nat.
Proof.
  intros Hne Hreq. unfold generateKnowledgeGraph.
  destruct papers as [| p papers]; [congruence |].
  cbn [length Nat.eqb]. rewrite Hreq. unfold generate. apply one_call_then_silence.
  - intros r. cbv zeta. apply silent_bind; [apply parse_silent |]. intros a. constructor.
  - intros e. repeat constructor.
Qed.
End GraphFacts.

(** X13.  On an empty corpus [generateKnowledgeGraph] returns the empty
    array without any inference call.  On any other corpus it resolves
    after exactly one inference call, unless the title of a paper cannot
    be printed: the list of the papers is written before the [try], so the
    function then rejects with a TypeError and makes no call. *)
Theorem generateKnowledgeGraph_rejects_only_on_a_title
        (rt : Runtime) (w : World) (papers : list Paper) :
  (papers = [] -> generateKnowledgeGraph rt w papers = (Ok (JArr []), []))
  /\ (papers <> [] ->
      Forall (fun p => printable rt (title p) = true) papers ->
      exists v req,
        graph_request rt papers = Some req
        /\ fst (generateKnowledgeGraph rt w papers) = Ok v
        /\ inference_calls (snd (generateKnowledgeGraph rt w papers)) = 1%nat)
  /\ (papers <> [] ->
      Exists (fun p => printable rt (title p) = false) papers ->
      generateKnowledgeGraph rt w papers = (Throw TypeError, [])).
Proof.
  split; [| split].
  - intros ->. reflexivity.
  - intros Hne Hp.
    destruct (graph_request rt papers) as [req |] eqn:Hreq.
    + destruct (generateKnowledgeGraph_resolves rt w papers req Hreq) as [v Hv].
      exists v, req. split; [reflexivity |]. split; [exact Hv |].
      eapply generateKnowledgeGraph_calls; eassumption.
    + apply graph_request_None in Hreq. apply Exists_exists in Hreq as (p & Hin & Hf).
      rewrite Forall_forall in Hp. rewrite (Hp p Hin) in Hf. discriminate Hf.
  - intros Hne Hex. apply graph_request_None in Hex.
    unfold generateKnowledgeGraph. destruct papers as [| p papers]; [congruence |].
    cbn [length Nat.eqb]. rewrite Hex. reflexivity.
Qed.

(** X14.  When the inference call rejects or its text is not valid JSON,
    a non-empty corpus is put into one cluster, General Collection, that
    lists the id of every paper, once each and in the order of the
    corpus. *)
Theorem generateKnowledgeGraph_fallback_holds_every_paper
        (rt : Runtime) (w : World) (papers : list Paper) (req : Request) :
  papers <> [] ->
  graph_request rt papers = Some req ->
  (generateContent w req = None
   \/ exists r, generateContent w req = Some r
                /\ JSON_parse rt (or_default (text r) "[]") = None) ->
  generateKnowledgeGraph rt w papers
  = (Ok (JArr [JObj [("topic", JStr "General Collection");
                     ("paperIds", JArr (map (fun p => JStr (paper_id p)) papers))]]),
     [call_generateContent req;
      console_error "Graph generation failed"]).
Proof.
  intros Hne Hreq Hfail. unfold generateKnowledgeGraph.
  destruct papers as [| p papers]; [congruence |]. cbn [length Nat.eqb].
  rewrite Hreq. unfold generate, await.
  destruct Hfail as [-> | (r & -> & Hparse)]; [reflexivity |].
  rewrite bind_ok. cbv beta zeta. unfold parse. rewrite Hparse. reflexivity.
Qed.

(** *** explainCitation *)


(** *** extractPdfText *)

(** X26.  [extractPdfText] never rejects and makes no inference call.  It
    returns the text of page 1 when pdf.js is loaded, the document opens
    and page 1 can be read, and the empty string in every other case. *)
Theorem extractPdfText_first_page_or_empty (w : World) (blobUrl : string) :
  exists text,
    fst (extractPdfText w blobUrl) = Ok text
    /\ inference_calls (snd (extractPdfText w blobUrl)) = 0%nat
    /\ text = match (if pdfjsLib w then getDocument w blobUrl else None) with
              | Some pdf => default EmptyString (page_string pdf 1)
              | None => EmptyString
              end.
Proof.
  unfold extractPdfText. destruct (pdfjsLib w); cbn [negb].
  2:{ exists EmptyString. repeat split. }
  unfold await. destruct (getDocument w blobUrl) as [pdf |].
  2:{ exists EmptyString. repeat split. }
  rewrite bind_ok. cbv beta.
  destruct (page_string pdf 1) as [t |] eqn:E.
  - rewrite (page_text_read pdf 1 t E). exists t. repeat split.
  - destruct (page_text_fails pdf 1 E) as [e He].
    pose proof (page_text_quiet pdf 1) as Hq. apply quiet_silent in Hq.
    destruct (page_text pdf 1) as [r t]. simpl in He. subst r.
    exists EmptyString. split; [reflexivity |]. split; [| reflexivity].
    simpl. rewrite inference_calls_app.
    rewrite (silent_no_calls t Hq). reflexivity.
Qed.

(** *** The author's profile *)

Lemma author_fences_no_match (a : ascii) (rest : string) :
  Ascii.eqb a "`" = false ->
  match rest with String "`" _ => False | _ => True end ->
  Str.first_drop ["```json" +:+ nl; "```json"; "```"] (String a rest) = None.
Proof.
  intros Ha _.
  change ("```json" +:+ nl) with (String "`" ("``json" +:+ nl)).
  cbn [Str.first_drop Str.drop_prefix]. rewrite Ascii.eqb_sym, Ha. reflexivity.
Qed.

Lemma author_fences_plain (x : string) :
  lacks "`" x = true -> Str.remove_all ["```json" +:+ nl; "```json"; "```"] x = x.
Proof.
  intros Hx. unfold Str.remove_all. rewrite <- (append_empty_r x) at 2.
  rewrite (pass_skips _ x "" _ author_fences_no_match Hx I) by lia.
  rewrite remove_all_fuel_empty by (repeat constructor; discriminate).
  apply append_empty_r.
Qed.

Lemma author_fences_fenced (x : string) :
  lacks "`" x = true ->
  Str.remove_all ["```json" +:+ nl; "```json"; "```"] (fenced x) = x +:+ nl.
Proof.
  intros Hx. unfold Str.remove_all, fenced.
  change ("```json" +:+ nl +:+ x +:+ nl +:+ "```")
    with (("```json" +:+ nl) +:+ (x +:+ nl +:+ "```")).
  rewrite length_append.
  set (body := x +:+ nl +:+ "```").
  change (S (String.length ("```json" +:+ nl) + String.length body))
    with (S (8 + String.length body)).
  assert (forall fuel, Str.remove_all_fuel (S fuel) ["```json" +:+ nl; "```json"; "```"]
                         (("```json" +:+ nl) +:+ body)
                       = Str.remove_all_fuel fuel ["```json" +:+ nl; "```json"; "```"] body)
    as Hhead by reflexivity.
  rewrite Hhead. unfold body.
  rewrite (pass_skips _ x (nl +:+ "```") _ author_fences_no_match Hx I)
    by (rewrite length_append; lia).
  rewrite length_append.
  replace (8 + (String.length x + String.length (nl +:+ "```")) - String.length x)%nat
    with 12%nat by (simpl; lia).
  reflexivity.
Qed.

Lemma lacks_append (c : ascii) (a b : string) :
  lacks c (a +:+ b) = lacks c a && lacks c b.
Proof.
  induction a as [| x a IH]; [reflexivity |].
  change (String x a +:+ b) with (String x (a +:+ b)). simpl. rewrite IH.
  apply andb_assoc.
Qed.

Lemma indexOf_first (c : ascii) (a b : string) :
  lacks c a = true -> Text.indexOf c (a +:+ String c b) = Some (String.length a).
Proof.
  induction a as [| x a IH]; intros H.
  - change (EmptyString +:+ String c b) with (String c b). simpl.
    rewrite Ascii.eqb_refl. reflexivity.
  - simpl in H. apply andb_true_iff in H as [Hx Ha]. apply negb_true_iff in Hx.
    change (String x a +:+ String c b) with (String x (a +:+ String c b)).
    cbn [Text.indexOf]. rewrite Hx, (IH Ha). reflexivity.
Qed.

Lemma lastIndexOf_lacks (c : ascii) (s : string) :
  lacks c s = true -> Text.lastIndexOf c s = None.
Proof.
  induction s as [| x s IH]; [reflexivity |].
  simpl. intros H. apply andb_true_iff in H as [Hx Hs]. apply negb_true_iff in Hx.
  rewrite (IH Hs), Hx. reflexivity.
Qed.

Lemma lastIndexOf_last (c : ascii) (a b : string) :
  lacks c b = true -> Text.lastIndexOf c (a +:+ String c b) = Some (String.length a).
Proof.
  intros Hb. induction a as [| x a IH].
  - change (EmptyString +:+ String c b) with (String c b). simpl.
    rewrite (lastIndexOf_lacks c b Hb), Ascii.eqb_refl. reflexivity.
  - change (String x a +:+ String c b) with (String x (a +:+ String c b)).
    cbn [Text.lastIndexOf]. rewrite IH. reflexivity.
Qed.

Lemma substring_skip (a s : string) (n : nat) :
  String.substring (String.length a) n (a +:+ s) = String.substring 0 n s.
Proof.
  induction a as [| x a IH]; [reflexivity |].
  change (String x a +:+ s) with (String x (a +:+ s)). simpl. exact IH.
Qed.

Lemma substring_whole (m c : string) :
  String.substring 0 (String.length m) (m +:+ c) = m.
Proof.
  induction m as [| x m IH].
  - change (EmptyString +:+ c) with c. destruct c; reflexivity.
  - change (String x m +:+ c) with (String x (m +:+ c)). simpl. rewrite IH. reflexivity.
Qed.

(** The middle of a text, by the indices of its ends. *)
Lemma Text_substring_middle (a m c : string) :
  Text.substring (String.length a) (String.length a + String.length m) (a +:+ m +:+ c) = m.
Proof.
  unfold Text.substring. rewrite !length_append.
  rewrite (Nat.min_l (String.length a)) by lia.
  rewrite (Nat.min_l (String.length a + String.length m)) by lia.
  rewrite Nat.min_l, Nat.max_r by lia.
  replace (String.length a + String.length m - String.length a)%nat
    with (String.length m) by lia.
  rewrite substring_skip. apply substring_whole.
Qed.

Lemma braces_found (before body after : string) :
  lacks "{" before = true -> lacks "}" after = true ->
  match Text.indexOf "{" (before +:+ "{" +:+ body +:+ "}" +:+ after),
        Text.lastIndexOf "}" (before +:+ "{" +:+ body +:+ "}" +:+ after) with
  | Some firstBrace, Some lastBrace =>
      Text.substring firstBrace (lastBrace + 1) (before +:+ "{" +:+ body +:+ "}" +:+ after)
  | _, _ => before +:+ "{" +:+ body +:+ "}" +:+ after
  end = "{" +:+ body +:+ "}".
Proof.
  intros Hb Ha.
  change (before +:+ "{" +:+ body +:+ "}" +:+ after)
    with (before +:+ String "{" (body +:+ "}" +:+ after)).
  rewrite (indexOf_first "{" before _ Hb).
  assert (E : before +:+ String "{" (body +:+ "}" +:+ after)
              = (before +:+ "{" +:+ body) +:+ String "}" after).
  { change (String "{" (body +:+ "}" +:+ after)) with ("{" +:+ (body +:+ ("}" +:+ after))).
    change (String "}" after) with ("}" +:+ after).
    rewrite !append_assoc. reflexivity. }
  rewrite E at 1. rewrite (lastIndexOf_last "}" _ after Ha).
  assert (E2 : before +:+ String "{" (body +:+ "}" +:+ after)
               = before +:+ ("{" +:+ body +:+ "}") +:+ after).
  { change (String "{" (body +:+ "}" +:+ after)) with ("{" +:+ (body +:+ ("}" +:+ after))).
    rewrite !append_assoc. reflexivity. }
  rewrite E2.
  replace (String.length (before +:+ "{" +:+ body) + 1)%nat
    with (String.length before + String.length ("{" +:+ body +:+ "}"))%nat.
  - apply Text_substring_middle.
  - rewrite !length_append. simpl. lia.
Qed.

(** X16.  The text of a profile is cut down to its JSON object: prose
    before the first opening brace and after the last closing brace is
    dropped, and so is a json code fence around the object (the texts are
    free of backquotes; the prose before has no opening brace, the prose
    after no closing one). *)
Theorem profile_text_keeps_the_object (before body after : string) :
  lacks "`" before = true -> lacks "{" before = true ->
  lacks "`" body = true ->
  lacks "`" after = true -> lacks "}" after = true ->
  profile_text (Some (before +:+ "{" +:+ body +:+ "}" +:+ after)) = "{" +:+ body +:+ "}"
  /\ profile_text (Some (fenced ("{" +:+ body +:+ "}"))) = "{" +:+ body +:+ "}".
Proof.
  intros Hq1 Hb Hq2 Hq3 Ha. split.
  - unfold profile_text. cbv zeta.
    assert (Hne : or_default (Some (before +:+ "{" +:+ body +:+ "}" +:+ after)) "{}"
                  = before +:+ "{" +:+ body +:+ "}" +:+ after).
    { destruct before; reflexivity. }
    rewrite Hne. rewrite author_fences_plain.
    + apply braces_found; assumption.
    + rewrite !lacks_append, Hq1, Hq2, Hq3. reflexivity.
  - unfold profile_text. cbv zeta.
    change (or_default (Some (fenced ("{" +:+ body +:+ "}"))) "{}")
      with (fenced ("{" +:+ body +:+ "}")).
    rewrite author_fences_fenced by (rewrite !lacks_append, Hq2; reflexivity).
    pose proof (braces_found "" body nl eq_refl eq_refl) as H.
    change ("" +:+ "{" +:+ body +:+ "}" +:+ nl) with ("{" +:+ body +:+ "}" +:+ nl) in H.
    rewrite !append_assoc. exact H.
Qed.

Lemma chunk_uri_truthy (chunk : GroundingChunk) (u : string) :
  chunk_uri chunk = Some u -> u <> EmptyString.
Proof.
  unfold chunk_uri. destruct (web chunk) as [wb |]; [| discriminate].
  destruct (uri wb) as [[| a s] |]; try discriminate. simpl. intros [= <-]. discriminate.
Qed.

Lemma grounding_sources_truthy (response : ToolResponse) :
  Forall (fun u => u <> EmptyString) (grounding_sources response).
Proof.
  unfold grounding_sources.
  destruct (grounded_candidates response) as [[| first rest] |]; try constructor.
  destruct (groundingMetadata first) as [meta |]; [| constructor].
  destruct (groundingChunks meta) as [chunks |]; [| constructor].
  induction chunks as [| chunk chunks IH]; [constructor |].
  cbn [omap list_omap]. destruct (chunk_uri chunk) as [u |] eqn:E; [| exact IH].
  constructor; [exact (chunk_uri_truthy chunk u E) | exact IH].
Qed.

Lemma set_sources_silent (parsed : json) (srcs : list string) :
  Forall silent (snd (set_sources parsed srcs)).
Proof. destruct parsed; constructor. Qed.

(** X17.  [analyzeAuthor] never rejects and makes exactly one inference
    call.  The profile it resolves with either has a list of sources, all
    of them non-empty addresses taken from the grounding of the answer, or
    has none and is the fallback profile, which carries the requested
    name and the affiliation Unknown. *)
Theorem analyzeAuthor_always_resolves (rt : Runtime) (ai : Assistant) (name : string) :
  exists p,
    fst (analyzeAuthor rt ai name) = Ok p
    /\ inference_calls (snd (analyzeAuthor rt ai name)) = 1%nat
    /\ match sources p with
       | Some srcs =>
           exists response,
             generateContentWithTools ai (author_request name) = Some response
             /\ JSON_parse rt (profile_text (answer_text response)) = Some (profile p)
             /\ srcs = grounding_sources response
             /\ Forall (fun u => u <> EmptyString) srcs
       | None =>
           get_prop "name" (profile p) = Some (JStr name)
           /\ get_prop "affiliation" (profile p) = Some (JStr "Unknown")
       end.
Proof.
  assert (Hcalls : inference_calls (snd (analyzeAuthor rt ai name)) = 1%nat).
  { unfold analyzeAuthor, generateWithTools. apply one_call_then_silence.
    - intros r. cbv zeta. apply silent_bind; [apply parse_silent |].
      intros parsed. apply set_sources_silent.
    - intros e. repeat constructor. }
  revert Hcalls. unfold analyzeAuthor, generateWithTools, await.
  destruct (generateContentWithTools ai (author_request name)) as [r |] eqn:Hr.
  2:{ intros Hcalls. eexists. split; [reflexivity |]. split; [exact Hcalls |].
      split; reflexivity. }
  rewrite bind_ok. cbv beta zeta. unfold parse.
  destruct (JSON_parse rt (profile_text (answer_text r))) as [parsed |] eqn:Hp.
  2:{ intros Hcalls. eexists. split; [reflexivity |]. split; [exact Hcalls |].
      split; reflexivity. }
  unfold ret at 1. rewrite bind_ok. cbv beta.
  destruct parsed; intros Hcalls;
    (eexists; split; [reflexivity |]; split; [exact Hcalls |]); cbn [sources profile];
    try (split; reflexivity).
  all: exists r; split; [reflexivity |]; split; [exact Hp |];
       split; [reflexivity | apply grounding_sources_truthy].
Qed.

(** *** The chat and the routing of requests *)

Lemma append_nonempty_r (a b : string) : b <> EmptyString -> a +:+ b <> EmptyString.
Proof.
  intros Hb. destruct a as [| x a]; [exact Hb |].
  change (String x a +:+ b) with (String x (a +:+ b)). discriminate.
Qed.

Lemma or_default_nonempty (o : option string) (d : string) :
  d <> EmptyString -> or_default o d <> EmptyString.
Proof. intros Hd. destruct o as [[| a s] |]; simpl; try assumption. discriminate. Qed.

Lemma render_content_nonempty (rt : Runtime) (results : list FigureResult)
      (content : string) :
  render_content rt results = Some content -> content <> EmptyString.
Proof.
  unfold render_content.
  destruct (add_results rt results _) as [[c hasSuccess] |]; [| discriminate].
  intros [= <-]. destruct (negb hasSuccess); [discriminate |].
  apply append_nonempty_r. discriminate.
Qed.

Lemma visualizeFigure_worded (rt : Runtime) (w : World) (query : string)
      (paper : option Paper) (order : list nat) (m : Message) (t : list Event) :
  visualizeFigure rt w query paper order = Some (m, t) -> worded (reply_of m).
Proof.
  unfold visualizeFigure, worded. destruct paper as [p |].
  - destruct (extractFigureTargets rt w query) as [[targets | e] t0].
    + destruct (run_targets rt w targets (url p) order) as [[results | e] |];
        [destruct (render_content rt results) as [content |] eqn:Hc | |];
        intros [= <- <-]; (split; [| reflexivity]); try discriminate.
      cbn [reply_of message new_message msg_content].
      eapply render_content_nonempty. exact Hc.
    + intros [= <- <-]. split; [discriminate | reflexivity].
  - intros [= <- <-]. split; [discriminate | reflexivity].
Qed.

Lemma printable_all_or_not (rt : Runtime) (targets : list json) :
  Forall (fun t => printable rt t = true) targets
  \/ Exists (fun t => printable rt t = false) targets.
Proof.
  induction targets as [| t ts [IH | IH]].
  - left. constructor.
  - destruct (printable rt t) eqn:Hp.
    + left. constructor; assumption.
    + right. left. exact Hp.
  - right. right. exact IH.
Qed.

(** Once every branch has settled, [visualizeFigure] has an answer. *)
Lemma visualizeFigure_settles (rt : Runtime) (w : World) (query : string)
      (paper : option Paper) (order : list nat) :
  (forall targets, fst (extractFigureTargets rt w query) = Ok targets ->
                   order ≡ₚ seq 0 (length targets)) ->
  exists m t, visualizeFigure rt w query paper order = Some (m, t).
Proof.
  intros Horder. destruct paper as [p |]; [| do 2 eexists; reflexivity].
  pose proof (extractFigureTargets_result rt w query) as Ht.
  destruct (printable_all_or_not rt
              (match extract_parsed rt w query with
               | Some (JArr (t :: ts)) => t :: ts
               | _ => [JStr query]
               end)) as [Hp | Hex].
  - rewrite (visualizeFigure_message rt w query p order _ Ht Hp (Horder _ Ht)).
    do 2 eexists. reflexivity.
  - rewrite (visualizeFigure_critical rt w query p order _ Ht Hex (Horder _ Ht)).
    do 2 eexists. reflexivity.
Qed.

Lemma join_elements_None (rt : Runtime) (xs : list json) :
  join_elements rt xs = None <-> Exists (fun x => join_element rt x = None) xs.
Proof.
  induction xs as [| x xs IH]; simpl.
  - split; [discriminate | intros H; inversion H].
  - rewrite Exists_cons. destruct (join_element rt x) as [s |].
    + destruct (join_elements rt xs) as [ss |]; simpl in *.
      * split; [discriminate |]. intros [H | H]; [discriminate H |].
        apply IH in H. discriminate H.
      * split; [| reflexivity]. intros _. right. apply IH. reflexivity.
    + split; [| reflexivity]. intros _. left. reflexivity.
Qed.

Section ChatFacts.
Variable rt : Runtime.
Variable ai : Assistant.
Variable instruction : string.

Lemma sendMessage_worded (w : World) (text : string) (papers : list CorpusPaper)
      (activePaper : option CorpusPaper) (insights : list Insight) (r : Reply) :
  fst (sendMessage rt w ai instruction text papers activePaper insights) = Ok r ->
  worded r.
Proof.
  unfold sendMessage, generateWithTools, await.
  destruct (chat_request rt instruction text papers activePaper insights) as [req |];
    [| discriminate].
  destruct (generateContentWithTools ai req) as [response |]; [| discriminate].
  rewrite bind_ok. cbv beta zeta. cbn [fst].
  assert (Hplain : worded (plain_reply w (or_default (answer_text response)
                                                     "I didn't get that."))).
  { split; [apply or_default_nonempty; discriminate | reflexivity]. }
  destruct (functionCalls response) as [[| call others] |];
    try (intros [= <-]; exact Hplain).
  destruct (is_openPaper call); [| intros [= <-]; exact Hplain].
  unfold args_paperId. destruct (call_args call) as [args |]; [| discriminate].
  destruct args; try discriminate; simpl; intros [= <-]; split; (discriminate || reflexivity).
Qed.

Lemma findResearchGap_worded (w : World) (query : string) (papers : list CorpusPaper)
      (r : Reply) :
  fst (findResearchGap rt w query papers) = Ok r -> worded r.
Proof.
  unfold findResearchGap, generate, await.
  destruct (gap_request rt query papers) as [req |]; [| discriminate].
  destruct (generateContent w req) as [response |]; [| discriminate].
  rewrite bind_ok. cbv beta. cbn [fst]. intros [= <-].
  split; [apply or_default_nonempty; discriminate | reflexivity].
Qed.

Lemma open_paper_action_worded (papers : list CorpusPaper) (r shown : Reply) :
  worded r -> fst (open_paper_action rt papers r) = Ok shown -> worded shown.
Proof.
  intros Hr. unfold open_paper_action.
  destruct (reply_data r) as [d |]; [| intros [= <-]; exact Hr].
  destruct (paperId d) as [pid |]; [| intros [= <-]; exact Hr].
  destruct (_ && _); [| intros [= <-]; exact Hr].
  destruct Hr as [_ Hrole].
  destruct (find_paper papers pid) as [found |]; cbn [fst].
  - destruct (ToString rt (title (paper found))) as [t |]; [| discriminate].
    intros [= <-]. split; [| exact Hrole]. cbn [with_content message msg_content].
    apply append_nonempty_r, append_nonempty_r. discriminate.
  - destruct (ToString rt pid) as [shown_id |]; [| discriminate].
    intros [= <-]. split; [| exact Hrole]. cbn [with_content message msg_content].
    apply append_nonempty_r, append_nonempty_r. discriminate.
Qed.

Lemma respond_worded (w : World) (text : string) (mode : AgentMode)
      (papers : list CorpusPaper)
      (activePaper : option CorpusPaper) (insights : list Insight) (order : list nat)
      (r : Reply) (t : list Event) :
  respond rt w ai instruction text mode papers activePaper insights order = Some (Ok r, t) ->
  worded r.
Proof.
  unfold respond. cbv zeta. destruct (route text mode).
  - intros [= H]. apply (findResearchGap_worded (advance 1 w) text papers).
    rewrite H. reflexivity.
  - destruct (analyzeAuthor rt ai text) as [[p | e] t0]; [| discriminate].
    rewrite bind_ok. cbv beta. intros [= <- _].
    split; [apply append_nonempty_r, append_nonempty_r; discriminate | reflexivity].
  - destruct (visualizeFigure rt (advance 1 w) text _ order) as [[m t0] |] eqn:E;
      [| discriminate].
    intros [= <- _]. exact (visualizeFigure_worded _ _ _ _ _ _ _ E).
  - unfold to_string. destruct (ToString rt (activeTitle activePaper)) as [paperTitle |];
      [| discriminate].
    rewrite bind_ret_l. unfold explainCitation, generate, await.
    destruct (generateContent w _) as [response |]; [| discriminate].
    rewrite !bind_ok. cbv beta. cbn [fst]. intros [= <- _].
    split; [apply or_default_nonempty; discriminate | reflexivity].
  - intros [= H]. apply (sendMessage_worded (advance 1 w) text papers activePaper insights).
    rewrite H. reflexivity.
Qed.
End ChatFacts.

Lemma respond_visualize_returns (rt : Runtime) (w : World) (ai : Assistant)
      (instruction text : string) (mode : AgentMode) (papers : list CorpusPaper)
      (activePaper : option CorpusPaper) (insights : list Insight) (order : list nat) :
  (forall targets, fst (extractFigureTargets rt w text) = Ok targets ->
                   order ≡ₚ seq 0 (length targets)) ->
  exists m, respond rt w ai instruction text mode papers activePaper insights order = Some m.
Proof.
  intros Horder. unfold respond. cbv zeta.
  destruct (route text mode); try (eexists; reflexivity).
  destruct (visualizeFigure_settles rt (advance 1 w) text (option_map paper activePaper)
              order Horder) as (m & t & ->).
  eexists. reflexivity.
Qed.

(** X18.  Whatever the mode, the text and the answers of the model, once
    the service has answered (the figures of a visualization settling in
    the order [order]), [handleSendMessage] appends one message if the
    request is still the active one, a message of the model with a
    non-empty content, and appends nothing if the request was stopped or
    replaced by a later one. *)
Theorem handleSendMessage_answers_the_active_request
        (rt : Runtime) (w : World) (ai : Assistant) (instruction : string)
        (text : string) (mode : AgentMode) (papers : list CorpusPaper)
        (activePaper : option CorpusPaper) (insights : list Insight) (order : list nat)
        (active : bool) :
  (forall targets, fst (extractFigureTargets rt w text) = Ok targets ->
                   order ≡ₚ seq 0 (length targets)) ->
  exists appended opened,
    handleSendMessage rt w ai instruction text mode papers activePaper insights order active
    = Some (appended, opened)
    /\ (active = true ->
        exists r, appended = Some r
                  /\ msg_content (message r) <> EmptyString
                  /\ role (message r) = "model")
    /\ (active = false -> appended = None).
Proof.
  intros Horder.
  destruct (respond_visualize_returns rt w ai instruction text mode papers activePaper
              insights order Horder) as ([[responseMsg | e] t] & E);
    unfold handleSendMessage; rewrite E.
  - apply respond_worded in E.
    pose proof (open_paper_action_worded rt papers responseMsg) as Hw.
    destruct (open_paper_action rt papers responseMsg) as [[shown | e] opened].
    + specialize (Hw shown E eq_refl).
      do 2 eexists. split; [reflexivity |].
      destruct active; split; try discriminate; try reflexivity.
      intros _. exists shown. split; [reflexivity | exact Hw].
    + do 2 eexists. split; [reflexivity |].
      destruct active; split; try discriminate; try reflexivity.
      intros _. eexists. split; [reflexivity |]. split; [discriminate | reflexivity].
  - do 2 eexists. split; [reflexivity |].
    destruct active; split; try discriminate; try reflexivity.
    intros _. eexists. split; [reflexivity |]. split; [discriminate | reflexivity].
Qed.

Section OpenPaperFacts.
Variable rt : Runtime.
Variable w : World.
Variable ai : Assistant.
Variable instruction : string.


End OpenPaperFacts.


Section SendFacts.
Variable rt : Runtime.
Variable instruction : string.

Lemma mapM_corpus_line_None (papers : list CorpusPaper) :
  mapM (corpus_line rt) papers = None
  <-> Exists (fun p => corpus_line rt p = None) papers.
Proof.
  induction papers as [| p papers IH].
  - simpl. split; [discriminate | intros H; inversion H].
  - rewrite Exists_cons. cbn [mapM]. destruct (corpus_line rt p) as [line |]; simpl.
    + destruct (mapM (corpus_line rt) papers) as [lines |]; simpl in *.
      * split; [discriminate |]. intros [H | H]; [discriminate H |].
        apply IH in H. discriminate H.
      * split; [| reflexivity]. intros _. right. apply IH. reflexivity.
    + split; [| reflexivity]. intros _. left. reflexivity.
Qed.

Lemma corpusSummary_None (papers : list CorpusPaper) :
  corpusSummary rt papers = None
  <-> Exists (fun p => corpus_line rt p = None) papers.
Proof.
  rewrite <- mapM_corpus_line_None. unfold corpusSummary.
  destruct papers as [| p papers]; [simpl; split; discriminate |].
  cbn [length Nat.ltb Nat.leb].
  destruct (mapM (corpus_line rt) (p :: papers)); split; congruence.
Qed.

Lemma chat_request_None (text : string) (papers : list CorpusPaper)
      (activePaper : option CorpusPaper) (insights : list Insight) :
  chat_request rt instruction text papers activePaper insights = None
  <-> (Exists (fun p => corpus_line rt p = None) papers
       \/ exists active, activePaper = Some active
                         /\ printable rt (title (paper active)) = false).
Proof.
  rewrite <- corpusSummary_None. unfold chat_request, chat_context.
  destruct (corpusSummary rt papers) as [summary |].
  - destruct activePaper as [active |].
    + destruct (ToString rt (title (paper active))) as [t |] eqn:Ht.
      * split; [discriminate |]. intros [H | (a & [= <-] & H)]; [discriminate H |].
        apply printable_false in H. congruence.
      * split; [| reflexivity]. intros _. right. exists active.
        split; [reflexivity |]. apply printable_false. exact Ht.
    + split; [discriminate |]. intros [H | (a & H & _)]; discriminate H.
  - split; [| reflexivity]. intros _. left. reflexivity.
Qed.
End SendFacts.

(** X20.  [sendMessage] has no handler of its own.  It rejects exactly
    when its context cannot be written, or the inference call rejects, or
    the first tool call of the answer is openPaper without arguments
    (missing or null).  The context cannot be written exactly when the
    line of a paper of the corpus cannot (its title or one of its authors
    cannot be printed) or the title of the active paper cannot be
    printed; no call is made then. *)
Theorem sendMessage_rejects_iff
        (rt : Runtime) (w : World) (ai : Assistant) (instruction : string)
        (text : string) (papers : list CorpusPaper)
        (activePaper : option CorpusPaper) (insights : list Insight) :
  ((exists e, fst (sendMessage rt w ai instruction text papers activePaper insights) = Throw e)
   <-> (chat_request rt instruction text papers activePaper insights = None
        \/ exists req,
            chat_request rt instruction text papers activePaper insights = Some req
            /\ (generateContentWithTools ai req = None
                \/ exists response call others,
                    generateContentWithTools ai req = Some response
                    /\ functionCalls response = Some (call :: others)
                    /\ is_openPaper call = true
                    /\ (call_args call = None \/ call_args call = Some JNull))))
  /\ (chat_request rt instruction text papers activePaper insights = None
      <-> (Exists (fun p => corpus_line rt p = None) papers
           \/ exists active, activePaper = Some active
                             /\ printable rt (title (paper active)) = false))
  /\ (chat_request rt instruction text papers activePaper insights = None ->
      sendMessage rt w ai instruction text papers activePaper insights
      = (Throw TypeError, [])).
Proof.
  split; [| split; [apply chat_request_None |]].
  2:{ intros H. unfold sendMessage. rewrite H. reflexivity. }
  unfold sendMessage, generateWithTools, await.
  destruct (chat_request rt instruction text papers activePaper insights) as [req |].
  2:{ split; [intros _; left; reflexivity | intros _; eexists; reflexivity]. }
  destruct (generateContentWithTools ai req) as [response |] eqn:Hr.
  2:{ split; [| intros _; eexists; reflexivity].
      intros _. right. exists req. split; [reflexivity |]. left. exact Hr. }
  rewrite bind_ok. cbv beta zeta. cbn [fst].
  split.
  - intros [e He]. right. exists req. split; [reflexivity |]. right.
    destruct (functionCalls response) as [[| call others] |] eqn:Hc; try discriminate He.
    destruct (is_openPaper call) eqn:Ho; [| discriminate He].
    exists response, call, others. repeat split; try reflexivity; try assumption.
    unfold args_paperId in He. destruct (call_args call) as [args |]; [| left; reflexivity].
    destruct args; simpl in He; try discriminate He. right. reflexivity.
  - intros [H | (req' & [= <-] & [H | (response' & call & others & H & Hc & Ho & Hargs)])];
      [discriminate H | congruence |].
    rewrite Hr in H. injection H as <-.
    rewrite Hc, Ho. unfold args_paperId.
    destruct Hargs as [-> | ->]; eexists; reflexivity.
Qed.

(** *** Routing *)

Module RouteFacts.
Import Regex RegexFacts PatternFacts.

Lemma is_Some_or_else_r {A} (o o' : option A) :
  is_Some o' -> is_Some (match o with Some x => Some x | None => o' end).
Proof. intros H. destruct o; [eauto | exact H]. Qed.

Section Success.
Context {R : Type}.
Implicit Types (k : list ascii -> captures -> option R) (c : captures).

Lemma run_Seq (r1 r2 : regex) (s : list ascii) c k :
  run (Seq r1 r2) s c k = run r1 s c (fun s' c' => run r2 s' c' k).
Proof. reflexivity. Qed.

Lemma run_Alt (r1 r2 : regex) (s : list ascii) c k :
  run (Alt r1 r2) s c k
  = match run r1 s c k with Some x => Some x | None => run r2 s c k end.
Proof. reflexivity. Qed.

Lemma run_Opt (r : regex) (s : list ascii) c k :
  run (Opt r) s c k = match run r s c k with Some x => Some x | None => k s c end.
Proof. reflexivity. Qed.

Lemma run_Group (n : nat) (r : regex) (s : list ascii) c k :
  run (Group n r) s c k
  = run r s c (fun s' c' => k s' ((n, take (length s - length s') s) :: c')).
Proof. reflexivity. Qed.

Lemma star_weak (p : ascii -> bool) (s : list ascii) (k' : list ascii -> option R) :
  is_Some (k' s) -> is_Some (star p s k').
Proof.
  intros Hk. destruct s as [| a s]; simpl; [exact Hk |].
  destruct (p a); [| exact Hk]. destruct (star p s k'); [eauto | exact Hk].
Qed.

Lemma star_reach (p : ascii -> bool) (pre tail : list ascii) (k' : list ascii -> option R) :
  forallb p pre = true -> is_Some (k' tail) -> is_Some (star p (pre ++ tail) k').
Proof.
  intros Hpre Hk. induction pre as [| a pre IH]; [apply star_weak, Hk |].
  simpl in Hpre. apply andb_true_iff in Hpre as [Ha Hpre].
  simpl. rewrite Ha. destruct (IH Hpre) as [x ->]. eauto.
Qed.

Lemma alt_l (r1 r2 : regex) (s : list ascii) c k :
  is_Some (run r1 s c k) -> is_Some (run (Alt r1 r2) s c k).
Proof. intros [x H]. simpl. rewrite H. eauto. Qed.

Lemma alt_r (r1 r2 : regex) (s : list ascii) c k :
  is_Some (run r2 s c k) -> is_Some (run (Alt r1 r2) s c k).
Proof. intros H. simpl. destruct (run r1 s c k); [eauto | exact H]. Qed.

Lemma opt_skip (r : regex) (s : list ascii) c k :
  is_Some (k s c) -> is_Some (run (Opt r) s c k).
Proof. intros H. simpl. destruct (run r s c k); [eauto | exact H]. Qed.

Lemma plus_digits (d : ascii) (ds tail : list ascii) c k :
  is_digit d = true -> accepting k ->
  is_Some (run (Plus is_digit) (d :: ds ++ tail) c k).
Proof.
  intros Hd Hk. simpl. rewrite Hd. apply star_weak, Hk.
Qed.

(** What a literal that matched has read. *)
Lemma lit_ci_inv (pat : string) (s : list ascii) c k :
  is_Some (run (lit_ci pat) s c k) ->
  exists text tail, s = list_ascii_of_string text ++ tail
                    /\ ci_match pat text = true /\ is_Some (k tail c).
Proof.
  revert s. induction pat as [| p pat IH]; intros s.
  - simpl. intros H. exists EmptyString, s. auto.
  - simpl. destruct s as [| a s]; [intros [x H]; discriminate |].
    destruct (ci p a) eqn:Ha; [| intros [x H]; discriminate].
    intros H. apply IH in H as (text & tail & -> & Hm & Hk).
    exists (String a text), tail. simpl. unfold ci in Ha. fold (ci p a) in Ha.
    rewrite Ha, Hm. auto.
Qed.
End Success.

Lemma ci_lower (c a : ascii) :
  folds_with_lower c = true -> ci c (Str.lower_char a) = ci c a.
Proof.
  unfold folds_with_lower. intros H.
  rewrite forallb_forall in H. specialize (H (nat_of_ascii a)).
  rewrite ascii_nat_embedding in H. apply Bool.eqb_prop. apply H.
  apply in_seq. pose proof (nat_ascii_bounded a). lia.
Qed.

Lemma ci_match_lower (pat text : string) :
  forallb folds_with_lower (list_ascii_of_string pat) = true ->
  ci_match pat text = true -> ci_match pat (Str.toLowerCase text) = true.
Proof.
  revert text. induction pat as [| p pat IH]; intros [| a text] Hp H; try discriminate.
  - reflexivity.
  - simpl in Hp, H. apply andb_true_iff in Hp as [Hp0 Hp].
    apply andb_true_iff in H as [Ha H].
    simpl. unfold ci in Ha. fold (ci p a) in Ha.
    change (Ascii.eqb (upper_ascii (Str.lower_char a)) (upper_ascii p))
      with (ci p (Str.lower_char a)).
    rewrite (ci_lower p a Hp0), Ha. apply IH; assumption.
Qed.

Lemma toLowerCase_append (a b : string) :
  Str.toLowerCase (a +:+ b) = Str.toLowerCase a +:+ Str.toLowerCase b.
Proof.
  induction a as [| x a IH]; [reflexivity |].
  rewrite append_cons. simpl. rewrite IH. reflexivity.
Qed.

Lemma lower_keeps (p : ascii -> bool) (a : ascii) :
  kept_by_lower p = true -> p a = true -> Str.lower_char a = a.
Proof.
  unfold kept_by_lower. intros H Ha.
  rewrite forallb_forall in H. specialize (H (nat_of_ascii a)).
  rewrite ascii_nat_embedding, Ha in H. apply Ascii.eqb_eq. apply H.
  apply in_seq. pose proof (nat_ascii_bounded a). lia.
Qed.

Lemma toLowerCase_keeps (p : ascii -> bool) (s : string) :
  kept_by_lower p = true -> forallb p (list_ascii_of_string s) = true ->
  Str.toLowerCase s = s.
Proof.
  intros Hp. induction s as [| a s IH]; [reflexivity |].
  simpl. intros H. apply andb_true_iff in H as [Ha Hs].
  rewrite (lower_keeps p a Hp Ha), (IH Hs). reflexivity.
Qed.

End RouteFacts.

Module DirectFigure.
Import Regex RegexFacts PatternFacts RouteFacts.

Lemma gap_then_number {R} (gap N : string) (tail : list ascii) (c : captures)
      (k : list ascii -> captures -> option R) :
  forallb is_space (list_ascii_of_string gap) = true ->
  is_number N = true ->
  accepting k ->
  is_Some (run (Seq (Star is_space) (Plus is_digit))
               (list_ascii_of_string gap ++ list_ascii_of_string N ++ tail) c k).
Proof.
  intros Hgap HN Hk. destruct (is_number_digits N HN) as (d & ds & -> & Hd & Hds).
  cbn [run]. apply star_reach; [exact Hgap |].
  apply (plus_digits d ds tail c k Hd Hk).
Qed.

Lemma dot_is_dot (a : ascii) : ci "." a = true -> a = "."%char.
Proof. destruct a as [[] [] [] [] [] [] [] []]; try discriminate. reflexivity. Qed.

Lemma direct_figure_accepts (label gap N : string) (tail : list ascii) :
  ci_match "figure" label = true \/ ci_match "fig" label = true
  \/ ci_match "fig." label = true \/ ci_match "table" label = true ->
  forallb is_space (list_ascii_of_string gap) = true ->
  is_number N = true ->
  is_Some (run Pattern.direct_figure
               (list_ascii_of_string label ++ list_ascii_of_string gap
                  ++ list_ascii_of_string N ++ tail)
               [] (fun _ c => Some c)).
Proof.
  intros Hlabel Hgap HN. unfold Pattern.direct_figure.
  assert (Hrest : forall c, is_Some
            (run (Seq (Star is_space) (Plus is_digit))
                 (list_ascii_of_string gap ++ list_ascii_of_string N ++ tail) c
                 (fun _ c' => Some c' : option captures))).
  { intros c. apply gap_then_number; [assumption | assumption |].
    intros s c'. eauto. }
  rewrite run_Seq, run_Group, !run_Alt.
  destruct Hlabel as [H | [H | [H | H]]].
  - apply is_Some_or_else.
    rewrite (run_lit_ci "figure" label) by exact H. apply (Hrest _).
  - apply is_Some_or_else_r. apply is_Some_or_else.
    rewrite run_Seq, (run_lit_ci "fig" label) by exact H.
    unfold dot_opt. apply opt_skip. apply (Hrest _).
  - apply is_Some_or_else_r. apply is_Some_or_else.
    destruct label as [| a1 [| a2 [| a3 [| a4 [| a5 label]]]]];
      try (cbn [ci_match] in H; rewrite ?andb_false_r in H; discriminate H).
    cbn [ci_match] in H. rewrite andb_true_r in H.
    apply andb_true_iff in H as [H1 H]. apply andb_true_iff in H as [H2 H].
    apply andb_true_iff in H as [H3 H4].
    apply dot_is_dot in H4. subst a4.
    change (list_ascii_of_string (String a1 (String a2 (String a3 (String "." "")))))
      with (list_ascii_of_string (String a1 (String a2 (String a3 ""))) ++ ["."%char]).
    rewrite <- app_assoc.
    rewrite run_Seq, (run_lit_ci "fig" (String a1 (String a2 (String a3 ""))))
      by (cbn [ci_match]; rewrite H1, H2, H3; reflexivity).
    unfold dot_opt. rewrite run_Opt. apply is_Some_or_else.
    cbn [run app]. change (one_of ["."%char] "."%char) with true.
    cbv iota. apply (Hrest _).
  - apply is_Some_or_else_r. apply is_Some_or_else_r.
    rewrite (run_lit_ci "table" label) by exact H. apply (Hrest _).
Qed.

End DirectFigure.

Lemma usedMode_CHAT (text : string) : usedMode text CHAT = CHAT.
Proof. unfold usedMode. cbn [is_CHAT negb]. rewrite andb_false_r. reflexivity. Qed.

Lemma isDirectFigure_reference (label gap N rest : string) :
  Regex.ci_match "figure" label = true \/ Regex.ci_match "fig" label = true
  \/ Regex.ci_match "fig." label = true \/ Regex.ci_match "table" label = true ->
  forallb Regex.is_space (list_ascii_of_string gap) = true ->
  Regex.is_number N = true ->
  isDirectFigure (Str.toLowerCase (label +:+ gap +:+ N +:+ rest)) = true.
Proof.
  intros Hlabel Hgap HN.
  rewrite !RouteFacts.toLowerCase_append.
  rewrite (RouteFacts.toLowerCase_keeps Regex.is_space gap) by (vm_compute; reflexivity || exact Hgap).
  assert (HNd : forallb Regex.is_digit (list_ascii_of_string N) = true).
  { unfold Regex.is_number in HN. destruct (list_ascii_of_string N); [discriminate | exact HN]. }
  rewrite (RouteFacts.toLowerCase_keeps Regex.is_digit N) by (vm_compute; reflexivity || exact HNd).
  unfold isDirectFigure, Pattern.test_at_start.
  rewrite !RegexFacts.list_ascii_app.
  assert (Hl : Regex.ci_match "figure" (Str.toLowerCase label) = true
               \/ Regex.ci_match "fig" (Str.toLowerCase label) = true
               \/ Regex.ci_match "fig." (Str.toLowerCase label) = true
               \/ Regex.ci_match "table" (Str.toLowerCase label) = true).
  { destruct Hlabel as [H | [H | [H | H]]];
      [left | right; left | right; right; left | right; right; right];
      (apply RouteFacts.ci_match_lower; [vm_compute; reflexivity | exact H]). }
  destruct (DirectFigure.direct_figure_accepts (Str.toLowerCase label) gap N
              (list_ascii_of_string (Str.toLowerCase rest)) Hl Hgap HN) as [c ->].
  reflexivity.
Qed.

(** X21.  In chat mode a message that starts with a figure or table
    reference (Figure, Fig, Fig. or Table in any case, optional white
    space, a number) is sent to [visualizeFigure], whatever follows the
    number. *)
Theorem figure_reference_is_visualized (label gap N rest : string) :
  Regex.ci_match "figure" label = true \/ Regex.ci_match "fig" label = true
  \/ Regex.ci_match "fig." label = true \/ Regex.ci_match "table" label = true ->
  forallb Regex.is_space (list_ascii_of_string gap) = true ->
  Regex.is_number N = true ->
  route (label +:+ gap +:+ N +:+ rest) CHAT = to_visualizeFigure.
Proof.
  intros Hlabel Hgap HN. unfold route. rewrite usedMode_CHAT. cbv zeta.
  rewrite (isDirectFigure_reference label gap N rest Hlabel Hgap HN), orb_true_r.
  reflexivity.
Qed.

Module CommandFacts.
Import Regex RegexFacts PatternFacts RouteFacts.

(** A text that starts with a figure reference holds one of the nouns of
    the visualization intent. *)
Lemma direct_figure_has_noun (s : string) :
  isDirectFigure s = true -> Regex.test Pattern.viz_noun s = true.
Proof.
  unfold isDirectFigure, Pattern.test_at_start, Regex.test, Regex.exec.
  set (l := list_ascii_of_string s).
  destruct (run Pattern.direct_figure l [] _) as [c |] eqn:E; [| discriminate].
  intros _.
  assert (Hnoun : is_Some (run Pattern.viz_noun l [] (fun _ c' => Some c'))).
  { unfold Pattern.direct_figure in E. rewrite run_Seq, run_Group, !run_Alt in E.
    unfold Pattern.viz_noun. cbn [Pattern.any_ci]. rewrite run_Group.
    destruct (run (lit_ci "figure") l [] _) as [x |] eqn:E1.
    - assert (H1 : is_Some (run (lit_ci "figure") l []
                    (fun s' c' => run (Seq (Star is_space) (Plus is_digit)) s'
                       ((1%nat, take (length l - length s') l) :: c')
                       (fun _ c0 => Some c0)))) by (rewrite E1; eauto).
      apply lit_ci_inv in H1 as (text & tail & Hl & Hm & _).
      apply alt_l. rewrite Hl, (run_lit_ci "figure" text) by exact Hm. eauto.
    - destruct (run (Seq (lit_ci "fig") dot_opt) l [] _) as [x |] eqn:E2.
      + assert (H2 : is_Some (run (lit_ci "fig") l []
                      (fun s' c' => run dot_opt s' c'
                         (fun s'' c'' => run (Seq (Star is_space) (Plus is_digit)) s''
                            ((1%nat, take (length l - length s'') l) :: c'')
                            (fun _ c0 => Some c0)))))
          by (rewrite run_Seq in E2; rewrite E2; eauto).
        apply lit_ci_inv in H2 as (text & tail & Hl & Hm & _).
        apply alt_r, alt_l. rewrite Hl, (run_lit_ci "fig" text) by exact Hm. eauto.
      + assert (H3 : is_Some (run (lit_ci "table") l []
                      (fun s' c' => run (Seq (Star is_space) (Plus is_digit)) s'
                         ((1%nat, take (length l - length s') l) :: c')
                         (fun _ c0 => Some c0)))) by (rewrite E; eauto).
        apply lit_ci_inv in H3 as (text & tail & Hl & Hm & _).
        apply alt_r, alt_r, alt_l. rewrite Hl, (run_lit_ci "table" text) by exact Hm. eauto. }
  destruct (exec_from_app Pattern.viz_noun [] l Hnoun) as [c' H]. simpl in H.
  rewrite H. reflexivity.
Qed.

Lemma route_CHAT_cases (text : string) :
  route text CHAT = to_visualizeFigure \/ route text CHAT = to_sendMessage.
Proof.
  unfold route. rewrite usedMode_CHAT. cbv zeta. destruct (_ || _); auto.
Qed.

Lemma route_command (text : string) (mode : AgentMode) :
  isPaperCommand text || isSearchCommand text = true ->
  route text mode = route text CHAT.
Proof.
  intros H. unfold route, usedMode. rewrite H.
  destruct mode; reflexivity.
Qed.

End CommandFacts.

(** X22.  A paper command or a search command is routed in the same way
    in every mode, never to [findResearchGap], [analyzeAuthor] or
    [explainCitation]; and when its text names no figure, table, chart,
    graph or image, it is routed to [sendMessage], which has the tool
    that opens papers. *)
Theorem paper_command_is_routed_to_the_chat (text : string) (mode : AgentMode) :
  isPaperCommand text || isSearchCommand text = true ->
  route text mode = route text CHAT
  /\ (route text mode = to_visualizeFigure \/ route text mode = to_sendMessage)
  /\ (Regex.test Pattern.viz_noun (Str.toLowerCase text) = false ->
      route text mode = to_sendMessage).
Proof.
  intros H. pose proof (CommandFacts.route_command text mode H) as E.
  split; [exact E |]. rewrite E. split; [apply CommandFacts.route_CHAT_cases |].
  intros Hnoun. unfold route. rewrite usedMode_CHAT. cbv zeta.
  unfold isVizIntent. rewrite Hnoun, andb_false_r.
  destruct (isDirectFigure (Str.toLowerCase text)) eqn:D; [| reflexivity].
  apply CommandFacts.direct_figure_has_noun in D. congruence.
Qed.

Lemma wrapped_is_no_paper_command (kind text : string) :
  isPaperCommand ("Analyze this " +:+ kind +:+ text) = false.
Proof.
  unfold isPaperCommand, Pattern.test_at_start.
  change ("Analyze this " +:+ kind +:+ text)
    with (String "A" ("nalyze this " +:+ kind +:+ text)).
  reflexivity.
Qed.

(** X23.  What [handleAskSofia] hands over is never a paper command.  An
    excerpt with a citation marker (a number in square brackets) goes to
    [explainCitation], unless the message reads as a search command, in
    which case it is routed as in chat mode; an excerpt without a marker
    goes to [visualizeFigure] or [sendMessage]. *)
Theorem excerpt_is_routed_by_its_marker (text : string) :
  isPaperCommand (fst (handleAskSofia text)) = false
  /\ (Regex.test Pattern.citationRegex text = true ->
      snd (handleAskSofia text) = CITATION_ANALYSIS
      /\ route (fst (handleAskSofia text)) (snd (handleAskSofia text))
         = if isSearchCommand (fst (handleAskSofia text))
           then route (fst (handleAskSofia text)) CHAT
           else to_explainCitation)
  /\ (Regex.test Pattern.citationRegex text = false ->
      snd (handleAskSofia text) = CHAT
      /\ (route (fst (handleAskSofia text)) (snd (handleAskSofia text)) = to_visualizeFigure
          \/ route (fst (handleAskSofia text)) (snd (handleAskSofia text)) = to_sendMessage)).
Proof.
  unfold handleAskSofia.
  destruct (Regex.test Pattern.citationRegex text); cbn [fst snd].
  - split; [apply (wrapped_is_no_paper_command "citation context: ") |].
    split; [| discriminate]. intros _. split; [reflexivity |].
    assert (E : isPaperCommand ("Analyze this citation context: " +:+ quoted text) = false)
      by apply (wrapped_is_no_paper_command "citation context: ").
    unfold route at 1. unfold usedMode. rewrite E. cbn [orb is_CHAT negb].
    rewrite andb_true_r. destruct (isSearchCommand _); [| reflexivity].
    unfold route. rewrite usedMode_CHAT. reflexivity.
  - split; [apply (wrapped_is_no_paper_command "excerpt: ") |].
    split; [discriminate |]. intros _. split; [reflexivity |].
    apply CommandFacts.route_CHAT_cases.
Qed.

(** *** The images of a visualization message *)

Module MarkupFacts.
Import Markup.

Lemma literal_app (p : string) (t : list ascii) :
  literal p (list_ascii_of_string p ++ t) = Some t.
Proof.
  induction p as [| a p IH]; [reflexivity |].
  simpl. rewrite Ascii.eqb_refl. exact IH.
Qed.

Lemma literal_head_miss (a b : ascii) (p : string) (s : list ascii) :
  Ascii.eqb a b = false -> literal (String a p) (b :: s) = None.
Proof. intros H. simpl. rewrite H. reflexivity. Qed.

Lemma image_at_no_bang (a : ascii) (s : list ascii) :
  Ascii.eqb a "!" = false -> image_at (a :: s) = None.
Proof.
  intros H. unfold image_at.
  rewrite (literal_head_miss "!" a) by (rewrite Ascii.eqb_sym; exact H). reflexivity.
Qed.

(** The search goes through a text without exclamation mark. *)
Lemma matchAll_no_bang (p : string) (t : list ascii) :
  lacks "!" p = true ->
  matchAll (list_ascii_of_string p ++ t) 0 = matchAll t 0.
Proof.
  induction p as [| a p IH]; [reflexivity |].
  simpl. intros H. apply andb_true_iff in H as [Ha Hp]. apply negb_true_iff in Ha.
  rewrite (image_at_no_bang a _ Ha). apply IH, Hp.
Qed.

Lemma matchAll_skip (pre t : list ascii) :
  matchAll (pre ++ t) (length pre) = matchAll t 0.
Proof. induction pre as [| a pre IH]; [reflexivity | exact IH]. Qed.

(** A lazy run stops at the first place where the rest matches. *)
Lemma lazy_dots_stops {R} (u t seen : list ascii)
      (k : list ascii -> list ascii -> option R) (x : R) :
  forallb Pattern.dot u = true ->
  (forall pre a post, u = pre ++ a :: post -> k (seen ++ pre) (a :: post ++ t) = None) ->
  k (seen ++ u) t = Some x ->
  lazy_dots (u ++ t) seen k = Some x.
Proof.
  revert seen. induction u as [| a u IH]; intros seen Hdot Hfail Hk.
  - rewrite app_nil_r in Hk. destruct t; simpl; rewrite Hk; reflexivity.
  - simpl in Hdot. apply andb_true_iff in Hdot as [Ha Hu].
    cbn [app lazy_dots].
    pose proof (Hfail [] a u eq_refl) as H0. rewrite app_nil_r in H0. cbn [app] in H0.
    rewrite H0, Ha. apply IH.
    + exact Hu.
    + intros pre b post ->. rewrite <- app_assoc. cbn [app].
      apply (Hfail (a :: pre) b post). reflexivity.
    + rewrite <- app_assoc. exact Hk.
Qed.

Lemma lacks_split (c : ascii) (u : string) (pre : list ascii) (a : ascii) (post : list ascii) :
  lacks c u = true -> list_ascii_of_string u = pre ++ a :: post -> Ascii.eqb c a = false.
Proof.
  revert pre. induction u as [| b u IH]; intros pre H E.
  - destruct pre; discriminate E.
  - simpl in H. apply andb_true_iff in H as [Hb Hu]. apply negb_true_iff in Hb.
    destruct pre as [| b' pre]; simpl in E; injection E as -> E.
    + rewrite Ascii.eqb_sym. exact Hb.
    + exact (IH pre Hu E).
Qed.

(** The pattern on the markup of one image. *)
Lemma image_at_markup (name u : string) (t : list ascii) :
  lacks "]" name = true -> one_line name = true ->
  lacks ")" u = true -> one_line u = true ->
  image_at (list_ascii_of_string ("![" +:+ name +:+ "](" +:+ "data:" +:+ u +:+ ")") ++ t)
  = Some (list_ascii_of_string name, list_ascii_of_string ("data:" +:+ u), t).
Proof.
  intros Hn1 Hn2 Hu1 Hu2. unfold image_at.
  rewrite !RegexFacts.list_ascii_app, <- !app_assoc.
  rewrite literal_app.
  apply lazy_dots_stops.
  - exact Hn2.
  - intros pre a post E. cbn [app].
    rewrite (literal_head_miss "]" a); [reflexivity |].
    exact (lacks_split "]" name pre a post Hn1 E).
  - cbn [app]. rewrite literal_app, literal_app.
    apply lazy_dots_stops.
    + exact Hu2.
    + intros pre a post E. cbn [app].
      rewrite (literal_head_miss ")" a); [reflexivity |].
      exact (lacks_split ")" u pre a post Hu1 E).
    + cbn [app]. rewrite literal_app. reflexivity.
Qed.

Lemma matchAll_markup (name u : string) (t : list ascii) :
  lacks "]" name = true -> one_line name = true ->
  lacks ")" u = true -> one_line u = true ->
  matchAll (list_ascii_of_string ("![" +:+ name +:+ "](" +:+ "data:" +:+ u +:+ ")") ++ t) 0
  = (list_ascii_of_string name, list_ascii_of_string ("data:" +:+ u)) :: matchAll t 0.
Proof.
  intros Hn1 Hn2 Hu1 Hu2.
  pose proof (image_at_markup name u t Hn1 Hn2 Hu1 Hu2) as H.
  change ("![" +:+ name +:+ "](" +:+ "data:" +:+ u +:+ ")")
    with (String "!" ("[" +:+ name +:+ "](" +:+ "data:" +:+ u +:+ ")")) in *.
  cbn [list_ascii_of_string app] in *.
  cbn [matchAll]. rewrite H. f_equal.
  rewrite length_app, Nat.add_sub. apply matchAll_skip.
Qed.

End MarkupFacts.

Section ShownImages.
Variable rt : Runtime.

Lemma drop_prefix_append (p s u : string) : Str.drop_prefix p s = Some u -> s = p +:+ u.
Proof.
  revert s. induction p as [| a p IH]; intros s.
  - simpl. intros [= ->]. reflexivity.
  - destruct s as [| b s]; [discriminate |]. simpl.
    destruct (Ascii.eqb a b) eqn:E; [| discriminate].
    apply Ascii.eqb_eq in E. subst b. intros H. rewrite append_cons, (IH s H). reflexivity.
Qed.

Lemma matchAll_notice (res : FigureResult) (t : list ascii) :
  displayable rt res = true ->
  Markup.matchAll (list_ascii_of_string (notice rt res) ++ t) 0
  = (if succeeded res then [raw_match rt res] else []) ++ Markup.matchAll t 0.
Proof.
  unfold displayable, notice, succeeded, raw_match. cbv zeta.
  set (name := label_text rt res).
  intros H. apply andb_true_iff in H as [H Hurl]. apply andb_true_iff in H as [H Hline].
  apply andb_true_iff in H as [H Hbracket]. apply andb_true_iff in H as [Hprint Hbang].
  destruct (truthy (imageUrl res)).
  - destruct (Str.drop_prefix "data:" (imageUrl res)) as [u |] eqn:D; [| discriminate].
    apply andb_true_iff in Hurl as [Hu1 Hu2].
    apply drop_prefix_append in D. rewrite D.
    assert (E : "**" +:+ name +:+ "**" +:+ nl +:+ nl
                  +:+ "![" +:+ name +:+ "](" +:+ ("data:" +:+ u) +:+ ")" +:+ nl +:+ nl
                = ("**" +:+ name +:+ "**" +:+ nl +:+ nl)
                    +:+ ("![" +:+ name +:+ "](" +:+ "data:" +:+ u +:+ ")")
                    +:+ (nl +:+ nl)).
    { rewrite !append_assoc. reflexivity. }
    rewrite E.
    rewrite (RegexFacts.list_ascii_app ("**" +:+ name +:+ "**" +:+ nl +:+ nl)).
    rewrite (RegexFacts.list_ascii_app ("![" +:+ name +:+ "](" +:+ "data:" +:+ u +:+ ")")).
    rewrite <- !app_assoc.
    rewrite (MarkupFacts.matchAll_no_bang ("**" +:+ name +:+ "**" +:+ nl +:+ nl))
      by (rewrite !lacks_append, Hbang; reflexivity).
    rewrite (MarkupFacts.matchAll_markup name u) by assumption.
    rewrite (MarkupFacts.matchAll_no_bang (nl +:+ nl)) by reflexivity.
    reflexivity.
  - rewrite MarkupFacts.matchAll_no_bang; [reflexivity |].
    rewrite !lacks_append, Hbang. reflexivity.
Qed.

Lemma matchAll_notices (results : list FigureResult) (t : list ascii) :
  Forall (fun res => displayable rt res = true) results ->
  Markup.matchAll (list_ascii_of_string (notices rt results) ++ t) 0
  = map (raw_match rt) (List.filter succeeded results) ++ Markup.matchAll t 0.
Proof.
  induction 1 as [| res rest Hres _ IH]; [reflexivity |].
  cbn [notices List.filter]. rewrite RegexFacts.list_ascii_app, <- app_assoc.
  rewrite (matchAll_notice res _ Hres), IH.
  destruct (succeeded res); reflexivity.
Qed.

Lemma filter_none (results : list FigureResult) :
  existsb succeeded results = false -> List.filter succeeded results = [].
Proof.
  induction results as [| res rest IH]; [reflexivity |].
  simpl. intros H. apply orb_false_iff in H as [-> H]. exact (IH H).
Qed.
End ShownImages.

(** X24.  The chat reads back from the content of a visualization message
    exactly the images that [visualizeFigure] put into it: for records
    whose markup can be read back, the images found in
    the content that [render_content] writes for them are those of the
    records with an image, in order, each under its label (Figure for an
    empty label). *)
Theorem zoom_images_are_the_processed_figures (rt : Runtime) (results : list FigureResult) :
  Forall (fun res => displayable rt res = true) results ->
  exists content,
    render_content rt results = Some content
    /\ zoom_images content = map (shown rt) (List.filter succeeded results).
Proof.
  intros Hd. exists (rendered rt results). split.
  { apply render_content_cases. eapply Forall_impl; [exact Hd |].
    intros res H. unfold displayable in H. cbv zeta in H.
    repeat (apply andb_true_iff in H as [H _]). exact H. }
  unfold zoom_images, rendered.
  assert (E : "Here is your visualization." +:+ nl +:+ nl +:+ notices rt results
              = ("Here is your visualization." +:+ nl +:+ nl) +:+ notices rt results)
    by (rewrite !append_assoc; reflexivity).
  rewrite E. clear E.
  destruct (existsb succeeded results) eqn:Hs.
  - rewrite (RegexFacts.list_ascii_app _ "Do you want me to **give an analysis** of these figures or **describe** them?").
    rewrite (RegexFacts.list_ascii_app ("Here is your visualization." +:+ nl +:+ nl)).
    rewrite <- app_assoc.
    rewrite (MarkupFacts.matchAll_no_bang ("Here is your visualization." +:+ nl +:+ nl))
      by reflexivity.
    rewrite (matchAll_notices rt results _ Hd).
    rewrite <- (app_nil_r (list_ascii_of_string "Do you want me to **give an analysis** of these figures or **describe** them?")).
    rewrite MarkupFacts.matchAll_no_bang by reflexivity.
    cbn [Markup.matchAll]. rewrite app_nil_r, map_map.
    apply map_ext. intros res. unfold raw_match, shown. cbn [fst snd].
    rewrite !string_of_list_ascii_of_string. reflexivity.
  - rewrite (filter_none results Hs).
    rewrite <- (app_nil_r (list_ascii_of_string none_processed)).
    rewrite MarkupFacts.matchAll_no_bang by reflexivity. reflexivity.
Qed.

(** *** The spelling of a label *)

Module LabelFacts.
Import Regex RegexFacts PatternFacts RouteFacts.

Lemma star_reach_val {R} (p : ascii -> bool) (pre tail : list ascii)
      (k' : list ascii -> option R) (x : R) :
  forallb p pre = true -> star p tail k' = Some x -> star p (pre ++ tail) k' = Some x.
Proof.
  intros Hpre Hk. induction pre as [| a pre IH]; [exact Hk |].
  simpl in Hpre. apply andb_true_iff in Hpre as [Ha Hpre].
  simpl. rewrite Ha, (IH Hpre). reflexivity.
Qed.

Lemma run_Chr_hit {R} (p : ascii -> bool) (a : ascii) (s : list ascii) (c : captures)
      (k : list ascii -> captures -> option R) :
  p a = true -> run (Chr p) ([a] ++ s) c k = k s c.
Proof. intros H. simpl. rewrite H. reflexivity. Qed.

(** White space and a number, to the end of the text: group 2 is the
    number. *)
Lemma gap_number_read (gap N : string) (c : captures) :
  forallb is_space (list_ascii_of_string gap) = true ->
  is_number N = true ->
  run (Seq (Star is_space) (Group 2 (Plus is_digit)))
      (list_ascii_of_string gap ++ list_ascii_of_string N) c (fun _ c' => Some c')
  = Some ((2%nat, list_ascii_of_string N) :: c).
Proof.
  intros Hgap HN. destruct (is_number_digits N HN) as (d & ds & -> & Hd & Hds).
  rewrite run_Seq. cbn [run]. apply star_reach_val; [exact Hgap |].
  rewrite star_stop by (exact (digit_not_space d Hd)).
  rewrite Hd. erewrite star_all; [reflexivity | exact Hds |].
  cbn [length]. rewrite Nat.sub_0_r.
  change (S (length ds)) with (length (d :: ds)). rewrite firstn_all. reflexivity.
Qed.

Lemma not_u (x : ascii) : is_space x = true \/ is_digit x = true -> ci "u" x = false.
Proof.
  destruct x as [[] [] [] [] [] [] [] []]; intros [H | H]; try discriminate H; reflexivity.
Qed.

Lemma not_dot (x : ascii) :
  is_space x = true \/ is_digit x = true -> one_of ["."%char] x = false.
Proof.
  destruct x as [[] [] [] [] [] [] [] []]; intros [H | H]; try discriminate H; reflexivity.
Qed.

(** The first code unit after the label. *)
Lemma after_label (gap N : string) :
  forallb is_space (list_ascii_of_string gap) = true ->
  is_number N = true ->
  exists x rest, list_ascii_of_string gap ++ list_ascii_of_string N = x :: rest
                 /\ (is_space x = true \/ is_digit x = true).
Proof.
  intros Hgap HN. destruct (is_number_digits N HN) as (d & ds & -> & Hd & Hds).
  destruct (list_ascii_of_string gap) as [| g gs]; simpl in *.
  - eauto.
  - apply andb_true_iff in Hgap as [Hg _]. eauto.
Qed.

Lemma three_letters (pat label : string) (a b c : ascii) :
  pat = String a (String b (String c EmptyString)) ->
  ci_match pat label = true ->
  exists a' b' c', label = String a' (String b' (String c' EmptyString))
                   /\ ci a a' = true /\ ci b b' = true /\ ci c c' = true.
Proof.
  intros -> H.
  destruct label as [| a' [| b' [| c' [| d' label]]]];
    try (cbn [ci_match] in H; rewrite ?andb_false_r in H; discriminate H).
  cbn [ci_match] in H. rewrite andb_true_r in H.
  apply andb_true_iff in H as [Ha H]. apply andb_true_iff in H as [Hb Hc]. eauto 10.
Qed.

(** The identifier pattern on a label, white space and a number: group 1
    is the label as written, group 2 the number. *)
Lemma identifier_reads (label gap N : string) :
  ci_match "figure" label = true \/ ci_match "fig" label = true
  \/ ci_match "fig." label = true \/ ci_match "table" label = true ->
  forallb is_space (list_ascii_of_string gap) = true ->
  is_number N = true ->
  exec identifier_pattern (label +:+ gap +:+ N)
  = Some [(2%nat, list_ascii_of_string N); (1%nat, list_ascii_of_string label)].
Proof.
  intros Hlabel Hgap HN. unfold exec.
  rewrite !list_ascii_app. apply exec_from_here.
  unfold identifier_pattern. rewrite run_Seq, run_Group, !run_Alt.
  pose proof (fun c => gap_number_read gap N c Hgap HN) as Hrest.
  destruct (after_label gap N Hgap HN) as (x & rest & Hx & Hkind).
  set (tail := list_ascii_of_string gap ++ list_ascii_of_string N) in *.
  destruct Hlabel as [H | [H | [H | H]]].
  - rewrite (run_lit_ci "figure" label) by exact H.
    rewrite take_consumed, Hrest. reflexivity.
  - destruct (three_letters "fig" label "f" "i" "g" eq_refl H)
      as (a' & b' & c' & -> & Ha & Hb & Hc).
    assert (E1 : forall k, run (lit_ci "figure")
                   (list_ascii_of_string (String a' (String b' (String c' ""))) ++ tail) [] k
                 = (None : option captures)).
    { intros k. rewrite Hx. cbn [list_ascii_of_string app lit_ci run].
      rewrite Ha, Hb, Hc, (not_u x Hkind). reflexivity. }
    rewrite E1.
    rewrite run_Seq, (run_lit_ci "fig" (String a' (String b' (String c' "")))) by exact H.
    unfold dot_opt. rewrite run_Opt.
    assert (E2 : forall c k, run (Chr (one_of ["."%char])) tail c k = (None : option captures)).
    { intros c k. rewrite Hx. cbn [run]. rewrite (not_dot x Hkind). reflexivity. }
    rewrite E2, take_consumed, Hrest. reflexivity.
  - destruct label as [| a1 [| a2 [| a3 [| a4 [| a5 label]]]]];
      try (cbn [ci_match] in H; rewrite ?andb_false_r in H; discriminate H).
    cbn [ci_match] in H. rewrite andb_true_r in H.
    apply andb_true_iff in H as [H1 H]. apply andb_true_iff in H as [H2 H].
    apply andb_true_iff in H as [H3 H4].
    apply DirectFigure.dot_is_dot in H4. subst a4.
    assert (E1 : forall k, run (lit_ci "figure")
                   (list_ascii_of_string (String a1 (String a2 (String a3 (String "." ""))))
                      ++ tail) [] k = (None : option captures)).
    { intros k. cbn [list_ascii_of_string app lit_ci run].
      rewrite H1, H2, H3. reflexivity. }
    rewrite E1.
    change (list_ascii_of_string (String a1 (String a2 (String a3 (String "." "")))))
      with (list_ascii_of_string (String a1 (String a2 (String a3 ""))) ++ ["."%char]).
    rewrite <- app_assoc.
    rewrite run_Seq, (run_lit_ci "fig" (String a1 (String a2 (String a3 ""))))
      by (cbn [ci_match]; rewrite H1, H2, H3; reflexivity).
    unfold dot_opt. rewrite run_Opt.
    rewrite (run_Chr_hit (one_of ["."%char]) "."%char tail) by reflexivity.
    rewrite app_assoc, take_consumed, Hrest. reflexivity.
  - destruct label as [| a1 label];
      [cbn [ci_match] in H; discriminate H |].
    cbn [ci_match] in H. apply andb_true_iff in H as [H1 H].
    assert (Hf : ci "f" a1 = false).
    { destruct a1 as [[] [] [] [] [] [] [] []]; try discriminate H1; reflexivity. }
    rewrite (run_lit_ci_head_miss "f" a1 "igure" label) by exact Hf.
    rewrite run_Seq, (run_lit_ci_head_miss "f" a1 "ig" label) by exact Hf.
    rewrite (run_lit_ci "table" (String a1 label))
      by (cbn [ci_match]; rewrite H1, H; reflexivity).
    rewrite take_consumed, Hrest. reflexivity.
Qed.

Lemma label_of_figure (label : string) (c : captures) (v : list ascii) :
  ci_match "figure" label = true \/ ci_match "fig" label = true
  \/ ci_match "fig." label = true ->
  label_of ((2%nat, v) :: (1%nat, list_ascii_of_string label) :: c) = "figure".
Proof.
  intros H. unfold label_of, group_text. cbn [capture Nat.eqb].
  rewrite string_of_list_ascii_of_string.
  assert (exists a rest, label = String a rest /\ ci "f" a = true) as (a & rest & -> & Ha).
  { destruct H as [H | [H | H]]; (destruct label as [| a rest];
      [cbn [ci_match] in H; discriminate H |]);
      cbn [ci_match] in H; apply andb_true_iff in H as [Ha _]; eauto. }
  destruct a as [[] [] [] [] [] [] [] []]; try discriminate Ha; reflexivity.
Qed.

Lemma label_of_table (label : string) (c : captures) (v : list ascii) :
  ci_match "table" label = true ->
  label_of ((2%nat, v) :: (1%nat, list_ascii_of_string label) :: c) = "table".
Proof.
  intros H. unfold label_of, group_text. cbn [capture Nat.eqb].
  rewrite string_of_list_ascii_of_string.
  destruct label as [| a rest]; [cbn [ci_match] in H; discriminate H |].
  cbn [ci_match] in H. apply andb_true_iff in H as [Ha _].
  destruct a as [[] [] [] [] [] [] [] []]; try discriminate Ha;
    destruct rest; reflexivity.
Qed.

(** The locator depends on the identifier through the label type and the
    number only. *)
Lemma findPageForQuery_by_label (w : World) (pdfUrl q q' : string) (m m' : captures) :
  exec identifier_pattern q = Some m ->
  exec identifier_pattern q' = Some m' ->
  label_of m = label_of m' -> number_of m = number_of m' ->
  findPageForQuery w pdfUrl (JStr q) = findPageForQuery w pdfUrl (JStr q').
Proof.
  intros Hq Hq' Hl Hn. unfold findPageForQuery. rewrite Hq, Hq'. cbv zeta.
  fold (label_of m) (label_of m') (number_of m) (number_of m').
  rewrite Hl, Hn. reflexivity.
Qed.

End LabelFacts.

(** X25.  The locator does not depend on how the label is written: a
    figure named Figure, Fig or Fig. in any case, with any white space
    before its number, is located as Figure N is, and a table in any case
    as Table N is. *)
Theorem label_spelling_is_immaterial
        (w : World) (pdfUrl label gap N : string) :
  forallb Regex.is_space (list_ascii_of_string gap) = true ->
  Regex.is_number N = true ->
  (Regex.ci_match "figure" label = true \/ Regex.ci_match "fig" label = true
   \/ Regex.ci_match "fig." label = true ->
   findPageForQuery w pdfUrl (JStr (label +:+ gap +:+ N))
   = findPageForQuery w pdfUrl (JStr ("Figure " +:+ N)))
  /\ (Regex.ci_match "table" label = true ->
      findPageForQuery w pdfUrl (JStr (label +:+ gap +:+ N))
      = findPageForQuery w pdfUrl (JStr ("Table " +:+ N))).
Proof.
  intros Hgap HN. split; intros Hlabel.
  - eapply LabelFacts.findPageForQuery_by_label.
    + apply LabelFacts.identifier_reads; [| exact Hgap | exact HN].
      destruct Hlabel as [H | [H | H]]; auto.
    + apply (LabelFacts.identifier_reads "Figure" " " N); [left | |]; auto.
    + rewrite (LabelFacts.label_of_figure label) by exact Hlabel.
      rewrite (LabelFacts.label_of_figure "Figure") by (left; reflexivity). reflexivity.
    + reflexivity.
  - eapply LabelFacts.findPageForQuery_by_label.
    + apply LabelFacts.identifier_reads; [| exact Hgap | exact HN]. auto.
    + apply (LabelFacts.identifier_reads "Table" " " N); [right; right; right | |]; auto.
    + rewrite (LabelFacts.label_of_table label) by exact Hlabel.
      rewrite (LabelFacts.label_of_table "Table") by reflexivity. reflexivity.
    + reflexivity.
Qed.

(** *** Uploading papers *)

Section UploadFacts.
Variable rt : Runtime.
Variable w : World.

Lemma extractPdfText_resolves (blobUrl : string) :
  exists text, fst (extractPdfText w blobUrl) = Ok text
               /\ inference_calls (snd (extractPdfText w blobUrl)) = 0%nat.
Proof.
  unfold extractPdfText. destruct (pdfjsLib w); cbn [negb].
  2:{ exists EmptyString. split; reflexivity. }
  unfold await. destruct (getDocument w blobUrl) as [pdf |].
  2:{ exists EmptyString. split; reflexivity. }
  rewrite bind_ok. cbv beta.
  pose proof (page_text_quiet pdf 1) as Hq. apply quiet_silent in Hq.
  destruct (page_text pdf 1) as [[t | e] tr]; simpl in *.
  - exists t. split; [reflexivity |]. apply silent_no_calls, Hq.
  - exists EmptyString. split; [reflexivity |].
    rewrite inference_calls_app, (silent_no_calls tr Hq). reflexivity.
Qed.

(** One readable file: one paper, one inference call. *)
Lemma upload_one_readable (n : nat) (file : File) :
  readAsDataURL file <> None ->
  exists p, fst (upload_one rt w n file) = Ok p
            /\ fileName p = file_name file
            /\ up_url p = objectURL file
            /\ up_id p = randomUUID w n
            /\ (file_name file <> EmptyString -> truthy_value (up_title p) = true)
            /\ inference_calls (snd (upload_one rt w n file)) = 1%nat.
Proof.
  intros Hread. unfold upload_one, fileToBase64.
  destruct (readAsDataURL file) as [result |]; [| congruence].
  rewrite bind_ret_l. cbv zeta.
  destruct (extractPdfText_resolves (objectURL file)) as (text & Ht & Hc0).
  rewrite (bind_fst_ok _ text _ Ht). cbn [fst snd].
  destruct (extractPaperMetadata_resolves rt w text (file_name file)) as (m & Hm & Htitle).
  pose proof (extractPaperMetadata_one_call rt w text (file_name file)) as Hc1.
  rewrite (bind_fst_ok _ m _ Hm). cbn [fst snd].
  eexists. split; [reflexivity |]. cbn [fileName up_url up_id up_title].
  repeat (split; [reflexivity |]).
  split.
  - intros Hn. apply Htitle, truthy_nonempty, Hn.
  - rewrite !inference_calls_app, Hc0, Hc1. reflexivity.
Qed.

Lemma upload_one_unreadable (n : nat) (file : File) :
  readAsDataURL file = None ->
  upload_one rt w n file = (Throw (Rejected "FileReader"), []).
Proof. intros H. unfold upload_one, fileToBase64. rewrite H. reflexivity. Qed.

Lemma upload_all_readable (files : list File) (acc : list UploadedPaper) :
  Forall (fun file => readAsDataURL file <> None) files ->
  exists newPapers,
    fst (upload_all rt w files acc) = Ok (acc ++ newPapers)
    /\ Forall2 (fun file p =>
                  fileName p = file_name file
                  /\ up_url p = objectURL file
                  /\ (file_name file <> EmptyString -> truthy_value (up_title p) = true))
               files newPapers
    /\ map up_id newPapers = map (randomUUID w) (seq (1 + length acc) (length files))
    /\ inference_calls (snd (upload_all rt w files acc)) = length files.
Proof.
  intros Hfiles. revert acc. induction Hfiles as [| file rest Hfile _ IH]; intros acc.
  - exists []. rewrite app_nil_r. repeat split. constructor.
  - destruct (upload_one_readable (1 + length acc) file Hfile)
      as (p & Hp & H1 & H2 & H3 & H4 & Hc).
    cbn [upload_all]. rewrite (bind_fst_ok _ p _ Hp). cbn [fst snd].
    destruct (IH (acc ++ [p])) as (more & Hmore & Hbuilt & Hids & Hcalls).
    exists (p :: more). split; [| split; [| split]].
    + rewrite Hmore, <- app_assoc. reflexivity.
    + constructor; [auto | exact Hbuilt].
    + cbn [map length seq]. rewrite H3, Hids, length_app. cbn [length].
      replace (1 + (length acc + 1))%nat with (S (1 + length acc)) by lia. reflexivity.
    + rewrite inference_calls_app, Hc, Hcalls. reflexivity.
Qed.

Lemma upload_all_stops (before after : list File) (bad : File) (acc : list UploadedPaper) :
  Forall (fun file => readAsDataURL file <> None) before ->
  readAsDataURL bad = None ->
  exists e, fst (upload_all rt w (before ++ bad :: after) acc) = Throw e
            /\ inference_calls (snd (upload_all rt w (before ++ bad :: after) acc))
               = length before.
Proof.
  intros Hbefore Hbad. revert acc.
  induction Hbefore as [| file rest Hfile _ IH]; intros acc.
  - cbn [app upload_all]. rewrite (upload_one_unreadable _ bad Hbad).
    eexists. split; reflexivity.
  - destruct (upload_one_readable (1 + length acc) file Hfile)
      as (p & Hp & _ & _ & _ & _ & Hc).
    cbn [app upload_all]. rewrite (bind_fst_ok _ p _ Hp). cbn [fst snd].
    destruct (IH (acc ++ [p])) as (e & He & Hcalls).
    exists e. split; [exact He |].
    rewrite inference_calls_app, Hc, Hcalls. reflexivity.
Qed.
End UploadFacts.

(** X27.  When every file can be read, [handleUpload] adds one paper per
    file, in the order of the files, after the papers already there: each
    with the name and the object URL of its file, an identifier of its
    own (the one drawn when the paper is created) and, for a non-empty
    file name, a truthy title.  It makes one inference call per file,
    clears the processing flag, appends two system messages and, if no
    paper was active, makes the first new paper active. *)
Theorem handleUpload_adds_one_paper_per_file
        (rt : Runtime) (w : World) (file : File) (more : list File) (st : UploadState) :
  Forall (fun f => readAsDataURL f <> None) (file :: more) ->
  exists first rest,
    st_papers (fst (handleUpload rt w (Some (file :: more)) st))
    = st_papers st ++ first :: rest
    /\ built_from w (file :: more) (first :: rest)
    /\ st_isProcessing (fst (handleUpload rt w (Some (file :: more)) st)) = false
    /\ length (st_messages (fst (handleUpload rt w (Some (file :: more)) st)))
       = (length (st_messages st) + 2)%nat
    /\ st_activePaperId (fst (handleUpload rt w (Some (file :: more)) st))
       = (if falsy_id (st_activePaperId st) then Some (up_id first)
          else st_activePaperId st)
    /\ inference_calls (snd (handleUpload rt w (Some (file :: more)) st))
       = length (file :: more).
Proof.
  intros Hfiles.
  destruct (upload_all_readable rt w (file :: more) [] Hfiles)
    as (newPapers & Hnew & Hbuilt & Hids & Hcalls).
  destruct newPapers as [| first rest]; [inversion Hbuilt |].
  exists first, rest. unfold handleUpload. cbv zeta.
  destruct (upload_all rt w (file :: more) []) as [r t]. cbn [fst snd] in Hnew, Hcalls.
  subst r. cbn [app fst snd st_papers st_isProcessing st_messages st_activePaperId].
  split; [reflexivity |]. split; [split; [exact Hbuilt | exists 1%nat; exact Hids] |].
  split; [reflexivity |].
  split; [rewrite length_app; reflexivity |]. split; [reflexivity | exact Hcalls].
Qed.

(** X28.  A file that cannot be read stops the whole upload: no paper is
    added, not even those of the files before it, the active paper stays,
    only the first system message is appended, and the processing flag
    stays set; one inference call was made for each file before the
    unreadable one. *)
Theorem handleUpload_stops_at_an_unreadable_file
        (rt : Runtime) (w : World) (before after : list File) (bad : File)
        (st : UploadState) :
  Forall (fun f => readAsDataURL f <> None) before ->
  readAsDataURL bad = None ->
  st_papers (fst (handleUpload rt w (Some (before ++ bad :: after)) st)) = st_papers st
  /\ st_activePaperId (fst (handleUpload rt w (Some (before ++ bad :: after)) st))
     = st_activePaperId st
  /\ st_isProcessing (fst (handleUpload rt w (Some (before ++ bad :: after)) st)) = true
  /\ length (st_messages (fst (handleUpload rt w (Some (before ++ bad :: after)) st)))
     = (length (st_messages st) + 1)%nat
  /\ inference_calls (snd (handleUpload rt w (Some (before ++ bad :: after)) st))
     = length before.
Proof.
  intros Hbefore Hbad.
  destruct (upload_all_stops rt w before after bad [] Hbefore Hbad) as (e & He & Hcalls).
  unfold handleUpload.
  destruct (before ++ bad :: after) as [| file more] eqn:E;
    [destruct before; discriminate E |].
  cbv zeta.
  destruct (upload_all rt w (file :: more) []) as [r t]. cbn [fst snd] in He, Hcalls.
  subst r. cbn [fst snd st_papers st_isProcessing st_messages st_activePaperId].
  repeat (split; [reflexivity |]).
  split; [rewrite length_app; reflexivity | exact Hcalls].
Qed.

(** *** The corpus and its active paper *)

Lemma handleUpload_keeps_active (rt : Runtime) (w : World) (files : option (list File))
      (st : UploadState) :
  active_in_corpus st -> active_in_corpus (fst (handleUpload rt w files st)).
Proof.
  intros Hst. unfold handleUpload.
  destruct files as [[| file more] |]; try exact Hst.
  cbv zeta. destruct (upload_all rt w (file :: more) []) as [[newPapers | e] t];
    [| exact Hst].
  unfold active_in_corpus in *. cbn [fst st_activePaperId st_papers].
  destruct newPapers as [| first rest].
  - rewrite app_nil_r. exact Hst.
  - destruct (falsy_id (st_activePaperId st)).
    + exists first. split; [| reflexivity].
      apply elem_of_app. right. apply elem_of_cons. left. reflexivity.
    + destruct (st_activePaperId st) as [active |]; [| exact I].
      destruct Hst as (p & Hp & Hid). exists p. split; [| exact Hid].
      apply elem_of_app. left. exact Hp.
Qed.

Lemma handleDeletePaper_keeps_active (id : string) (st : UploadState) :
  active_in_corpus st -> active_in_corpus (handleDeletePaper id st).
Proof.
  unfold active_in_corpus, handleDeletePaper. cbn [st_activePaperId st_papers].
  destruct (st_activePaperId st) as [active |]; [| auto].
  intros (p & Hp & Hid). destruct (String.eqb active id) eqn:E; [exact I |].
  exists p. split; [| exact Hid].
  apply list_elem_of_In, filter_In. split; [apply list_elem_of_In, Hp |].
  rewrite Hid, E. reflexivity.
Qed.

Lemma handleUpdatePaper_ids (updatedPaper : UploadedPaper) (st : UploadState) :
  map up_id (st_papers (handleUpdatePaper updatedPaper st)) = map up_id (st_papers st).
Proof.
  unfold handleUpdatePaper. cbn [st_papers]. rewrite map_map. apply map_ext.
  intros p. destruct (String.eqb (up_id p) (up_id updatedPaper)) eqn:E; [| reflexivity].
  apply String.eqb_eq in E. symmetry. exact E.
Qed.

Lemma handleUpdatePaper_keeps_active (updatedPaper : UploadedPaper) (st : UploadState) :
  active_in_corpus st -> active_in_corpus (handleUpdatePaper updatedPaper st).
Proof.
  unfold active_in_corpus. cbn [handleUpdatePaper st_activePaperId].
  destruct (st_activePaperId st) as [active |]; [| auto].
  intros (p & Hp & Hid).
  assert (Hin : In active (map up_id (st_papers (handleUpdatePaper updatedPaper st)))).
  { rewrite handleUpdatePaper_ids. apply in_map_iff. exists p.
    split; [exact Hid | apply list_elem_of_In, Hp]. }
  apply in_map_iff in Hin as (q & Hq & Hqin).
  exists q. split; [apply list_elem_of_In, Hqin | exact Hq].
Qed.

(** X29.  The handlers that change the corpus keep the active paper
    inside it: if the active paper is a paper of the corpus, it still is
    after [handleDeletePaper], after [handleUpdatePaper] and after
    [handleUpload], completed or not.  A deleted identifier names no paper
    any more, and an update changes no identifier. *)
Theorem corpus_handlers_keep_the_active_paper
        (rt : Runtime) (w : World) (st : UploadState) :
  active_in_corpus st ->
  (forall id,
      active_in_corpus (handleDeletePaper id st)
      /\ Forall (fun p => up_id p <> id) (st_papers (handleDeletePaper id st)))
  /\ (forall updatedPaper,
         active_in_corpus (handleUpdatePaper updatedPaper st)
         /\ map up_id (st_papers (handleUpdatePaper updatedPaper st))
            = map up_id (st_papers st))
  /\ (forall files, active_in_corpus (fst (handleUpload rt w files st))).
Proof.
  intros Hst. split; [| split].
  - intros id. split; [apply handleDeletePaper_keeps_active, Hst |].
    unfold handleDeletePaper. cbn [st_papers]. apply Forall_forall. intros p Hp.
    apply list_elem_of_In, filter_In in Hp as [_ Hp].
    apply negb_true_iff, String.eqb_neq in Hp. exact Hp.
  - intros u. split; [apply handleUpdatePaper_keeps_active, Hst |].
    apply handleUpdatePaper_ids.
  - intros files. apply handleUpload_keeps_active, Hst.
Qed.

(** *** The image viewer *)

Module ZoomFacts.
Import Zoom.

Lemma max_ge_l (a b : Q) : (a <= max a b)%Q.
Proof.
  unfold max. destruct (Qle_bool a b) eqn:E; [apply Qle_bool_iff, E | apply Qle_refl].
Qed.

Lemma max_le (a b c : Q) : (a <= c)%Q -> (b <= c)%Q -> (max a b <= c)%Q.
Proof. intros Ha Hb. unfold max. destruct (Qle_bool a b); assumption. Qed.

Lemma min_le_r (a b : Q) : (min a b <= b)%Q.
Proof.
  unfold min. destruct (Qle_bool a b) eqn:E; [apply Qle_bool_iff, E | apply Qle_refl].
Qed.

Lemma min_le_l (a b : Q) : (min a b <= a)%Q.
Proof.
  unfold min. destruct (Qle_bool a b) eqn:E; [apply Qle_refl |].
  apply Qlt_le_weak, Qnot_le_lt. intros H. apply Qle_bool_iff in H. congruence.
Qed.

Lemma min_ge (a b c : Q) : (c <= a)%Q -> (c <= b)%Q -> (c <= min a b)%Q.
Proof. intros Ha Hb. unfold min. destruct (Qle_bool a b); assumption. Qed.

Lemma half_le_six : (1 # 2 <= 6)%Q.
Proof. discriminate. Qed.

Lemma one_in_range (v : option nat) : zoom_in_range {| viewIndex := v; scale := 1 |}.
Proof. split; discriminate. Qed.

Lemma step_in_range (st : State) (ev : Action) :
  zoom_in_range st -> zoom_in_range (step st ev).
Proof.
  intros [Hlo Hhi]. destruct ev as [deltaY | | | v | images]; cbn [step].
  - destruct (viewIndex st); [| split; assumption]. split; cbn [scale].
    + apply min_ge; [apply max_ge_l | exact half_le_six].
    + apply min_le_r.
  - destruct (viewIndex st); [| split; assumption]. split; cbn [scale].
    + apply max_ge_l.
    + apply max_le; [exact half_le_six |].
      apply Qle_trans with (scale st); [| exact Hhi].
      rewrite <- (Qplus_0_r (scale st)) at 2. apply Qplus_le_r. discriminate.
  - destruct (viewIndex st); [| split; assumption]. split; cbn [scale].
    + apply min_ge; [exact half_le_six |].
      apply Qle_trans with (scale st); [exact Hlo |].
      rewrite <- (Qplus_0_r (scale st)) at 1. apply Qplus_le_r. discriminate.
    + apply min_le_l.
  - destruct (same_view (viewIndex st) v); [split; assumption | apply one_in_range].
  - apply one_in_range.
Qed.

End ZoomFacts.

(** X30.  The zoom of the image viewer stays between 50% and 600%:
    whatever wheel movements, button presses, changes of view and
    openings happen, in any order, the scale lies between 0.5 and 6; and
    in the grid the wheel leaves it alone. *)
Theorem zoom_stays_in_range (events : list Zoom.Action) :
  (1 # 2 <= Zoom.scale (Zoom.after events) /\ Zoom.scale (Zoom.after events) <= 6)%Q
  /\ (forall st deltaY, Zoom.viewIndex st = None ->
                        Zoom.step st (Zoom.Wheel deltaY) = st).
Proof.
  split.
  - unfold Zoom.after.
    assert (H : forall st, zoom_in_range st ->
                           zoom_in_range (fold_left Zoom.step events st)).
    { induction events as [| ev rest IH]; intros st Hst; [exact Hst |].
      apply IH, ZoomFacts.step_in_range, Hst. }
    apply (H Zoom.initial). apply ZoomFacts.one_in_range.
  - intros st deltaY Hv. unfold Zoom.step. rewrite Hv. reflexivity.
Qed.

(** *** The further properties on the samples *)

Lemma rasteriser_gets_an_existing_page_witness :
  is_Some (getPage ChatSample.five_pages 3)
  /\ fst (renderPageAsImage Sample.rt0 OrchestratorSample.w_pages "blob:paper" 3)
     <> Throw (Rejected "getPage").
Proof.
  apply (rasteriser_gets_an_existing_page Sample.rt0 OrchestratorSample.w_pages
           "blob:paper" ChatSample.five_pages (JStr "Figure 1") 3).
  - reflexivity.
  - reflexivity.
  - simpl. lia.
  - intros i Hi. simpl in Hi.
    destruct i as [| [| [| [| [| [| i]]]]]]; try lia; eexists; reflexivity.
  - vm_compute. reflexivity.
Defined.

Lemma unopenable_document_gives_none_processed_witness :
  Forall2 (fulfilled Sample.rt0 OrchestratorSample.w_no_document
             (url OrchestratorSample.paper))
          OrchestratorSample.three_targets
          (map failure_record OrchestratorSample.three_targets)
  /\ exists trace,
      visualizeFigure Sample.rt0 OrchestratorSample.w_no_document "show the figures"
        (Some OrchestratorSample.paper) [2; 0; 1]%nat
      = Some (new_message OrchestratorSample.w_no_document none_processed true, trace).
Proof.
  apply (unopenable_document_gives_none_processed Sample.rt0
           OrchestratorSample.w_no_document "show the figures" OrchestratorSample.paper
           [2; 0; 1]%nat OrchestratorSample.three_targets).
  - right. reflexivity.
  - vm_compute. reflexivity.
  - repeat constructor.
  - simpl. solve_Permutation.
Defined.

Lemma accepted_box_reaches_cropImage_witness :
  exists name ns drawn,
    ToString Sample.rt0 (JStr "Figure 1") = Some name
    /\ numbers Sample.rt0
         [Sample.num 100; Sample.num 100; Sample.num 600; Sample.num 900] = Some ns
    /\ fails_a_gate ns = false
    /\ detectAndCrop Sample.rt0 ChatSample.w_box (JStr "Figure 1") "PAGE"
       = (fst (cropImage Sample.rt0 ChatSample.w_box "PAGE" ns),
          call_generateContent (detection_request name "PAGE")
            :: snd (cropImage Sample.rt0 ChatSample.w_box "PAGE" ns))
    /\ snd (cropImage Sample.rt0 ChatSample.w_box "PAGE" ns)
       = call_cropImage "PAGE" ns :: drawn
    /\ Forall silent drawn.
Proof.
  apply (accepted_box_reaches_cropImage Sample.rt0 ChatSample.w_box (JStr "Figure 1") "PAGE"
           [Sample.num 100; Sample.num 100; Sample.num 600; Sample.num 900]).
  - vm_compute. reflexivity.
  - vm_compute. reflexivity.
Defined.

Lemma extractPaperMetadata_reads_2000_characters_witness :
  metadata_request (string_of_list_ascii (repeat "x"%char 2000) +:+ "and more") "paper.pdf"
  = metadata_request (string_of_list_ascii (repeat "x"%char 2000)) "paper.pdf"
  /\ extractPaperMetadata Sample.rt0 w_inference_down
       (string_of_list_ascii (repeat "x"%char 2000) +:+ "and more") "paper.pdf"
     = extractPaperMetadata Sample.rt0 w_inference_down
         (string_of_list_ascii (repeat "x"%char 2000)) "paper.pdf".
Proof.
  apply (extractPaperMetadata_reads_2000_characters Sample.rt0 w_inference_down
           (string_of_list_ascii (repeat "x"%char 2000)) "and more" "paper.pdf").
  vm_compute. lia.
Defined.

Lemma generateKnowledgeGraph_fallback_holds_every_paper_witness :
  generateKnowledgeGraph Sample.rt0 w_inference_down (map paper ChatSample.corpus)
  = (Ok (JArr [JObj [("topic", JStr "General Collection");
                     ("paperIds", JArr [JStr "p1"; JStr "p2"])]]),
     [call_generateContent ChatSample.graph_of_corpus;
      console_error "Graph generation failed"]).
Proof.
  apply (generateKnowledgeGraph_fallback_holds_every_paper Sample.rt0 w_inference_down
           (map paper ChatSample.corpus) ChatSample.graph_of_corpus).
  - simpl. discriminate.
  - reflexivity.
  - left. reflexivity.
Defined.

Lemma profile_text_keeps_the_object_witness :
  profile_text (Some ("Here is the profile: " +:+ "{" +:+ (quoted "name" +:+ ": " +:+ quoted "Ada")
                        +:+ "}" +:+ " Hope this helps."))
  = "{" +:+ (quoted "name" +:+ ": " +:+ quoted "Ada") +:+ "}"
  /\ profile_text (Some (fenced ("{" +:+ (quoted "name" +:+ ": " +:+ quoted "Ada") +:+ "}")))
     = "{" +:+ (quoted "name" +:+ ": " +:+ quoted "Ada") +:+ "}".
Proof.
  apply (profile_text_keeps_the_object "Here is the profile: "
           (quoted "name" +:+ ": " +:+ quoted "Ada") " Hope this helps.");
    vm_compute; reflexivity.
Defined.

Lemma handleSendMessage_answers_the_active_request_witness :
  exists appended opened,
    handleSendMessage Sample.rt0 OrchestratorSample.w_pages
      (ChatSample.assistant (Some (ChatSample.said "Hello.")))
      "You are Sofia." "What is this paper about?" CHAT ChatSample.corpus None []
      [0; 1; 2]%nat true
    = Some (appended, opened)
    /\ (true = true ->
        exists r, appended = Some r
                  /\ msg_content (message r) <> EmptyString
                  /\ role (message r) = "model")
    /\ (true = false -> appended = None).
Proof.
  apply (handleSendMessage_answers_the_active_request Sample.rt0 OrchestratorSample.w_pages
           (ChatSample.assistant (Some (ChatSample.said "Hello.")))
           "You are Sofia." "What is this paper about?" CHAT ChatSample.corpus None []
           [0; 1; 2]%nat true).
  intros targets H. vm_compute in H. injection H as <-. simpl. reflexivity.
Defined.


Lemma figure_reference_is_visualized_witness :
  route ("fig." +:+ " " +:+ "12" +:+ ", what does it show?") CHAT = to_visualizeFigure.
Proof.
  apply (figure_reference_is_visualized "fig." " " "12" ", what does it show?").
  - right. right. left. vm_compute. reflexivity.
  - vm_compute. reflexivity.
  - vm_compute. reflexivity.
Defined.

Lemma paper_command_is_routed_to_the_chat_witness :
  route "open the paper by Turing" RESEARCH_GAP = route "open the paper by Turing" CHAT
  /\ (route "open the paper by Turing" RESEARCH_GAP = to_visualizeFigure
      \/ route "open the paper by Turing" RESEARCH_GAP = to_sendMessage)
  /\ (Regex.test Pattern.viz_noun (Str.toLowerCase "open the paper by Turing") = false ->
      route "open the paper by Turing" RESEARCH_GAP = to_sendMessage).
Proof.
  apply (paper_command_is_routed_to_the_chat "open the paper by Turing" RESEARCH_GAP).
  vm_compute. reflexivity.
Defined.

Lemma zoom_images_are_the_processed_figures_witness :
  exists content,
    render_content Sample.rt0 ChatSample.records = Some content
    /\ zoom_images content = map (shown Sample.rt0) (List.filter succeeded ChatSample.records).
Proof.
  apply (zoom_images_are_the_processed_figures Sample.rt0 ChatSample.records).
  repeat constructor.
Defined.

Lemma label_spelling_is_immaterial_witness :
  (Regex.ci_match "figure" "FIG." = true \/ Regex.ci_match "fig" "FIG." = true
   \/ Regex.ci_match "fig." "FIG." = true ->
   findPageForQuery (LocatorSample.over LocatorSample.figure_caption) "blob:paper"
     (JStr ("FIG." +:+ "  " +:+ "2"))
   = findPageForQuery (LocatorSample.over LocatorSample.figure_caption) "blob:paper"
       (JStr ("Figure " +:+ "2")))
  /\ (Regex.ci_match "table" "FIG." = true ->
      findPageForQuery (LocatorSample.over LocatorSample.figure_caption) "blob:paper"
        (JStr ("FIG." +:+ "  " +:+ "2"))
      = findPageForQuery (LocatorSample.over LocatorSample.figure_caption) "blob:paper"
          (JStr ("Table " +:+ "2"))).
Proof.
  apply (label_spelling_is_immaterial (LocatorSample.over LocatorSample.figure_caption)
           "blob:paper" "FIG." "  " "2").
  - vm_compute. reflexivity.
  - vm_compute. reflexivity.
Defined.

Lemma handleUpload_adds_one_paper_per_file_witness :
  exists first rest,
    st_papers (fst (handleUpload Sample.rt0 w_inference_down
                      (Some [ChatSample.pdf_file "a.pdf"; ChatSample.pdf_file "b.pdf"])
                      ChatSample.fresh))
    = st_papers ChatSample.fresh ++ first :: rest
    /\ built_from w_inference_down
         [ChatSample.pdf_file "a.pdf"; ChatSample.pdf_file "b.pdf"] (first :: rest)
    /\ st_isProcessing
         (fst (handleUpload Sample.rt0 w_inference_down
                 (Some [ChatSample.pdf_file "a.pdf"; ChatSample.pdf_file "b.pdf"])
                 ChatSample.fresh)) = false
    /\ length (st_messages
                 (fst (handleUpload Sample.rt0 w_inference_down
                         (Some [ChatSample.pdf_file "a.pdf"; ChatSample.pdf_file "b.pdf"])
                         ChatSample.fresh)))
       = (length (st_messages ChatSample.fresh) + 2)%nat
    /\ st_activePaperId
         (fst (handleUpload Sample.rt0 w_inference_down
                 (Some [ChatSample.pdf_file "a.pdf"; ChatSample.pdf_file "b.pdf"])
                 ChatSample.fresh))
       = (if falsy_id (st_activePaperId ChatSample.fresh)
          then Some (up_id first)
          else st_activePaperId ChatSample.fresh)
    /\ inference_calls
         (snd (handleUpload Sample.rt0 w_inference_down
                 (Some [ChatSample.pdf_file "a.pdf"; ChatSample.pdf_file "b.pdf"])
                 ChatSample.fresh))
       = length [ChatSample.pdf_file "a.pdf"; ChatSample.pdf_file "b.pdf"].
Proof.
  apply (handleUpload_adds_one_paper_per_file Sample.rt0 w_inference_down
           (ChatSample.pdf_file "a.pdf") [ChatSample.pdf_file "b.pdf"] ChatSample.fresh).
  repeat constructor; simpl; discriminate.
Defined.

Lemma handleUpload_stops_at_an_unreadable_file_witness :
  st_papers (fst (handleUpload Sample.rt0 w_inference_down
                    (Some ([ChatSample.pdf_file "a.pdf"]
                             ++ ChatSample.broken_file "b.pdf" :: [ChatSample.pdf_file "c.pdf"]))
                    ChatSample.fresh))
  = st_papers ChatSample.fresh
  /\ st_activePaperId
       (fst (handleUpload Sample.rt0 w_inference_down
               (Some ([ChatSample.pdf_file "a.pdf"]
                        ++ ChatSample.broken_file "b.pdf" :: [ChatSample.pdf_file "c.pdf"]))
               ChatSample.fresh))
     = st_activePaperId ChatSample.fresh
  /\ st_isProcessing
       (fst (handleUpload Sample.rt0 w_inference_down
               (Some ([ChatSample.pdf_file "a.pdf"]
                        ++ ChatSample.broken_file "b.pdf" :: [ChatSample.pdf_file "c.pdf"]))
               ChatSample.fresh)) = true
  /\ length (st_messages
               (fst (handleUpload Sample.rt0 w_inference_down
                       (Some ([ChatSample.pdf_file "a.pdf"]
                                ++ ChatSample.broken_file "b.pdf"
                                :: [ChatSample.pdf_file "c.pdf"]))
                       ChatSample.fresh)))
     = (length (st_messages ChatSample.fresh) + 1)%nat
  /\ inference_calls
       (snd (handleUpload Sample.rt0 w_inference_down
               (Some ([ChatSample.pdf_file "a.pdf"]
                        ++ ChatSample.broken_file "b.pdf" :: [ChatSample.pdf_file "c.pdf"]))
               ChatSample.fresh))
     = length [ChatSample.pdf_file "a.pdf"].
Proof.
  apply (handleUpload_stops_at_an_unreadable_file Sample.rt0 w_inference_down
           [ChatSample.pdf_file "a.pdf"] [ChatSample.pdf_file "c.pdf"]
           (ChatSample.broken_file "b.pdf") ChatSample.fresh).
  - repeat constructor; simpl; discriminate.
  - reflexivity.
Defined.

Lemma corpus_handlers_keep_the_active_paper_witness :
  (forall id,
      active_in_corpus (handleDeletePaper id ChatSample.one_paper)
      /\ Forall (fun p => up_id p <> id) (st_papers (handleDeletePaper id ChatSample.one_paper)))
  /\ (forall updatedPaper,
         active_in_corpus (handleUpdatePaper updatedPaper ChatSample.one_paper)
         /\ map up_id (st_papers (handleUpdatePaper updatedPaper ChatSample.one_paper))
            = map up_id (st_papers ChatSample.one_paper))
  /\ (forall files,
         active_in_corpus
           (fst (handleUpload Sample.rt0 w_inference_down files ChatSample.one_paper))).
Proof.
  apply (corpus_handlers_keep_the_active_paper Sample.rt0 w_inference_down
           ChatSample.one_paper).
  simpl. eexists. split; [apply list_elem_of_here | reflexivity].
Defined.
